(** * Verification of the azurerm provider's resource framework glue

    Shallow embedding of the Go sources:
    - the storage-accounts lookup cache              (package [client]),
    - the containerized Linux Function App resource       (package [appservice]),
    - the ServiceBus subscription / authorization-rule resources
      and the Kubernetes cluster data source.

    Go values are modelled as they are written: a nil-able pointer is an
    [option], a Go [map] is a [gmap], a [(value, error)] result keeps both
    components, [time.Duration] is an integer number of nanoseconds. *)

From Stdlib Require Import ZArith String List Lia.
From stdpp Require Import base option list gmap strings.

Local Open Scope string_scope.
Local Open Scope list_scope.

(** ** Go errors

    A Go [error] is either produced outside the code under study (by the
    cloud SDK, a parser or a helper) or built with [fmt.Errorf].  For the
    latter the format string and the arguments are kept as they are
    written, so that "the returned error wraps [err]" is a statement about
    the arguments of the outermost [fmt.Errorf]. *)

Inductive error : Type :=
| ExternalError (msg : string)
| Errorf (format : string) (args : list fmtarg)
with fmtarg : Type :=
| ArgString (s : string)
| ArgError (e : error)
| ArgNil
(* a [*string] argument, which the verbs print as an address *)
| ArgStringPointer (p : option string).

(** [wraps outer inner]: [outer] was built by [fmt.Errorf] with [inner]
    among its arguments. *)
Definition wraps (outer inner : error) : Prop :=
  match outer with
  | Errorf _ args => In (ArgError inner) args
  | ExternalError _ => False
  end.

(** ** Programs over a state that log what they do

    Go code that threads package-level or receiver state and talks to the
    outside world is embedded as a function from the state to a result, the
    new state and the events it produced, in program order. *)

Section Prog.
Context {St Ev : Type}.

Definition Prog (A : Type) : Type := St -> A * St * list Ev.

Definition ret {A} (a : A) : Prog A := fun s => (a, s, []).

Definition bind {A B} (m : Prog A) (f : A -> Prog B) : Prog B :=
  fun s =>
    let '(a, s1, e1) := m s in
    let '(b, s2, e2) := f a s1 in
    (b, s2, e1 ++ e2).

End Prog.

Notation "'do' x <- c1 ; c2" := (bind c1 (fun x => c2))
  (at level 10, x name, c1 at level 100, c2 at level 200).
Notation "'exec' c1 ; c2" := (bind c1 (fun _ => c2))
  (at level 10, c1 at level 100, c2 at level 200).

(** ** Go's [strings] package, on byte strings *)

Module GoStrings.

Definition chars : string -> list Ascii.ascii := list_ascii_of_string.

Definition HasPrefix (s prefix : string) : bool :=
  bool_decide (chars prefix `prefix_of` chars s).

Definition HasSuffix (s suffix : string) : bool :=
  bool_decide (chars suffix `suffix_of` chars s).

Definition TrimPrefix (s prefix : string) : string :=
  if HasPrefix s prefix
  then string_of_list_ascii (drop (length (chars prefix)) (chars s))
  else s.

Definition TrimSuffix (s suffix : string) : string :=
  if HasSuffix s suffix
  then string_of_list_ascii (take (length (chars s) - length (chars suffix)) (chars s))
  else s.

(** [strings.Contains]: [substr] starts at some position of [s]. *)
Fixpoint containsFrom (s substr : list Ascii.ascii) : bool :=
  bool_decide (substr `prefix_of` s)
  || match s with
     | [] => false
     | _ :: rest => containsFrom rest substr
     end.

Definition Contains (s substr : string) : bool := containsFrom (chars s) (chars substr).

(** [strings.Index]: the position of the first instance of [substr] in
    [s], or -1. *)
Fixpoint indexFrom (s substr : list Ascii.ascii) (i : Z) : Z :=
  if bool_decide (substr `prefix_of` s) then i
  else match s with
       | [] => (-1)%Z
       | _ :: rest => indexFrom rest substr (i + 1)%Z
       end.

Definition Index (s substr : string) : Z := indexFrom (chars s) (chars substr) 0.

(** [s[i:]] *)
Definition sliceFrom (s : string) (i : Z) : string :=
  string_of_list_ascii (drop (Z.to_nat i) (chars s)).

(** [strings.Split] for a separator that is not empty: [s] is cut at
    every instance of [sep]; [skip] characters of an instance are still to
    be passed over and [current] holds the piece being read, reversed. *)
Fixpoint splitFrom (s sep : list Ascii.ascii) (skip : nat) (current : list Ascii.ascii)
  : list string :=
  match s with
  | [] => [string_of_list_ascii (rev current)]
  | c :: rest =>
      match skip with
      | S k => splitFrom rest sep k current
      | 0 =>
          if bool_decide (sep `prefix_of` s)
          then string_of_list_ascii (rev current) :: splitFrom rest sep (length sep - 1) []
          else splitFrom rest sep 0 (c :: current)
      end
  end.

Definition Split (s sep : string) : list string := splitFrom (chars s) (chars sep) 0 [].

End GoStrings.

(** [pointer.From] (go-azure-helpers) at type [string]: the pointee, or the
    zero value for a nil pointer. *)
Definition pointer_From (v : option string) : string := default EmptyString v.

(** ** The storage-accounts cache (package [client]) *)

Module StorageCache.

(** [storage.Account] and its parts, as far as the cache code reads them. *)
Record Sku := { SkuName : string; SkuTier : string }.

Record Endpoints := {
  Blob : option string; Dfs : option string; File : option string;
  Queue : option string; Table : option string }.

Record AccountProperties := { PrimaryEndpoints : option Endpoints }.

Record Account := {
  acc_Name : option string;
  acc_ID : option string;
  acc_Kind : string;
  acc_Sku : option Sku;
  acc_AccountProperties : option AccountProperties }.

Record StorageAccountKey := { KeyName : option string; Value : option string }.

Record AccountListKeysResult := { Keys : option (list StorageAccountKey) }.

(** [commonids.StorageAccountId], of which only the resource group is read. *)
Record StorageAccountId := {
  SubscriptionId : string; ResourceGroupName : string; StorageAccountName : string }.

Record accountDetails := {
  ID : string;
  Kind : string;
  ad_Sku : option Sku;
  ResourceGroup : string;
  Properties : option AccountProperties;
  accountKey : option string;
  name : string }.

(** The two package-level locks. *)
Inductive Mutex := accountsLock | credentialsLock.

#[global] Instance Mutex_eq_dec : EqDecision Mutex.
Proof. solve_decision. Defined.

Inductive RemoteCall :=
| AccountsList
| AccountsListNextPage
| AccountsListKeys (resourceGroup accountName : string).

(** What an operation does to the shared world, in program order. *)
Inductive Event :=
| EvLock (m : Mutex)
| EvUnlock (m : Mutex)
| EvCacheRead (k : string)
| EvCacheWrite (k : string)
| EvCacheDelete (k : string)
| EvRemote (c : RemoteCall).

(** A result page of [AccountsClient.List]: the values of the page and the
    error [NextWithContext] returns when the loop advances past it. *)
Definition Pages := list (list Account * option error).

(** [Client.AccountsClient]: the remote side.  The answer to a request may
    depend on how many requests were made before it. *)
Record Client := {
  AccountsClient_List : nat -> Pages * option error;
  AccountsClient_ListKeys : nat -> string -> string -> AccountListKeysResult * option error }.

(** The package-level variable [storageAccountsCache], and the number of
    remote requests made so far. *)
Record Store := {
  storageAccountsCache : gmap string accountDetails;
  requests : nat }.

Definition M : Type -> Type := @Prog Store Event.

Definition Lock (m : Mutex) : M unit := fun s => (tt, s, [EvLock m]).
Definition Unlock (m : Mutex) : M unit := fun s => (tt, s, [EvUnlock m]).

(** [m.Lock(); defer m.Unlock(); body] *)
Definition locked {A} (m : Mutex) (body : M A) : M A :=
  exec Lock m; do r <- body; exec Unlock m; ret r.

Definition cacheLookup (k : string) : M (option accountDetails) :=
  fun s => (storageAccountsCache s !! k, s, [EvCacheRead k]).

Definition cacheStore (k : string) (v : accountDetails) : M unit :=
  fun s => (tt, {| storageAccountsCache := <[k := v]> (storageAccountsCache s);
                   requests := requests s |}, [EvCacheWrite k]).

Definition cacheDelete (k : string) : M unit :=
  fun s => (tt, {| storageAccountsCache := delete k (storageAccountsCache s);
                   requests := requests s |}, [EvCacheDelete k]).

Definition request {A} (c : RemoteCall) (answer : nat -> A) : M A :=
  fun s => (answer (requests s),
            {| storageAccountsCache := storageAccountsCache s;
               requests := S (requests s) |}, [EvRemote c]).

Definition withKey (ad : accountDetails) (k : option string) : accountDetails :=
  {| ID := ID ad; Kind := Kind ad; ad_Sku := ad_Sku ad;
     ResourceGroup := ResourceGroup ad; Properties := Properties ad;
     accountKey := k; name := name ad |}.

Section Operations.

(** [commonids.ParseStorageAccountID] (go-azure-helpers). *)
Variable ParseStorageAccountID : string -> StorageAccountId + error.

Definition populateAccountDetails (accountName : string) (props : Account)
  : accountDetails + error :=
  match acc_ID props with
  | None => inr (Errorf "`id` was nil for Account %q" [ArgString accountName])
  | Some accountId =>
      match ParseStorageAccountID accountId with
      | inr err =>
          inr (Errorf "parsing %q as a Resource ID: %+v" [ArgString accountId; ArgError err])
      | inl id =>
          inl {| name := accountName;
                 ID := accountId;
                 Kind := acc_Kind props;
                 ad_Sku := acc_Sku props;
                 ResourceGroup := ResourceGroupName id;
                 Properties := acc_AccountProperties props;
                 accountKey := None |}
      end
  end.

(** [(ad *accountDetails) AccountKey]: the receiver is mutated, so the
    updated receiver is returned next to the Go result. *)
Definition AccountKey (ad : accountDetails) (client : Client)
  : M (accountDetails * (option string * option error)) :=
  locked credentialsLock
    (match accountKey ad with
     | Some k => ret (ad, (Some k, None))
     | None =>
         do r <- request (AccountsListKeys (ResourceGroup ad) (name ad))
                (fun n => AccountsClient_ListKeys client n (ResourceGroup ad) (name ad));
         match snd r with
         | Some err =>
             ret (ad, (None, Some (Errorf "listing Keys for Storage Account %q (Resource Group %q): %+v"
                                     [ArgString (name ad); ArgString (ResourceGroup ad); ArgError err])))
         | None =>
             match Keys (fst r) with
             | Some ({| Value := Some v |} :: _) =>
                 let ad' := withKey ad (Some v) in
                 (* force-cache this *)
                 exec cacheStore (name ad) ad';
                 ret (ad', (Some v, None))
             | _ =>
                 ret (ad, (None, Some (Errorf "keys were nil for Storage Account %q (Resource Group %q): %+v"
                                         [ArgString (name ad); ArgString (ResourceGroup ad); ArgNil])))
             end
         end
     end).

Definition AddToCache (c : Client) (accountName : string) (props : Account)
  : M (option error) :=
  locked accountsLock
    (match populateAccountDetails accountName props with
     | inr err => ret (Some err)
     | inl account => exec cacheStore accountName account; ret None
     end).

Definition RemoveAccountFromCache (c : Client) (accountName : string) : M unit :=
  exec Lock accountsLock; exec cacheDelete accountName; Unlock accountsLock.

(** [for accountsPage.NotDone() { accounts = append(...); err = NextWithContext }] *)
Fixpoint drainPages (pages : Pages) (accounts : list Account)
  : M (list Account + error) :=
  match pages with
  | [] => ret (inl accounts)
  | ([], _) :: _ => ret (inl accounts)
  | (values, nextErr) :: rest =>
      do err <- request AccountsListNextPage (fun _ => nextErr);
      match err with
      | Some e =>
          ret (inr (Errorf "retrieving next page of storage accounts: %+v" [ArgError e]))
      | None => drainPages rest (accounts ++ values)
      end
  end.

(** [for _, v := range accounts { ... storageAccountsCache[*v.Name] = *account }] *)
Fixpoint cacheAccounts (accounts : list Account) : M (option error) :=
  match accounts with
  | [] => ret None
  | v :: rest =>
      match acc_Name v with
      | None => cacheAccounts rest
      | Some n =>
          match populateAccountDetails n v with
          | inr err => ret (Some err)
          | inl account => exec cacheStore n account; cacheAccounts rest
          end
      end
  end.

Definition FindAccount (c : Client) (accountName : string)
  : M (option accountDetails * option error) :=
  locked accountsLock
    (do existing <- cacheLookup accountName;
     match existing with
     | Some a => ret (Some a, None)
     | None =>
         do r <- request AccountsList (AccountsClient_List c);
         match snd r with
         | Some err =>
             ret (None, Some (Errorf "retrieving storage accounts: %+v" [ArgError err]))
         | None =>
             do drained <- drainPages (fst r) [];
             match drained with
             | inr err => ret (None, Some err)
             | inl accounts =>
                 do failed <- cacheAccounts accounts;
                 match failed with
                 | Some err => ret (None, Some err)
                 | None =>
                     do existing <- cacheLookup accountName;
                     match existing with
                     | Some a => ret (Some a, None)
                     | None => ret (None, None)
                     end
                 end
             end
         end
     end).

End Operations.

(** *** Lock discipline and remote traffic of a run *)

Definition isCacheAccess (e : Event) : bool :=
  match e with
  | EvCacheRead _ | EvCacheWrite _ | EvCacheDelete _ => true
  | _ => false
  end.

Definition isRemote (e : Event) : bool :=
  match e with EvRemote _ => true | _ => false end.

(** Whether [m] is held after [evs], given whether it was held before. *)
Fixpoint heldAfter (m : Mutex) (held : bool) (evs : list Event) : bool :=
  match evs with
  | [] => held
  | EvLock m' :: rest => heldAfter m (held || bool_decide (m' = m)) rest
  | EvUnlock m' :: rest => heldAfter m (held && negb (bool_decide (m' = m))) rest
  | _ :: rest => heldAfter m held rest
  end.

(** Every access to the cache in [evs] happens while [m] is held. *)
Fixpoint guardedFrom (m : Mutex) (held : bool) (evs : list Event) : bool :=
  match evs with
  | [] => true
  | EvLock m' :: rest => guardedFrom m (held || bool_decide (m' = m)) rest
  | EvUnlock m' :: rest => guardedFrom m (held && negb (bool_decide (m' = m))) rest
  | e :: rest => (if isCacheAccess e then held else true) && guardedFrom m held rest
  end.

(** A run that starts with no lock held keeps the cache under [m]. *)
Definition guarded (m : Mutex) (evs : list Event) : bool := guardedFrom m false evs.

(** The run made no remote request. *)
Definition offline (evs : list Event) : Prop := Forall (fun e => isRemote e = false) evs.

(** Events that leave the locks alone. *)
Definition lockFree (evs : list Event) : Prop :=
  Forall (fun e => match e with EvLock _ | EvUnlock _ => False | _ => True end) evs.

(** The accounts a listing yields: the values of its pages, up to the first
    empty page, where [NotDone] ends the loop. *)
Fixpoint listed (pages : Pages) : list Account :=
  match pages with
  | [] => []
  | ([], _) :: _ => []
  | (values, _) :: rest => values ++ listed rest
  end.

(** The events of a [FindAccount] call answered from the cache. *)
Definition hit (accountName : string) : list Event :=
  [EvLock accountsLock; EvCacheRead accountName; EvUnlock accountsLock].

(** *** Data-plane endpoints *)

Definition EndpointType := string.
Definition EndpointTypeBlob : EndpointType := "blob".
Definition EndpointTypeDfs : EndpointType := "dfs".
Definition EndpointTypeFile : EndpointType := "file".
Definition EndpointTypeQueue : EndpointType := "queue".
Definition EndpointTypeTable : EndpointType := "table".

Definition endpointTypes : list EndpointType :=
  [EndpointTypeBlob; EndpointTypeDfs; EndpointTypeFile; EndpointTypeQueue; EndpointTypeTable].

(** The [switch endpointType] of [DataPlaneEndpoint]: the field of the
    primary endpoints the matching case reads, or [None] in the [default]
    case. *)
Definition primaryEndpoint (endpoints : Endpoints) (endpointType : EndpointType)
  : option (option string) :=
  if String.eqb endpointType EndpointTypeBlob then Some (Blob endpoints)
  else if String.eqb endpointType EndpointTypeDfs then Some (Dfs endpoints)
  else if String.eqb endpointType EndpointTypeFile then Some (File endpoints)
  else if String.eqb endpointType EndpointTypeQueue then Some (Queue endpoints)
  else if String.eqb endpointType EndpointTypeTable then Some (Table endpoints)
  else None.

(** [(ad *accountDetails) DataPlaneEndpoint]: the base URI, or the error. *)
Definition DataPlaneEndpoint (ad : accountDetails) (endpointType : EndpointType)
  : string + error :=
  match Properties ad with
  | None => inr (Errorf "storage account %q has no properties" [ArgString (name ad)])
  | Some props =>
      match PrimaryEndpoints props with
      | None => inr (Errorf "storage account %q has missing endpoints" [ArgString (name ad)])
      | Some endpoints =>
          match primaryEndpoint endpoints endpointType with
          | None =>
              inr (Errorf "internal-error: unrecognised endpoint type %q when building storage client"
                     [ArgString endpointType])
          | Some endpoint =>
              let baseUri :=
                match endpoint with
                | Some uri => GoStrings.TrimSuffix uri "/"
                | None => EmptyString
                end in
              if String.eqb baseUri EmptyString
              then inr (Errorf "determining storage account %s endpoint for : %q"
                          [ArgString endpointType; ArgString (name ad)])
              else inl baseUri
          end
      end
  end.

End StorageCache.

(** ** The containerized Linux Function App model (package [appservice]) *)

Module AppService.

(** [helpers.Registry] *)
Record Registry := {
  Server : string; UserName : string; Password : string; Identity : string }.

(** The fields of [helpers.SiteConfigLinuxFunctionAppOnContainer] other
    than [AppInsightsConnectionString]. *)
Record SiteConfigOther := { Use32BitWorker : bool; FtpsState : string }.

(** Code of the repository this file calls but does not define. *)
Class Helpers := {
  (** [utils.NormalizeNilableString] *)
  NormalizeNilableString : option string -> string;
  (** [helpers.ParseWebJobsStorageString] *)
  ParseWebJobsStorageString : option string -> string * string }.

Section Model.
Context `{Helpers}.

Record SiteConfigLinuxFunctionAppOnContainer := {
  AppInsightsConnectionString : string;
  sc_other : SiteConfigOther }.

Record LinuxFunctionAppOnContainerModel := {
  Name : string;
  ResourceGroup : string;
  ManagedEnvironmentId : string;
  StorageAccountName : string;
  StorageAccountKey : string;
  StorageKeyVaultSecretID : string;
  BuiltinLogging : bool;
  AppSettings : option (gmap string string);
  FunctionExtensionsVersion : string;
  Registries : list Registry;
  ContainerImage : string;
  SiteConfig : list SiteConfigLinuxFunctionAppOnContainer;
  Tags : option (gmap string string) }.

(** [web.StringDictionary]: only [Properties], a [map[string]*string]. *)
Record StringDictionary := { Properties : option (gmap string (option string)) }.

Definition set_BuiltinLogging (m : LinuxFunctionAppOnContainerModel) (b : bool) :=
  {| Name := Name m; ResourceGroup := ResourceGroup m;
     ManagedEnvironmentId := ManagedEnvironmentId m;
     StorageAccountName := StorageAccountName m;
     StorageAccountKey := StorageAccountKey m;
     StorageKeyVaultSecretID := StorageKeyVaultSecretID m;
     BuiltinLogging := b; AppSettings := AppSettings m;
     FunctionExtensionsVersion := FunctionExtensionsVersion m;
     Registries := Registries m; ContainerImage := ContainerImage m;
     SiteConfig := SiteConfig m; Tags := Tags m |}.

Definition set_AppSettings (m : LinuxFunctionAppOnContainerModel)
    (a : option (gmap string string)) :=
  {| Name := Name m; ResourceGroup := ResourceGroup m;
     ManagedEnvironmentId := ManagedEnvironmentId m;
     StorageAccountName := StorageAccountName m;
     StorageAccountKey := StorageAccountKey m;
     StorageKeyVaultSecretID := StorageKeyVaultSecretID m;
     BuiltinLogging := BuiltinLogging m; AppSettings := a;
     FunctionExtensionsVersion := FunctionExtensionsVersion m;
     Registries := Registries m; ContainerImage := ContainerImage m;
     SiteConfig := SiteConfig m; Tags := Tags m |}.

Definition set_FunctionExtensionsVersion (m : LinuxFunctionAppOnContainerModel)
    (v : string) :=
  {| Name := Name m; ResourceGroup := ResourceGroup m;
     ManagedEnvironmentId := ManagedEnvironmentId m;
     StorageAccountName := StorageAccountName m;
     StorageAccountKey := StorageAccountKey m;
     StorageKeyVaultSecretID := StorageKeyVaultSecretID m;
     BuiltinLogging := BuiltinLogging m; AppSettings := AppSettings m;
     FunctionExtensionsVersion := v;
     Registries := Registries m; ContainerImage := ContainerImage m;
     SiteConfig := SiteConfig m; Tags := Tags m |}.

Definition set_StorageKeyVaultSecretID (m : LinuxFunctionAppOnContainerModel)
    (v : string) :=
  {| Name := Name m; ResourceGroup := ResourceGroup m;
     ManagedEnvironmentId := ManagedEnvironmentId m;
     StorageAccountName := StorageAccountName m;
     StorageAccountKey := StorageAccountKey m;
     StorageKeyVaultSecretID := v;
     BuiltinLogging := BuiltinLogging m; AppSettings := AppSettings m;
     FunctionExtensionsVersion := FunctionExtensionsVersion m;
     Registries := Registries m; ContainerImage := ContainerImage m;
     SiteConfig := SiteConfig m; Tags := Tags m |}.

Definition set_StorageAccount (m : LinuxFunctionAppOnContainerModel)
    (nk : string * string) :=
  {| Name := Name m; ResourceGroup := ResourceGroup m;
     ManagedEnvironmentId := ManagedEnvironmentId m;
     StorageAccountName := fst nk;
     StorageAccountKey := snd nk;
     StorageKeyVaultSecretID := StorageKeyVaultSecretID m;
     BuiltinLogging := BuiltinLogging m; AppSettings := AppSettings m;
     FunctionExtensionsVersion := FunctionExtensionsVersion m;
     Registries := Registries m; ContainerImage := ContainerImage m;
     SiteConfig := SiteConfig m; Tags := Tags m |}.

Definition set_SiteConfig (m : LinuxFunctionAppOnContainerModel)
    (sc : list SiteConfigLinuxFunctionAppOnContainer) :=
  {| Name := Name m; ResourceGroup := ResourceGroup m;
     ManagedEnvironmentId := ManagedEnvironmentId m;
     StorageAccountName := StorageAccountName m;
     StorageAccountKey := StorageAccountKey m;
     StorageKeyVaultSecretID := StorageKeyVaultSecretID m;
     BuiltinLogging := BuiltinLogging m; AppSettings := AppSettings m;
     FunctionExtensionsVersion := FunctionExtensionsVersion m;
     Registries := Registries m; ContainerImage := ContainerImage m;
     SiteConfig := sc; Tags := Tags m |}.

(** [m.SiteConfig[0].AppInsightsConnectionString = v]; indexing an empty
    slice panics, which is [None]. *)
Definition set_AppInsights (m : LinuxFunctionAppOnContainerModel) (v : string)
  : option LinuxFunctionAppOnContainerModel :=
  match SiteConfig m with
  | [] => None
  | sc :: rest =>
      Some (set_SiteConfig m
              ({| AppInsightsConnectionString := v; sc_other := sc_other sc |} :: rest))
  end.

(** The locals and the receiver of [unpackLinuxFunctionAppOnContainerAppSettings]
    while the loop runs. *)
Record Unpacking := {
  model : LinuxFunctionAppOnContainerModel;
  dockerSettings : Registry;
  appSettings : gmap string string }.

(** One iteration of [for k, v := range input.Properties { switch k {...} }]. *)
Definition unpackEntry (st : Unpacking) (kv : string * option string)
  : option Unpacking :=
  let '(k, v) := kv in
  let m := model st in
  let ds := dockerSettings st in
  let upd m' := Some {| model := m'; dockerSettings := ds; appSettings := appSettings st |} in
  let dock ds' := Some {| model := m; dockerSettings := ds'; appSettings := appSettings st |} in
  if String.eqb k "FUNCTIONS_EXTENSION_VERSION" then
    upd (set_FunctionExtensionsVersion m (pointer_From v))
  else if String.eqb k "DOCKER_REGISTRY_SERVER_URL" then
    dock {| Server := pointer_From v; UserName := UserName ds; Password := Password ds;
            Identity := Identity ds |}
  else if String.eqb k "DOCKER_REGISTRY_SERVER_USERNAME" then
    dock {| Server := Server ds; UserName := NormalizeNilableString v; Password := Password ds;
            Identity := Identity ds |}
  else if String.eqb k "DOCKER_REGISTRY_SERVER_PASSWORD" then
    dock {| Server := Server ds; UserName := UserName ds; Password := NormalizeNilableString v;
            Identity := Identity ds |}
  else if String.eqb k "APPLICATIONINSIGHTS_CONNECTION_STRING" then
    m' ← set_AppInsights m (NormalizeNilableString v); upd m'
  else if String.eqb k "AzureWebJobsStorage" then
    match v with
    | Some s =>
        if GoStrings.HasPrefix s "@Microsoft.KeyVault"
        then upd (set_StorageKeyVaultSecretID m
                    (GoStrings.TrimPrefix (GoStrings.TrimSuffix s ")")
                       "@Microsoft.KeyVault(SecretUri="))
        else upd (set_StorageAccount m (ParseWebJobsStorageString v))
    | None => upd (set_StorageAccount m (ParseWebJobsStorageString v))
    end
  else
    Some {| model := m; dockerSettings := ds;
            appSettings := <[k := NormalizeNilableString v]> (appSettings st) |}.

Fixpoint unpackEntries (st : Unpacking) (kvs : list (string * option string))
  : option Unpacking :=
  match kvs with
  | [] => Some st
  | kv :: rest => st' ← unpackEntry st kv; unpackEntries st' rest
  end.

(** [range] over a Go map visits every key once, in an order the language
    leaves open: [order] is the order of one run. *)
Definition enumerates (order : list (string * option string))
    (props : gmap string (option string)) : Prop :=
  order ≡ₚ map_to_list props.

(** [(m *LinuxFunctionAppOnContainerModel) unpackLinuxFunctionAppOnContainerAppSettings(input)],
    run with the loop visiting [order]; [None] is a panic. *)
Definition unpackLinuxFunctionAppOnContainerAppSettings
    (order : list (string * option string))
    (m : LinuxFunctionAppOnContainerModel) (input : StringDictionary)
  : option LinuxFunctionAppOnContainerModel :=
  match Properties input with
  | None => Some m
  | Some _ =>
      st ← unpackEntries
             {| model := set_BuiltinLogging m false;
                dockerSettings := {| Server := EmptyString; UserName := EmptyString;
                                     Password := EmptyString; Identity := EmptyString |};
                appSettings := ∅ |}
             order;
      Some (set_AppSettings (model st) (Some (appSettings st)))
  end.

(** The keys the [switch] names. *)
Definition reserved (k : string) : bool :=
  String.eqb k "FUNCTIONS_EXTENSION_VERSION"
  || String.eqb k "DOCKER_REGISTRY_SERVER_URL"
  || String.eqb k "DOCKER_REGISTRY_SERVER_USERNAME"
  || String.eqb k "DOCKER_REGISTRY_SERVER_PASSWORD"
  || String.eqb k "APPLICATIONINSIGHTS_CONNECTION_STRING"
  || String.eqb k "AzureWebJobsStorage".

(** The secret ID an [AzureWebJobsStorage] entry decodes to, if it is a
    Key Vault reference. *)
Definition keyVaultSecret (k : string) (v : option string) : option string :=
  if String.eqb k "AzureWebJobsStorage" then
    match v with
    | Some s =>
        if GoStrings.HasPrefix s "@Microsoft.KeyVault"
        then Some (GoStrings.TrimPrefix (GoStrings.TrimSuffix s ")") "@Microsoft.KeyVault(SecretUri=")
        else None
    | None => None
    end
  else None.

(** The key whose case writes [m.SiteConfig[0]]. *)
Definition appInsightsKey : string := "APPLICATIONINSIGHTS_CONNECTION_STRING".

End Model.

End AppService.

(** ** Resource identifiers (package [parse])

    The ID structs are written as the resource code uses them: every field
    is a [string].  The constructors, formatters and parsers of the package
    are not part of the files under study and are taken as an interface. *)

Module parse.

Module TopicId.
Record t := { SubscriptionId : string; ResourceGroup : string;
              NamespaceName : string; Name : string }.
End TopicId.

Module NamespaceId.
Record t := { SubscriptionId : string; ResourceGroup : string; Name : string }.
End NamespaceId.

Module SubscriptionId.
Record t := { SubscriptionId : string; ResourceGroup : string;
              NamespaceName : string; TopicName : string; Name : string }.
(** [var resourceId parse.SubscriptionId] *)
Definition zero : t := Build_t EmptyString EmptyString EmptyString EmptyString EmptyString.
End SubscriptionId.

Module NamespaceAuthorizationRuleId.
Record t := { SubscriptionId : string; ResourceGroup : string;
              NamespaceName : string; AuthorizationRuleName : string }.
Definition zero : t := Build_t EmptyString EmptyString EmptyString EmptyString.
End NamespaceAuthorizationRuleId.

Module TopicAuthorizationRuleId.
Record t := { SubscriptionId : string; ResourceGroup : string;
              NamespaceName : string; TopicName : string;
              AuthorizationRuleName : string }.
Definition zero : t := Build_t EmptyString EmptyString EmptyString EmptyString EmptyString.
End TopicAuthorizationRuleId.

Module ClusterId.
Record t := { SubscriptionId : string; ResourceGroup : string;
              ManagedClusterName : string }.
End ClusterId.

Module FunctionAppId.
Record t := { SubscriptionId : string; ResourceGroup : string; SiteName : string }.
End FunctionAppId.

(** A parser returns a pointer to the ID and an error: the pointer is nil
    exactly when the error is not. *)
Class Package := {
  NewTopicID : string -> string -> string -> string -> TopicId.t;
  NewNamespaceID : string -> string -> string -> NamespaceId.t;
  NewSubscriptionID : string -> string -> string -> string -> string -> SubscriptionId.t;
  NewNamespaceAuthorizationRuleID :
    string -> string -> string -> string -> NamespaceAuthorizationRuleId.t;
  NewTopicAuthorizationRuleID :
    string -> string -> string -> string -> string -> TopicAuthorizationRuleId.t;
  NewClusterID : string -> string -> string -> ClusterId.t;
  NewFunctionAppID : string -> string -> string -> FunctionAppId.t;

  TopicID : string -> TopicId.t + error;
  NamespaceID : string -> NamespaceId.t + error;
  SubscriptionID : string -> SubscriptionId.t + error;
  NamespaceAuthorizationRuleID : string -> NamespaceAuthorizationRuleId.t + error;
  TopicAuthorizationRuleID : string -> TopicAuthorizationRuleId.t + error;
  FunctionAppID : string -> FunctionAppId.t + error;

  (** the [ID()] methods *)
  TopicId_ID : TopicId.t -> string;
  NamespaceId_ID : NamespaceId.t -> string;
  SubscriptionId_ID : SubscriptionId.t -> string;
  NamespaceAuthorizationRuleId_ID : NamespaceAuthorizationRuleId.t -> string;
  TopicAuthorizationRuleId_ID : TopicAuthorizationRuleId.t -> string;
  ClusterId_ID : ClusterId.t -> string;
  FunctionAppId_ID : FunctionAppId.t -> string;

  (** the [String()] methods, which [%s] prints *)
  SubscriptionId_String : SubscriptionId.t -> string;
  NamespaceAuthorizationRuleId_String : NamespaceAuthorizationRuleId.t -> string;
  TopicAuthorizationRuleId_String : TopicAuthorizationRuleId.t -> string;
  ClusterId_String : ClusterId.t -> string;
  FunctionAppId_String : FunctionAppId.t -> string }.

End parse.

(** ** The provider plumbing the handlers run on *)

Module pluginsdk.

(** [time.Duration] counts nanoseconds. *)
Definition Duration := Z.
Definition Nanosecond : Duration := 1%Z.
Definition Second : Duration := (1000000000 * Nanosecond)%Z.
Definition Minute : Duration := (60 * Second)%Z.
Definition Hour : Duration := (60 * Minute)%Z.

Record ResourceTimeout := {
  Create : option Duration;
  Read : option Duration;
  Update : option Duration;
  Delete : option Duration }.

(** [pluginsdk.DefaultTimeout(d)] is a pointer to the duration. *)
Definition DefaultTimeout (d : Duration) : option Duration := Some d.

Inductive TimeoutKey := TimeoutCreate | TimeoutRead | TimeoutUpdate | TimeoutDelete.

(** An attribute value held by [ResourceData]. *)
Inductive Value :=
| VString (s : string)
| VBool (b : bool)
| VInt (n : Z).

(** [*pluginsdk.ResourceData], as the handlers use it. *)
Record ResourceData := {
  Id : string;
  IsNewResource : bool;
  attrs : gmap string Value;
  changed : gset string;
  partial : bool;
  timeouts : TimeoutKey -> Duration }.

Definition GetString (d : ResourceData) (k : string) : string :=
  match attrs d !! k with Some (VString s) => s | _ => EmptyString end.

Definition GetBool (d : ResourceData) (k : string) : bool :=
  match attrs d !! k with Some (VBool b) => b | _ => false end.

Definition GetInt (d : ResourceData) (k : string) : Z :=
  match attrs d !! k with Some (VInt n) => n | _ => 0%Z end.

Definition HasChange (d : ResourceData) (k : string) : bool :=
  bool_decide (k ∈ changed d).

Definition Timeout (d : ResourceData) (k : TimeoutKey) : Duration := timeouts d k.

Definition SetId (v : string) (d : ResourceData) : ResourceData :=
  {| Id := v; IsNewResource := IsNewResource d; attrs := attrs d;
     changed := changed d; partial := partial d; timeouts := timeouts d |}.

(** [d.Set(k, v)] *)
Definition Set_ (k : string) (v : Value) (d : ResourceData) : ResourceData :=
  {| Id := Id d; IsNewResource := IsNewResource d; attrs := <[k := v]> (attrs d);
     changed := changed d; partial := partial d; timeouts := timeouts d |}.

Definition Partial (b : bool) (d : ResourceData) : ResourceData :=
  {| Id := Id d; IsNewResource := IsNewResource d; attrs := attrs d;
     changed := changed d; partial := b; timeouts := timeouts d |}.

(** Setting an attribute from a nil-able SDK field stores the zero value
    for nil. *)
Definition stringPtr (p : option string) : Value := VString (default EmptyString p).
Definition boolPtr (p : option bool) : Value := VBool (default false p).

(** [pluginsdk.ImporterValidatingResourceId(validate)]: the importer keeps
    the function it validates IDs with. *)
Record ResourceImporter := { validateId : string -> option error }.

Definition ImporterValidatingResourceId (validate : string -> option error)
  : ResourceImporter := {| validateId := validate |}.

End pluginsdk.

(** ** The cloud SDK boundary

    Every call into an SDK client is an event: the request with its
    arguments and the reply the remote side gave.  A reply carries the HTTP
    response, the Go [error] and the decoded body. *)

Module servicebus.

Record SBSubscriptionProperties := {
  AutoDeleteOnIdle : option string;
  DefaultMessageTimeToLive : option string;
  LockDuration : option string;
  DeadLetteringOnMessageExpiration : option bool;
  DeadLetteringOnFilterEvaluationExceptions : option bool;
  EnableBatchedOperations : option bool;
  MaxDeliveryCount : option Z;
  RequiresSession : option bool;
  ForwardTo : option string;
  ForwardDeadLetteredMessagesTo : option string;
  Status : string }.

Record SBSubscription := { sub_Properties : option SBSubscriptionProperties }.

(** [*[]servicebus.AccessRights] *)
Definition Rights := option (list string).

Record SBAuthorizationRuleProperties := { rule_Rights : Rights }.

Record SBAuthorizationRule := {
  rule_Name : option string;
  rule_Properties : option SBAuthorizationRuleProperties }.

Record AccessKeys := {
  PrimaryKey : option string;
  PrimaryConnectionString : option string;
  SecondaryKey : option string;
  SecondaryConnectionString : option string;
  AliasPrimaryConnectionString : option string;
  AliasSecondaryConnectionString : option string }.

End servicebus.

Module containerservice.

(** What the data source reads of a managed cluster itself; the rest goes
    to flatten helpers defined elsewhere. *)
Class Types := {
  ClusterDetails : Type }.

(** [containerservice.NetworkProfile], with the fields the data source
    flattens. *)
Record NetworkProfile := {
  NetworkPlugin : string;
  NetworkPolicy : string;
  ServiceCidr : option string;
  DNSServiceIP : option string;
  DockerBridgeCidr : option string;
  PodCidr : option string;
  LoadBalancerSku : string }.

Section Types.
Context `{Types}.

Record ManagedClusterProperties := {
  (* [AadProfile != nil] *)
  AadProfileSet : bool;
  DisableLocalAccounts : option bool;
  props_NetworkProfile : option NetworkProfile;
  props_details : ClusterDetails }.

Record ManagedCluster := {
  Name : option string;
  Location : option string;
  Properties : option ManagedClusterProperties;
  cluster_details : ClusterDetails }.

End Types.

End containerservice.

Module web.

Class Types := {
  (** [web.NameValuePair] *)
  NameValuePair : Type;
  (** the fields of [web.SiteConfig] the code under study does not name,
      and their zero value *)
  SiteConfigDetails : Type;
  zeroDetails : SiteConfigDetails }.

Section Types.
Context `{Types}.

Record SiteConfig := {
  LinuxFxVersion : option string;
  (* [*[]NameValuePair] *)
  AppSettings : option (list NameValuePair);
  FtpsState : option string;
  Use32BitWorkerProcess : option bool;
  config_details : SiteConfigDetails }.

(** [&SiteConfig{}] *)
Definition zeroSiteConfig : SiteConfig :=
  {| LinuxFxVersion := None; AppSettings := None; FtpsState := None;
     Use32BitWorkerProcess := None; config_details := zeroDetails |}.

Record SiteProperties := {
  props_SiteConfig : option SiteConfig;
  ManagedEnvironmentID : option string }.

Record Site := {
  Tags : option (gmap string (option string));
  Location : option string;
  Kind : option string;
  site_Properties : option SiteProperties }.

Record ResourceNameAvailability := {
  NameAvailable : option bool;
  Message : option string }.

End Types.

End web.

(** ** The flatten functions of the Kubernetes cluster data source *)

(** Package [kubernetes]: the parsed kube config, with the fields the data
    source reads. *)
Module kubernetes.

Record clusterItemCluster := { ClusterAuthorityData : string; Server : string }.
Record clusterItem := { Cluster : clusterItemCluster }.
Record userItemUser := {
  ClientCertificteData : string; Token : string; ClientKeyData : string }.
Record userItem := { Name : string; User : userItemUser }.
Record KubeConfig := { Clusters : list clusterItem; Users : list userItem }.

Record userItemAAD := { aad_Name : string }.
Record KubeConfigAAD := { aad_Clusters : list clusterItem; aad_Users : list userItemAAD }.

End kubernetes.

Module clusterdata.

(** The SDK structs the profile flatteners read. *)
Record AccessProfile := { KubeConfig : option string }.
Record ManagedClusterAccessProfile := { profile_AccessProfile : option AccessProfile }.

Record ContainerServiceSSHPublicKey := { KeyData : option string }.
Record ContainerServiceSSHConfiguration := {
  PublicKeys : option (list ContainerServiceSSHPublicKey) }.
Record LinuxProfile := {
  AdminUsername : option string;
  SSH : option ContainerServiceSSHConfiguration }.
Record ManagedClusterWindowsProfile := { win_AdminUsername : option string }.
Record ManagedClusterServicePrincipalProfile := { ClientID : option string }.

(** A value of a flattened block: a string, or a list of blocks of strings. *)
Inductive Attr :=
| AString (s : string)
| ABlocks (blocks : list (gmap string string)).

(** [config.Clusters[0]] and [config.Users[0]] panic on an empty slice:
    [None]. *)
Definition flattenKubernetesClusterDataSourceKubeConfig (config : kubernetes.KubeConfig)
  : option (list (gmap string string)) :=
  match kubernetes.Clusters config, kubernetes.Users config with
  | c :: _, u :: _ =>
      let cluster := kubernetes.Cluster c in
      let user := kubernetes.User u in
      let name := kubernetes.Name u in
      let values : gmap string string := ∅ in
      let values := <["host" := kubernetes.Server cluster]> values in
      let values := <["username" := name]> values in
      let values := <["password" := kubernetes.Token user]> values in
      let values := <["client_certificate" := kubernetes.ClientCertificteData user]> values in
      let values := <["client_key" := kubernetes.ClientKeyData user]> values in
      let values :=
        <["cluster_ca_certificate" := kubernetes.ClusterAuthorityData cluster]> values in
      Some [values]
  | _, _ => None
  end.

Definition flattenKubernetesClusterDataSourceKubeConfigAAD (config : kubernetes.KubeConfigAAD)
  : option (list (gmap string string)) :=
  match kubernetes.aad_Clusters config, kubernetes.aad_Users config with
  | c :: _, u :: _ =>
      let cluster := kubernetes.Cluster c in
      let name := kubernetes.aad_Name u in
      let values : gmap string string := ∅ in
      let values := <["host" := kubernetes.Server cluster]> values in
      let values := <["username" := name]> values in
      let values := <["password" := EmptyString]> values in
      let values := <["client_certificate" := EmptyString]> values in
      let values := <["client_key" := EmptyString]> values in
      let values :=
        <["cluster_ca_certificate" := kubernetes.ClusterAuthorityData cluster]> values in
      Some [values]
  | _, _ => None
  end.

Section AccessProfiles.

(** [kubernetes.ParseKubeConfig], [kubernetes.ParseKubeConfigAAD]; the
    config they return with a nil error is not nil. *)
Variable ParseKubeConfig : string -> kubernetes.KubeConfig + error.
Variable ParseKubeConfigAAD : string -> kubernetes.KubeConfigAAD + error.

(** The raw config and the flattened block; [None] is a panic. *)
Definition flattenKubernetesClusterDataSourceAccessProfile
    (profile : ManagedClusterAccessProfile)
  : option (option string * list (gmap string string)) :=
  match profile_AccessProfile profile with
  | None => Some (None, [])
  | Some accessProfile =>
      match KubeConfig accessProfile with
      | Some rawConfig =>
          if GoStrings.Contains rawConfig "apiserver-id:" then
            match ParseKubeConfigAAD rawConfig with
            | inr _ => Some (Some rawConfig, [])
            | inl kubeConfigAAD =>
                flattenedKubeConfig ← flattenKubernetesClusterDataSourceKubeConfigAAD kubeConfigAAD;
                Some (Some rawConfig, flattenedKubeConfig)
            end
          else
            match ParseKubeConfig rawConfig with
            | inr _ => Some (Some rawConfig, [])
            | inl kubeConfig =>
                flattenedKubeConfig ← flattenKubernetesClusterDataSourceKubeConfig kubeConfig;
                Some (Some rawConfig, flattenedKubeConfig)
            end
      | None => Some (None, [])
      end
  end.

End AccessProfiles.

Definition flattenKubernetesClusterDataSourceLinuxProfile (input : option LinuxProfile)
  : list (gmap string Attr) :=
  let values : gmap string Attr := ∅ in
  let sshKeys : list (gmap string string) := [] in
  let '(values, sshKeys) :=
    match input with
    | Some profile =>
        (match AdminUsername profile with
         | Some username => <["admin_username" := AString username]> values
         | None => values
         end,
         match SSH profile with
         | Some ssh =>
             match PublicKeys ssh with
             | Some keys =>
                 foldl (fun sshKeys sshKey =>
                          match KeyData sshKey with
                          | Some keyData => sshKeys ++ [({["key_data" := keyData]} : gmap string string)]
                          | None => sshKeys
                          end) sshKeys keys
             | None => sshKeys
             end
         | None => sshKeys
         end)
    | None => (values, sshKeys)
    end in
  [<["ssh_key" := ABlocks sshKeys]> values].

Definition flattenKubernetesClusterDataSourceWindowsProfile
    (input : option ManagedClusterWindowsProfile) : list (gmap string Attr) :=
  match input with
  | None => []
  | Some input =>
      let values : gmap string Attr := ∅ in
      [match win_AdminUsername input with
       | Some username => <["admin_username" := AString username]> values
       | None => values
       end]
  end.

Definition flattenKubernetesClusterDataSourceServicePrincipalProfile
    (profile : option ManagedClusterServicePrincipalProfile) : list (gmap string Attr) :=
  match profile with
  | None => []
  | Some profile =>
      let values : gmap string Attr := ∅ in
      [match ClientID profile with
       | Some clientID => <["client_id" := AString clientID]> values
       | None => values
       end]
  end.

(** [flattenKubernetesClusterDataSourceNetworkProfile]: the profile is
    dereferenced unchecked, so a nil profile panics: [None]. *)
Definition flattenKubernetesClusterDataSourceNetworkProfile
    (profile : option containerservice.NetworkProfile) : option (list (gmap string Attr)) :=
  match profile with
  | None => None
  | Some profile =>
      let values : gmap string Attr := ∅ in
      let values :=
        <["network_plugin" := AString (containerservice.NetworkPlugin profile)]> values in
      let values :=
        if negb (String.eqb (containerservice.NetworkPolicy profile) EmptyString)
        then <["network_policy" := AString (containerservice.NetworkPolicy profile)]> values
        else values in
      let values :=
        match containerservice.ServiceCidr profile with
        | Some v => <["service_cidr" := AString v]> values
        | None => values
        end in
      let values :=
        match containerservice.DNSServiceIP profile with
        | Some v => <["dns_service_ip" := AString v]> values
        | None => values
        end in
      let values :=
        match containerservice.DockerBridgeCidr profile with
        | Some v => <["docker_bridge_cidr" := AString v]> values
        | None => values
        end in
      let values :=
        match containerservice.PodCidr profile with
        | Some v => <["pod_cidr" := AString v]> values
        | None => values
        end in
      let values :=
        if negb (String.eqb (containerservice.LoadBalancerSku profile) EmptyString)
        then <["load_balancer_sku" := AString (containerservice.LoadBalancerSku profile)]> values
        else values in
      Some [values]
  end.

(** The keys of a flattened kube config. *)
Definition kubeConfigKeys : gset string :=
  {["host"; "username"; "password"; "client_certificate"; "client_key";
    "cluster_ca_certificate"]}.

(** The public keys of a profile, none when a pointer on the way is nil. *)
Definition publicKeys (input : option LinuxProfile) : list ContainerServiceSSHPublicKey :=
  match input with
  | Some profile =>
      match SSH profile with
      | Some ssh => default [] (PublicKeys ssh)
      | None => []
      end
  | None => []
  end.

End clusterdata.

Module sdk.

(** [autorest.Response]: nil, or an HTTP response with its status code. *)
Definition Response := option Z.

Section Calls.
Context `{containerservice.Types} `{web.Types} `{AppService.Helpers}.

Inductive Call :=
(* servicebus.SubscriptionsClient *)
| SubscriptionsGet (resourceGroup namespaceName topicName name : string)
| SubscriptionsCreateOrUpdate (resourceGroup namespaceName topicName name : string)
    (parameters : servicebus.SBSubscription)
| SubscriptionsDelete (resourceGroup namespaceName topicName name : string)
(* servicebus.NamespacesClient *)
| NamespacesGetAuthorizationRule (resourceGroup namespaceName ruleName : string)
| NamespacesCreateOrUpdateAuthorizationRule (resourceGroup namespaceName ruleName : string)
    (parameters : servicebus.SBAuthorizationRule)
| NamespacesDeleteAuthorizationRule (resourceGroup namespaceName ruleName : string)
| NamespacesListKeys (resourceGroup namespaceName ruleName : string)
(* servicebus.TopicsClient *)
| TopicsGetAuthorizationRule (resourceGroup namespaceName topicName ruleName : string)
| TopicsCreateOrUpdateAuthorizationRule (resourceGroup namespaceName topicName ruleName : string)
    (parameters : servicebus.SBAuthorizationRule)
| TopicsDeleteAuthorizationRule (resourceGroup namespaceName topicName ruleName : string)
| TopicsListKeys (resourceGroup namespaceName topicName ruleName : string)
(* waitForPairedNamespaceReplication(ctx, meta, resourceGroup, namespaceName, timeout) *)
| WaitForPairedNamespaceReplication (resourceGroup namespaceName : string)
    (timeout : pluginsdk.Duration)
(* containerservice.ManagedClustersClient *)
| ManagedClustersGet (resourceGroup name : string)
| ManagedClustersGetAccessProfile (resourceGroup name roleName : string)
(* web.AppsClient *)
| WebAppsGet (resourceGroup name : string)
| WebAppsCheckNameAvailability (name resourceType : string)
| WebAppsCreateOrUpdate (resourceGroup name : string) (siteEnvelope : web.Site)
| FutureWaitForCompletionRef (resourceGroup name : string)
| WebAppsUpdateConfiguration (resourceGroup name : string)
    (siteConfig : option web.SiteConfig)
| WebAppsListApplicationSettings (resourceGroup name : string)
| WebAppsGetConfiguration (resourceGroup name : string)
| WebAppsDelete (resourceGroup name : string)
    (deleteMetrics deleteEmptyServerFarm : bool)
(* managedenvironments.ManagedEnvironmentsClient *)
| ManagedEnvironmentsGet (id : string).

Inductive Body :=
| NoBody
| BodySubscription (v : servicebus.SBSubscription)
| BodyAuthorizationRule (v : servicebus.SBAuthorizationRule)
| BodyAccessKeys (v : servicebus.AccessKeys)
| BodyManagedCluster (v : containerservice.ManagedCluster)
| BodyAccessProfile (v : clusterdata.ManagedClusterAccessProfile)
| BodySite (v : web.Site)
| BodyNameAvailability (v : web.ResourceNameAvailability)
| BodyStringDictionary (v : AppService.StringDictionary)
| BodySiteConfig (v : option web.SiteConfig)
(* [env.Model], nil or with its [Location] *)
| BodyManagedEnvironment (model : option string).

Record Reply := {
  reply_Response : Response;
  reply_err : option error;
  reply_body : Body }.

Definition Event : Type := Call * Reply.

(** A decoded body of the wrong shape reads as the zero value. *)
Definition asSubscription (b : Body) : servicebus.SBSubscription :=
  match b with BodySubscription v => v | _ => servicebus.Build_SBSubscription None end.

Definition asAuthorizationRule (b : Body) : servicebus.SBAuthorizationRule :=
  match b with
  | BodyAuthorizationRule v => v
  | _ => servicebus.Build_SBAuthorizationRule None None
  end.

Definition asAccessKeys (b : Body) : servicebus.AccessKeys :=
  match b with
  | BodyAccessKeys v => v
  | _ => servicebus.Build_AccessKeys None None None None None None
  end.

Definition asManagedCluster (b : Body) : option containerservice.ManagedCluster :=
  match b with BodyManagedCluster v => Some v | _ => None end.

Definition asAccessProfile (b : Body) : clusterdata.ManagedClusterAccessProfile :=
  match b with
  | BodyAccessProfile v => v
  | _ => clusterdata.Build_ManagedClusterAccessProfile None
  end.

Definition asSite (b : Body) : web.Site :=
  match b with BodySite v => v | _ => web.Build_Site None None None None end.

Definition asNameAvailability (b : Body) : web.ResourceNameAvailability :=
  match b with
  | BodyNameAvailability v => v
  | _ => web.Build_ResourceNameAvailability None None
  end.

Definition asStringDictionary (b : Body) : AppService.StringDictionary :=
  match b with
  | BodyStringDictionary v => v
  | _ => AppService.Build_StringDictionary None
  end.

Definition asSiteConfig (b : Body) : option web.SiteConfig :=
  match b with BodySiteConfig v => v | _ => None end.

Definition asEnvironmentModel (b : Body) : option string :=
  match b with BodyManagedEnvironment m => m | _ => None end.

(** [meta.( *clients.Client)] / [metadata.Client]: the account, the
    environment and the SDK clients.  The remote side answers a call
    according to the request and to how many requests came before it. *)
Record Client := {
  Account_SubscriptionId : string;
  Environment_Name : string;
  Storage_DomainSuffix : option string;
  remote : nat -> Call -> Reply }.

(** What a handler runs on: the resource data it was handed, and the number
    of SDK requests made so far. *)
Record World := {
  data : pluginsdk.ResourceData;
  clock : nat }.

Definition M : Type -> Type := @Prog World Event.

Definition call (c : Client) (q : Call) : M Reply :=
  fun w => let r := remote c (clock w) q in
           (r, {| data := data w; clock := S (clock w) |}, [(q, r)]).

Definition getData : M pluginsdk.ResourceData := fun w => (data w, w, []).

Definition modify (f : pluginsdk.ResourceData -> pluginsdk.ResourceData) : M unit :=
  fun w => (tt, {| data := f (data w); clock := clock w |}, []).

(** What a handler does for its caller: it returns an [error] (nil is
    [None]), or it panics. *)
Inductive Outcome :=
| Returned (err : option error)
| Panicked.

Definition Handler : Type := Client -> M Outcome.

Definition isResourceGet (q : Call) : bool :=
  match q with
  | SubscriptionsGet _ _ _ _
  | NamespacesGetAuthorizationRule _ _ _
  | TopicsGetAuthorizationRule _ _ _ _
  | ManagedClustersGet _ _
  | WebAppsGet _ _ => true
  | _ => false
  end.

Definition isWait (q : Call) : bool :=
  match q with
  | WaitForPairedNamespaceReplication _ _ _
  | FutureWaitForCompletionRef _ _ => true
  | _ => false
  end.

Definition isCreateOrUpdate (q : Call) : bool :=
  match q with
  | SubscriptionsCreateOrUpdate _ _ _ _ _
  | NamespacesCreateOrUpdateAuthorizationRule _ _ _ _
  | TopicsCreateOrUpdateAuthorizationRule _ _ _ _ _
  | WebAppsCreateOrUpdate _ _ _ => true
  | _ => false
  end.

(** [post m w Q]: the run of [m] from [w] ends in a result, a world and a
    trace that satisfy [Q]. *)
Definition post {A} (m : M A) (w : World) (Q : A -> World -> list Event -> Prop) : Prop :=
  Q (m w).1.1 (m w).1.2 (m w).2.

End Calls.

End sdk.

(** ** The resources *)

Module managedenvironments.
Record ManagedEnvironmentId := {
  SubscriptionId : string;
  ResourceGroupName : string;
  ManagedEnvironmentName : string }.
End managedenvironments.

Module resources.

Import pluginsdk sdk.

(** Functions of the repository (and of its libraries) that the resource
    files call but do not define. *)
Class Externals `{containerservice.Types} `{web.Types} `{AppService.Helpers} := {
  (** [features.ThreePointOhBeta()] *)
  ThreePointOhBeta : bool;
  (** [utils.ResponseWasNotFound] *)
  ResponseWasNotFound : Response -> bool;
  (** [tf.ImportAsExistsError(resourceName, id)] *)
  ImportAsExistsError : string -> string -> error;
  (** [expandAuthorizationRuleRights], [flattenAuthorizationRuleRights] *)
  expandAuthorizationRuleRights : ResourceData -> servicebus.Rights;
  flattenAuthorizationRuleRights : servicebus.Rights -> bool * bool * bool;

  (** [azure.NormalizeLocation], [location.Normalize] *)
  NormalizeLocation : string -> string;
  (** [d.Set(key, blocks)] for a list of flattened blocks, and its error *)
  setBlocks :
    string -> list (gmap string clusterdata.Attr) -> ResourceData -> ResourceData * option error;
  (** the statements of [dataSourceKubernetesClusterRead] that set the
      attributes from [dns_prefix] to [windows_profile]: the resulting data
      and the error they return, if any; [None] when the flatten code they
      run panics *)
  setClusterProfiles :
    containerservice.ManagedClusterProperties -> ResourceData ->
    option (ResourceData * option error);
  (** likewise the statements that set [role_based_access_control_enabled]
      to [service_principal] *)
  setAccessControl :
    containerservice.ManagedClusterProperties -> ResourceData ->
    option (ResourceData * option error);
  (** likewise the statements that set [kube_admin_config_raw] and
      [kube_admin_config], from [flattenKubernetesClusterAccessProfile] of the
      admin profile, or emptied when there is none *)
  setKubeAdminConfig :
    option clusterdata.ManagedClusterAccessProfile -> ResourceData ->
    option (ResourceData * option error);
  (** likewise the statements that flatten and set [identity] *)
  setIdentity :
    option containerservice.ManagedCluster -> ResourceData ->
    option (ResourceData * option error);
  (** [tags.FlattenAndSet(d, resp.Tags)] *)
  tags_FlattenAndSet :
    option containerservice.ManagedCluster -> ResourceData -> ResourceData * option error;
  (** [kubernetes.ParseKubeConfig], [kubernetes.ParseKubeConfigAAD] *)
  ParseKubeConfig : string -> kubernetes.KubeConfig + error;
  ParseKubeConfigAAD : string -> kubernetes.KubeConfigAAD + error;

  (** [metadata.Decode(&model)] *)
  Decode : ResourceData -> AppService.LinuxFunctionAppOnContainerModel + error;
  (** [metadata.ResourceRequiresImport(resourceType, id)] *)
  ResourceRequiresImport : string -> parse.FunctionAppId.t -> error;
  (** [metadata.MarkAsGone(id)] *)
  MarkAsGone : parse.FunctionAppId.t -> ResourceData -> ResourceData * option error;
  (** [managedenvironments.ParseManagedEnvironmentID] and the ID's [String()] *)
  ParseManagedEnvironmentID : string -> managedenvironments.ManagedEnvironmentId + error;
  ManagedEnvironmentId_ID : managedenvironments.ManagedEnvironmentId -> string;
  ManagedEnvironmentId_String : managedenvironments.ManagedEnvironmentId -> string;
  (** [fmt.Sprintf(helpers.StorageStringFmtKV, id)] and
      [fmt.Sprintf(helpers.StorageStringFmt, name, key, suffix)] *)
  StorageStringKV : string -> string;
  StorageString : string -> string -> string -> string;
  (** [updateOrAppendAppSettings(appSettings, name, value, remove)] *)
  updateOrAppendAppSettings :
    list web.NameValuePair -> string -> string -> bool -> list web.NameValuePair;
  (** [helpers.MergeUserAppSettings] *)
  MergeUserAppSettings :
    option (list web.NameValuePair) -> option (gmap string string) ->
    option (list web.NameValuePair);
  (** [tags.FromTypedObject], [tags.ToTypedObject] *)
  tags_FromTypedObject : option (gmap string string) -> option (gmap string (option string));
  tags_ToTypedObject : option (gmap string (option string)) -> option (gmap string string);
  (** the order in which one run of [range input.Properties] visits a map *)
  rangeOrder : gmap string (option string) -> list (string * option string) }.

Section Handlers.
Context `{parse.Package} `{Externals}.

(** [if err := check; err != nil { return err }; rest] *)
Definition orReturn (check : M (option error)) (rest : M Outcome) : M Outcome :=
  do e <- check;
  match e with
  | Some err => ret (Returned (Some err))
  | None => rest
  end.

(** A pure update of the resource data that can fail. *)
Definition update (f : ResourceData -> ResourceData * option error) : M (option error) :=
  fun w => let '(d, e) := f (data w) in (e, {| data := d; clock := clock w |}, []).

(** A step after which the handler may be over: [Some out] ends it with
    [out], [None] lets it go on. *)
Definition orStop (check : M (option Outcome)) (rest : M Outcome) : M Outcome :=
  do stopped <- check;
  match stopped with
  | Some out => ret out
  | None => rest
  end.

Definition andThen (first next : M (option Outcome)) : M (option Outcome) :=
  do stopped <- first;
  match stopped with
  | Some out => ret (Some out)
  | None => next
  end.

(** Statements that write to the resource data and may return an error or
    panic. *)
Definition updateOrPanic (f : ResourceData -> option (ResourceData * option error))
  : M (option Outcome) :=
  fun w =>
    match f (data w) with
    | None => (Some Panicked, w, [])
    | Some (d, e) =>
        (match e with
         | Some err => Some (Returned (Some err))
         | None => None
         end, {| data := d; clock := clock w |}, [])
    end.

(** [if err := d.Set(...); err != nil { return fmt.Errorf(format, err) }] *)
Definition setOrReturn (format : string) (set : ResourceData -> ResourceData * option error)
  : M (option Outcome) :=
  do failed <- update set;
  match failed with
  | Some err => ret (Some (Returned (Some (Errorf format [ArgError err]))))
  | None => ret None
  end.

Definition setAll (kvs : list (string * Value)) (d : ResourceData) : ResourceData :=
  foldl (fun d kv => Set_ kv.1 kv.2 d) d kvs.

(** A string attribute becomes a pointer only when it is not empty. *)
Definition nonEmpty (s : string) : option string :=
  if String.eqb s EmptyString then None else Some s.

(** [int32(n)] *)
Definition int32 (n : Z) : Z := ((n + 2147483648) mod 4294967296 - 2147483648)%Z.

(** [pluginsdk.Resource], without its schema. *)
Record Resource := {
  Create : option Handler;
  Read : option Handler;
  Update : option Handler;
  Delete : option Handler;
  Importer : option ResourceImporter;
  Timeouts : option ResourceTimeout }.

(** *** [azurerm_servicebus_subscription] *)

Definition resourceServiceBusSubscriptionRead : Handler := fun meta =>
  do d <- getData;
  match parse.SubscriptionID (Id d) with
  | inr err => ret (Returned (Some err))
  | inl id =>
      let rg := parse.SubscriptionId.ResourceGroup id in
      let ns := parse.SubscriptionId.NamespaceName id in
      let topic := parse.SubscriptionId.TopicName id in
      let name := parse.SubscriptionId.Name id in
      do resp <- call meta (SubscriptionsGet rg ns topic name);
      match reply_err resp with
      | Some err =>
          if ResponseWasNotFound (reply_Response resp)
          then exec modify (SetId EmptyString); ret (Returned None)
          else ret (Returned (Some (Errorf "retrieving %s: %+v"
                      [ArgString (parse.SubscriptionId_String id); ArgError err])))
      | None =>
          exec modify (setAll
            ((if negb ThreePointOhBeta
              then [("topic_name", VString topic);
                    ("namespace_name", VString ns);
                    ("resource_group_name", VString rg)]
              else [])
             ++ [("name", VString name);
                 ("topic_id", VString (parse.TopicId_ID
                    (parse.NewTopicID (parse.SubscriptionId.SubscriptionId id) rg ns topic)))]
             ++ match servicebus.sub_Properties (asSubscription (reply_body resp)) with
                | None => []
                | Some props =>
                    [("auto_delete_on_idle", stringPtr (servicebus.AutoDeleteOnIdle props));
                     ("default_message_ttl", stringPtr (servicebus.DefaultMessageTimeToLive props));
                     ("lock_duration", stringPtr (servicebus.LockDuration props));
                     ("dead_lettering_on_message_expiration",
                        boolPtr (servicebus.DeadLetteringOnMessageExpiration props));
                     ("dead_lettering_on_filter_evaluation_error",
                        boolPtr (servicebus.DeadLetteringOnFilterEvaluationExceptions props));
                     ("enable_batched_operations", boolPtr (servicebus.EnableBatchedOperations props));
                     ("requires_session", boolPtr (servicebus.RequiresSession props));
                     ("forward_to", stringPtr (servicebus.ForwardTo props));
                     ("forward_dead_lettered_messages_to",
                        stringPtr (servicebus.ForwardDeadLetteredMessagesTo props));
                     ("status", VString (servicebus.Status props))]
                    ++ match servicebus.MaxDeliveryCount props with
                       | Some count => [("max_delivery_count", VInt count)]
                       | None => []
                       end
                end));
          ret (Returned None)
      end
  end.

(** The ID the create/update handlers compute from the configuration;
    [None] when [parse.TopicID] failed and its nil result is dereferenced. *)
Definition subscriptionResourceId (meta : Client) (d : ResourceData)
  : option parse.SubscriptionId.t :=
  let topicIdLit := GetString d "topic_id" in
  if negb (String.eqb topicIdLit EmptyString) then
    match parse.TopicID topicIdLit with
    | inl topicId =>
        Some (parse.NewSubscriptionID (parse.TopicId.SubscriptionId topicId)
                (parse.TopicId.ResourceGroup topicId) (parse.TopicId.NamespaceName topicId)
                (parse.TopicId.Name topicId) (GetString d "name"))
    | inr _ => None
    end
  else if negb ThreePointOhBeta then
    Some (parse.NewSubscriptionID (Account_SubscriptionId meta)
            (GetString d "resource_group_name") (GetString d "namespace_name")
            (GetString d "topic_name") (GetString d "name"))
  else Some parse.SubscriptionId.zero.

Definition subscriptionParameters (d : ResourceData) : servicebus.SBSubscription :=
  {| servicebus.sub_Properties := Some
       {| servicebus.DeadLetteringOnMessageExpiration :=
            Some (GetBool d "dead_lettering_on_message_expiration");
          servicebus.DeadLetteringOnFilterEvaluationExceptions :=
            Some (GetBool d "dead_lettering_on_filter_evaluation_error");
          servicebus.EnableBatchedOperations := Some (GetBool d "enable_batched_operations");
          servicebus.MaxDeliveryCount := Some (int32 (GetInt d "max_delivery_count"));
          servicebus.RequiresSession := Some (GetBool d "requires_session");
          servicebus.Status := GetString d "status";
          servicebus.AutoDeleteOnIdle := nonEmpty (GetString d "auto_delete_on_idle");
          servicebus.LockDuration := nonEmpty (GetString d "lock_duration");
          servicebus.ForwardTo := nonEmpty (GetString d "forward_to");
          servicebus.ForwardDeadLetteredMessagesTo :=
            nonEmpty (GetString d "forward_dead_lettered_messages_to");
          servicebus.DefaultMessageTimeToLive := nonEmpty (GetString d "default_message_ttl") |} |}.

(** [if d.IsNewResource() { existing, err := Get(...); ... }]: the error to
    return, if any.  [get] is the GET of the resource, [shown] what [%s]
    prints for the ID. *)
Definition checkForExisting (meta : Client) (d : ResourceData) (get : Call)
    (shown resourceName id : string) : M (option error) :=
  if IsNewResource d then
    do existing <- call meta get;
    match reply_err existing with
    | Some err =>
        if negb (ResponseWasNotFound (reply_Response existing))
        then ret (Some (Errorf "checking for presence of existing %s: %+v"
                          [ArgString shown; ArgError err]))
        else ret None
    | None =>
        if negb (ResponseWasNotFound (reply_Response existing))
        then ret (Some (ImportAsExistsError resourceName id))
        else ret None
    end
  else ret None.

Definition resourceServiceBusSubscriptionCreateUpdate : Handler := fun meta =>
  do d <- getData;
  match subscriptionResourceId meta d with
  | None => ret Panicked
  | Some resourceId =>
      let rg := parse.SubscriptionId.ResourceGroup resourceId in
      let ns := parse.SubscriptionId.NamespaceName resourceId in
      let topic := parse.SubscriptionId.TopicName resourceId in
      let name := parse.SubscriptionId.Name resourceId in
      orReturn (checkForExisting meta d (SubscriptionsGet rg ns topic name)
                  (parse.SubscriptionId_String resourceId)
                  "azurerm_servicebus_subscription" (parse.SubscriptionId_ID resourceId))
        (do created <- call meta (SubscriptionsCreateOrUpdate rg ns topic name
                                    (subscriptionParameters d));
         match reply_err created with
         | Some err =>
             ret (Returned (Some (Errorf "creating/updating %s: %v"
                    [ArgString (parse.SubscriptionId_String resourceId); ArgError err])))
         | None =>
             exec modify (SetId (parse.SubscriptionId_ID resourceId));
             resourceServiceBusSubscriptionRead meta
         end)
  end.

Definition resourceServiceBusSubscriptionDelete : Handler := fun meta =>
  do d <- getData;
  match parse.SubscriptionID (Id d) with
  | inr err => ret (Returned (Some err))
  | inl id =>
      do resp <- call meta (SubscriptionsDelete (parse.SubscriptionId.ResourceGroup id)
                              (parse.SubscriptionId.NamespaceName id)
                              (parse.SubscriptionId.TopicName id)
                              (parse.SubscriptionId.Name id));
      match reply_err resp with
      | Some err =>
          ret (Returned (Some (Errorf "deleting %s: %+v"
                 [ArgString (parse.SubscriptionId_String id); ArgError err])))
      | None => ret (Returned None)
      end
  end.

(** The function handed to [ImporterValidatingResourceId]:
    [func(id string) error { _, err := parse(id); return err }]. *)
Definition errorOf {A} (parser : string -> A + error) (id : string) : option error :=
  match parser id with
  | inl _ => None
  | inr err => Some err
  end.

Definition resourceServiceBusSubscription : Resource :=
  {| Create := Some resourceServiceBusSubscriptionCreateUpdate;
     Read := Some resourceServiceBusSubscriptionRead;
     Update := Some resourceServiceBusSubscriptionCreateUpdate;
     Delete := Some resourceServiceBusSubscriptionDelete;
     Importer := Some (ImporterValidatingResourceId (errorOf parse.SubscriptionID));
     Timeouts := Some {| pluginsdk.Create := DefaultTimeout (30 * Minute)%Z;
                         pluginsdk.Read := DefaultTimeout (5 * Minute)%Z;
                         pluginsdk.Update := DefaultTimeout (30 * Minute)%Z;
                         pluginsdk.Delete := DefaultTimeout (30 * Minute)%Z |} |}.

(** *** [azurerm_servicebus_namespace_authorization_rule] *)

Definition authorizationRuleParameters (ruleName : string) (d : ResourceData)
  : servicebus.SBAuthorizationRule :=
  {| servicebus.rule_Name := Some ruleName;
     servicebus.rule_Properties :=
       Some {| servicebus.rule_Rights := expandAuthorizationRuleRights d |} |}.

(** [flattenAuthorizationRuleRights(properties.Rights)], when the rule has
    properties: [listen], [send] and [manage]. *)
Definition flattenedRights (rule : servicebus.SBAuthorizationRule)
  : option (bool * bool * bool) :=
  (fun properties => flattenAuthorizationRuleRights (servicebus.rule_Rights properties))
    <$> servicebus.rule_Properties rule.

(** The [d.Set] calls for the keys of a rule. *)
Definition keysAttrs (keysResp : servicebus.AccessKeys) : list (string * Value) :=
  [("primary_key", stringPtr (servicebus.PrimaryKey keysResp));
   ("primary_connection_string", stringPtr (servicebus.PrimaryConnectionString keysResp));
   ("secondary_key", stringPtr (servicebus.SecondaryKey keysResp));
   ("secondary_connection_string", stringPtr (servicebus.SecondaryConnectionString keysResp));
   ("primary_connection_string_alias",
      stringPtr (servicebus.AliasPrimaryConnectionString keysResp));
   ("secondary_connection_string_alias",
      stringPtr (servicebus.AliasSecondaryConnectionString keysResp))].

Definition resourceServiceBusNamespaceAuthorizationRuleRead : Handler := fun meta =>
  do d <- getData;
  match parse.NamespaceAuthorizationRuleID (Id d) with
  | inr err => ret (Returned (Some err))
  | inl id =>
      let rg := parse.NamespaceAuthorizationRuleId.ResourceGroup id in
      let ns := parse.NamespaceAuthorizationRuleId.NamespaceName id in
      let rule := parse.NamespaceAuthorizationRuleId.AuthorizationRuleName id in
      do resp <- call meta (NamespacesGetAuthorizationRule rg ns rule);
      match reply_err resp with
      | Some err =>
          if ResponseWasNotFound (reply_Response resp)
          then exec modify (SetId EmptyString); ret (Returned None)
          else ret (Returned (Some (Errorf "retrieving %s: %+v"
                      [ArgString (parse.NamespaceAuthorizationRuleId_String id); ArgError err])))
      | None =>
          do keysResp <- call meta (NamespacesListKeys rg ns rule);
          match reply_err keysResp with
          | Some err =>
              ret (Returned (Some (Errorf "listing keys for %s: %+v"
                     [ArgString (parse.NamespaceAuthorizationRuleId_String id); ArgError err])))
          | None =>
              exec modify (setAll
                ([("name", VString rule)]
                 ++ (if negb ThreePointOhBeta
                     then [("namespace_name", VString ns); ("resource_group_name", VString rg)]
                     else [])
                 ++ [("namespace_id", VString (parse.NamespaceId_ID
                        (parse.NewNamespaceID
                           (parse.NamespaceAuthorizationRuleId.SubscriptionId id) rg ns)))]
                 ++ match flattenedRights (asAuthorizationRule (reply_body resp)) with
                    | Some (listen, send, manage) =>
                        [("manage", VBool manage); ("listen", VBool listen);
                         ("send", VBool send)]
                    | None => []
                    end
                 ++ keysAttrs (asAccessKeys (reply_body keysResp))));
              ret (Returned None)
          end
      end
  end.

Definition namespaceAuthorizationRuleResourceId (meta : Client) (d : ResourceData)
  : option parse.NamespaceAuthorizationRuleId.t :=
  let namespaceIdLit := GetString d "namespace_id" in
  if negb (String.eqb namespaceIdLit EmptyString) then
    match parse.NamespaceID namespaceIdLit with
    | inl namespaceId =>
        Some (parse.NewNamespaceAuthorizationRuleID
                (parse.NamespaceId.SubscriptionId namespaceId)
                (parse.NamespaceId.ResourceGroup namespaceId)
                (parse.NamespaceId.Name namespaceId) (GetString d "name"))
    | inr _ => None
    end
  else if negb ThreePointOhBeta then
    Some (parse.NewNamespaceAuthorizationRuleID (Account_SubscriptionId meta)
            (GetString d "resource_group_name") (GetString d "namespace_name")
            (GetString d "name"))
  else Some parse.NamespaceAuthorizationRuleId.zero.

(** [if err := waitForPairedNamespaceReplication(...); err != nil { return fmt.Errorf(...) }] *)
Definition waitForReplication (meta : Client) (d : ResourceData)
    (resourceGroup namespaceName : string) : M (option error) :=
  do waited <- call meta (WaitForPairedNamespaceReplication resourceGroup namespaceName
                            (Timeout d TimeoutUpdate));
  match reply_err waited with
  | Some err =>
      ret (Some (Errorf "waiting for replication to complete for Service Bus Namespace Disaster Recovery Configs (Namespace %q / Resource Group %q): %s"
                   [ArgString namespaceName; ArgString resourceGroup; ArgError err]))
  | None => ret None
  end.

Definition resourceServiceBusNamespaceAuthorizationRuleCreateUpdate : Handler := fun meta =>
  do d <- getData;
  match namespaceAuthorizationRuleResourceId meta d with
  | None => ret Panicked
  | Some resourceId =>
      let rg := parse.NamespaceAuthorizationRuleId.ResourceGroup resourceId in
      let ns := parse.NamespaceAuthorizationRuleId.NamespaceName resourceId in
      let rule := parse.NamespaceAuthorizationRuleId.AuthorizationRuleName resourceId in
      orReturn (checkForExisting meta d (NamespacesGetAuthorizationRule rg ns rule)
                  (parse.NamespaceAuthorizationRuleId_String resourceId)
                  "azurerm_servicebus_namespace_authorization_rule"
                  (parse.NamespaceAuthorizationRuleId_ID resourceId))
        (do created <- call meta (NamespacesCreateOrUpdateAuthorizationRule rg ns rule
                                    (authorizationRuleParameters rule d));
         match reply_err created with
         | Some err =>
             ret (Returned (Some (Errorf "creating/updating %s: %+v"
                    [ArgString (parse.NamespaceAuthorizationRuleId_String resourceId);
                     ArgError err])))
         | None =>
             exec modify (SetId (parse.NamespaceAuthorizationRuleId_ID resourceId));
             orReturn (waitForReplication meta d rg ns)
               (resourceServiceBusNamespaceAuthorizationRuleRead meta)
         end)
  end.

Definition resourceServiceBusNamespaceAuthorizationRuleDelete : Handler := fun meta =>
  do d <- getData;
  match parse.NamespaceAuthorizationRuleID (Id d) with
  | inr err => ret (Returned (Some err))
  | inl id =>
      let rg := parse.NamespaceAuthorizationRuleId.ResourceGroup id in
      let ns := parse.NamespaceAuthorizationRuleId.NamespaceName id in
      let rule := parse.NamespaceAuthorizationRuleId.AuthorizationRuleName id in
      do resp <- call meta (NamespacesDeleteAuthorizationRule rg ns rule);
      match reply_err resp with
      | Some err =>
          ret (Returned (Some (Errorf "deleting %s: %+v"
                 [ArgString (parse.NamespaceAuthorizationRuleId_String id); ArgError err])))
      | None =>
          orReturn (waitForReplication meta d rg ns) (ret (Returned None))
      end
  end.

Definition resourceServiceBusNamespaceAuthorizationRule : Resource :=
  {| Create := Some resourceServiceBusNamespaceAuthorizationRuleCreateUpdate;
     Read := Some resourceServiceBusNamespaceAuthorizationRuleRead;
     Update := Some resourceServiceBusNamespaceAuthorizationRuleCreateUpdate;
     Delete := Some resourceServiceBusNamespaceAuthorizationRuleDelete;
     Importer := Some (ImporterValidatingResourceId
                         (errorOf parse.NamespaceAuthorizationRuleID));
     Timeouts := Some {| pluginsdk.Create := DefaultTimeout (30 * Minute)%Z;
                         pluginsdk.Read := DefaultTimeout (5 * Minute)%Z;
                         pluginsdk.Update := DefaultTimeout (30 * Minute)%Z;
                         pluginsdk.Delete := DefaultTimeout (30 * Minute)%Z |} |}.

(** *** [azurerm_servicebus_topic_authorization_rule] *)

Definition resourceServiceBusTopicAuthorizationRuleRead : Handler := fun meta =>
  do d <- getData;
  match parse.TopicAuthorizationRuleID (Id d) with
  | inr err => ret (Returned (Some err))
  | inl id =>
      let rg := parse.TopicAuthorizationRuleId.ResourceGroup id in
      let ns := parse.TopicAuthorizationRuleId.NamespaceName id in
      let topic := parse.TopicAuthorizationRuleId.TopicName id in
      let rule := parse.TopicAuthorizationRuleId.AuthorizationRuleName id in
      do resp <- call meta (TopicsGetAuthorizationRule rg ns topic rule);
      match reply_err resp with
      | Some err =>
          if ResponseWasNotFound (reply_Response resp)
          then exec modify (SetId EmptyString); ret (Returned None)
          else ret (Returned (Some (Errorf "retrieving %s: %+v"
                      [ArgString (parse.TopicAuthorizationRuleId_String id); ArgError err])))
      | None =>
          exec modify (setAll
            ((if negb ThreePointOhBeta
              then [("topic_name", VString topic);
                    ("namespace_name", VString ns);
                    ("resource_group_name", VString rg)]
              else [])
             ++ [("name", VString rule);
                 ("topic_id", VString (parse.TopicId_ID
                    (parse.NewTopicID (parse.TopicAuthorizationRuleId.SubscriptionId id)
                       rg ns topic)))]
             ++ match flattenedRights (asAuthorizationRule (reply_body resp)) with
                | Some (listen, send, manage) =>
                    [("listen", VBool listen); ("send", VBool send);
                     ("manage", VBool manage)]
                | None => []
                end));
          do keysResp <- call meta (TopicsListKeys rg ns topic rule);
          match reply_err keysResp with
          | Some err =>
              ret (Returned (Some (Errorf "listing keys for %s: %+v"
                     [ArgString (parse.TopicAuthorizationRuleId_String id); ArgError err])))
          | None =>
              exec modify (setAll (keysAttrs (asAccessKeys (reply_body keysResp))));
              ret (Returned None)
          end
      end
  end.

Definition topicAuthorizationRuleResourceId (meta : Client) (d : ResourceData)
  : option parse.TopicAuthorizationRuleId.t :=
  let topicIdLit := GetString d "topic_id" in
  if negb (String.eqb topicIdLit EmptyString) then
    match parse.TopicID topicIdLit with
    | inl topicId =>
        Some (parse.NewTopicAuthorizationRuleID (parse.TopicId.SubscriptionId topicId)
                (parse.TopicId.ResourceGroup topicId) (parse.TopicId.NamespaceName topicId)
                (parse.TopicId.Name topicId) (GetString d "name"))
    | inr _ => None
    end
  else if negb ThreePointOhBeta then
    Some (parse.NewTopicAuthorizationRuleID (Account_SubscriptionId meta)
            (GetString d "resource_group_name") (GetString d "namespace_name")
            (GetString d "topic_name") (GetString d "name"))
  else Some parse.TopicAuthorizationRuleId.zero.

Definition resourceServiceBusTopicAuthorizationRuleCreateUpdate : Handler := fun meta =>
  do d <- getData;
  match topicAuthorizationRuleResourceId meta d with
  | None => ret Panicked
  | Some resourceId =>
      let rg := parse.TopicAuthorizationRuleId.ResourceGroup resourceId in
      let ns := parse.TopicAuthorizationRuleId.NamespaceName resourceId in
      let topic := parse.TopicAuthorizationRuleId.TopicName resourceId in
      let rule := parse.TopicAuthorizationRuleId.AuthorizationRuleName resourceId in
      orReturn (checkForExisting meta d (TopicsGetAuthorizationRule rg ns topic rule)
                  (parse.TopicAuthorizationRuleId_String resourceId)
                  "azurerm_servicebus_topic_authorization_rule"
                  (parse.TopicAuthorizationRuleId_ID resourceId))
        (do created <- call meta (TopicsCreateOrUpdateAuthorizationRule rg ns topic rule
                                    (authorizationRuleParameters rule d));
         match reply_err created with
         | Some err =>
             ret (Returned (Some (Errorf "creating/updating %s: %+v"
                    [ArgString (parse.TopicAuthorizationRuleId_String resourceId);
                     ArgError err])))
         | None =>
             exec modify (SetId (parse.TopicAuthorizationRuleId_ID resourceId));
             orReturn (waitForReplication meta d rg ns)
               (resourceServiceBusTopicAuthorizationRuleRead meta)
         end)
  end.

Definition resourceServiceBusTopicAuthorizationRuleDelete : Handler := fun meta =>
  do d <- getData;
  match parse.TopicAuthorizationRuleID (Id d) with
  | inr err => ret (Returned (Some err))
  | inl id =>
      let rg := parse.TopicAuthorizationRuleId.ResourceGroup id in
      let ns := parse.TopicAuthorizationRuleId.NamespaceName id in
      let topic := parse.TopicAuthorizationRuleId.TopicName id in
      let rule := parse.TopicAuthorizationRuleId.AuthorizationRuleName id in
      do resp <- call meta (TopicsDeleteAuthorizationRule rg ns topic rule);
      match reply_err resp with
      | Some err =>
          ret (Returned (Some (Errorf "deleting %s: %+v"
                 [ArgString (parse.TopicAuthorizationRuleId_String id); ArgError err])))
      | None =>
          orReturn (waitForReplication meta d rg ns) (ret (Returned None))
      end
  end.

Definition resourceServiceBusTopicAuthorizationRule : Resource :=
  {| Create := Some resourceServiceBusTopicAuthorizationRuleCreateUpdate;
     Read := Some resourceServiceBusTopicAuthorizationRuleRead;
     Update := Some resourceServiceBusTopicAuthorizationRuleCreateUpdate;
     Delete := Some resourceServiceBusTopicAuthorizationRuleDelete;
     Importer := Some (ImporterValidatingResourceId (errorOf parse.TopicAuthorizationRuleID));
     Timeouts := Some {| pluginsdk.Create := DefaultTimeout (30 * Minute)%Z;
                         pluginsdk.Read := DefaultTimeout (5 * Minute)%Z;
                         pluginsdk.Update := DefaultTimeout (30 * Minute)%Z;
                         pluginsdk.Delete := DefaultTimeout (30 * Minute)%Z |} |}.

(** *** The [azurerm_kubernetes_cluster] data source *)

Definition dataSourceKubernetesClusterRead : Handler := fun meta =>
  do d <- getData;
  let id := parse.NewClusterID (Account_SubscriptionId meta)
              (GetString d "resource_group_name") (GetString d "name") in
  let rg := parse.ClusterId.ResourceGroup id in
  let name := parse.ClusterId.ManagedClusterName id in
  do resp <- call meta (ManagedClustersGet rg name);
  match reply_err resp with
  | Some err =>
      if ResponseWasNotFound (reply_Response resp)
      then ret (Returned (Some (Errorf "%s was not found" [ArgString (parse.ClusterId_String id)])))
      else ret (Returned (Some (Errorf "retrieving %s: %+v"
                  [ArgString (parse.ClusterId_String id); ArgError err])))
  | None =>
      do profile <- call meta (ManagedClustersGetAccessProfile rg name "clusterUser");
      match reply_err profile with
      | Some err =>
          ret (Returned (Some (Errorf "retrieving Access Profile for %s: %+v"
                 [ArgString (parse.ClusterId_String id); ArgError err])))
      | None =>
          let cluster := asManagedCluster (reply_body resp) in
          exec modify (SetId (parse.ClusterId_ID id));
          exec modify (setAll
            ([("name", stringPtr (cluster ≫= containerservice.Name));
              ("resource_group_name", VString rg)]
             ++ match cluster ≫= containerservice.Location with
                | Some location => [("location", VString (NormalizeLocation location))]
                | None => []
                end));
          orStop
            match cluster ≫= containerservice.Properties with
            | None => ret None
            | Some props =>
                andThen (updateOrPanic (setClusterProfiles props))
                  match clusterdata.flattenKubernetesClusterDataSourceNetworkProfile
                          (containerservice.props_NetworkProfile props) with
                  | None => ret (Some Panicked)
                  | Some networkProfile =>
                      andThen (setOrReturn "setting `network_profile`: %+v"
                                 (setBlocks "network_profile" networkProfile))
                        (andThen (updateOrPanic (setAccessControl props))
                           (* adminProfile is only available for RBAC enabled clusters
                              with AAD and without local accounts disabled *)
                           (if containerservice.AadProfileSet props
                               && match containerservice.DisableLocalAccounts props with
                                  | None => true
                                  | Some disabled => negb disabled
                                  end
                            then
                              do adminProfile <- call meta
                                   (ManagedClustersGetAccessProfile rg name "clusterAdmin");
                              match reply_err adminProfile with
                              | Some err =>
                                  ret (Some (Returned (Some
                                         (Errorf "retrieving Admin Access Profile for %s: %+v"
                                            [ArgString (parse.ClusterId_String id);
                                             ArgError err]))))
                              | None =>
                                  updateOrPanic
                                    (setKubeAdminConfig
                                       (Some (asAccessProfile (reply_body adminProfile))))
                              end
                            else updateOrPanic (setKubeAdminConfig None)))
                  end
            end
            (orStop (updateOrPanic (setIdentity cluster))
               match clusterdata.flattenKubernetesClusterDataSourceAccessProfile
                       ParseKubeConfig ParseKubeConfigAAD
                       (asAccessProfile (reply_body profile)) with
               | None => ret Panicked
               | Some (kubeConfigRaw, kubeConfig) =>
                   exec modify (Set_ "kube_config_raw" (stringPtr kubeConfigRaw));
                   orStop (setOrReturn "setting `kube_config`: %+v"
                             (setBlocks "kube_config"
                                ((fun block : gmap string string => clusterdata.AString <$> block) <$> kubeConfig)))
                     (do failed <- update (tags_FlattenAndSet cluster);
                      ret (Returned failed))
               end)
      end
  end.

Definition dataSourceKubernetesCluster : Resource :=
  {| Create := None;
     Read := Some dataSourceKubernetesClusterRead;
     Update := None;
     Delete := None;
     Importer := None;
     Timeouts := Some {| pluginsdk.Create := None;
                         pluginsdk.Read := DefaultTimeout (5 * Minute)%Z;
                         pluginsdk.Update := None;
                         pluginsdk.Delete := None |} |}.

(** *** [azurerm_linux_function_app_on_container] *)

(** [sdk.ResourceFunc] *)
Record ResourceFunc := {
  Timeout : Duration;
  Func : Handler }.

Definition ResourceType : string := "azurerm_linux_function_app_on_container".

Definition withLinuxFxVersion (c : web.SiteConfig) (v : option string) : web.SiteConfig :=
  {| web.LinuxFxVersion := v; web.AppSettings := web.AppSettings c;
     web.FtpsState := web.FtpsState c;
     web.Use32BitWorkerProcess := web.Use32BitWorkerProcess c;
     web.config_details := web.config_details c |}.

Definition withAppSettings (c : web.SiteConfig) (a : option (list web.NameValuePair))
  : web.SiteConfig :=
  {| web.LinuxFxVersion := web.LinuxFxVersion c; web.AppSettings := a;
     web.FtpsState := web.FtpsState c;
     web.Use32BitWorkerProcess := web.Use32BitWorkerProcess c;
     web.config_details := web.config_details c |}.

(** **** Package [helpers] *)

(** [helpers.ExpandSiteConfigLinuxFunctionAppOnContainer].  With a non-nil
    [existing] the result is [existing] itself, written in place; the
    callers account for that. *)
Definition ExpandSiteConfigLinuxFunctionAppOnContainer
    (siteConfig : list AppService.SiteConfigLinuxFunctionAppOnContainer)
    (existing : option web.SiteConfig) (d : ResourceData) (registry : AppService.Registry)
    (version storageString : string) : option web.SiteConfig * option error :=
  match siteConfig with
  | [] => (None, None)
  | linuxFunctionOnContainerSiteConfig :: _ =>
      let expanded :=
        match existing with
        | Some existing =>
            (* need to zero fxversion to re-calculate based on changes below *)
            withLinuxFxVersion existing (Some EmptyString)
        | None => web.zeroSiteConfig
        end in
      let appSettings :=
        match existing with
        | Some existing => default [] (web.AppSettings existing)
        | None => []
        end in
      let appSettings :=
        updateOrAppendAppSettings appSettings "FUNCTIONS_EXTENSION_VERSION" version false in
      let appSettings :=
        updateOrAppendAppSettings appSettings "AzureWebJobsStorage" storageString false in
      let appInsights :=
        AppService.AppInsightsConnectionString linuxFunctionOnContainerSiteConfig in
      let appSettings :=
        if String.eqb appInsights EmptyString
        then updateOrAppendAppSettings appSettings "APPLICATIONINSIGHTS_CONNECTION_STRING"
               appInsights true
        else updateOrAppendAppSettings appSettings "APPLICATIONINSIGHTS_CONNECTION_STRING"
               appInsights false in
      (* update docker related settings *)
      let appSettings :=
        updateOrAppendAppSettings appSettings "DOCKER_REGISTRY_SERVER_URL"
          (AppService.Server registry) false in
      let appSettings :=
        if negb (String.eqb (AppService.UserName registry) EmptyString)
        then updateOrAppendAppSettings appSettings "DOCKER_REGISTRY_SERVER_USERNAME"
               (AppService.UserName registry) false
        else appSettings in
      let appSettings :=
        if negb (String.eqb (AppService.Password registry) EmptyString)
        then updateOrAppendAppSettings appSettings "DOCKER_REGISTRY_SERVER_PASSWORD"
               (AppService.Password registry) false
        else appSettings in
      let other := AppService.sc_other linuxFunctionOnContainerSiteConfig in
      (Some {| web.LinuxFxVersion := web.LinuxFxVersion expanded;
               web.AppSettings := Some appSettings;
               web.FtpsState :=
                 if HasChange d "site_config.0.ftps_state"
                 then Some (AppService.FtpsState other)
                 else web.FtpsState expanded;
               web.Use32BitWorkerProcess := Some (AppService.Use32BitWorker other);
               web.config_details := web.config_details expanded |},
       None)
  end.

(** [helpers.FlattenSiteConfigLinuxFunctionAppOnContainer]: the config is
    dereferenced unchecked, so a nil config panics: [None]. *)
Definition FlattenSiteConfigLinuxFunctionAppOnContainer
    (functionAppOnContainer : option web.SiteConfig)
  : option (AppService.SiteConfigLinuxFunctionAppOnContainer * option error) :=
  match functionAppOnContainer with
  | None => None
  | Some functionAppOnContainer =>
      Some ({| AppService.AppInsightsConnectionString := EmptyString;
               AppService.sc_other :=
                 {| AppService.Use32BitWorker :=
                      default false (web.Use32BitWorkerProcess functionAppOnContainer);
                    AppService.FtpsState :=
                      default EmptyString (web.FtpsState functionAppOnContainer) |} |},
            None)
  end.

(** [helpers.EncodeLinuxFunctionAppOnContainerLinuxFxVersion] *)
Definition EncodeLinuxFunctionAppOnContainerLinuxFxVersion
    (input : list AppService.Registry) (image : string) : option string :=
  match input with
  | [] => Some EmptyString
  | first :: _ =>
      let dockerUrl := AppService.Server first in
      let dockerUrl :=
        foldl (fun dockerUrl prefix => GoStrings.TrimPrefix dockerUrl prefix) dockerUrl
          ["https://"; "http://"] in
      Some ("DOCKER|" +:+ dockerUrl +:+ "/" +:+ image)
  end.

(** [helpers.DecodeLinuxFunctionAppOnContainerLinuxFxVersion]: [parts[1]]
    is read before the number of parts is checked, so an input without "|"
    panics: [None]. *)
Definition DecodeLinuxFunctionAppOnContainerLinuxFxVersion (input : option string)
  : option (string * option error) :=
  match input with
  | None => Some (EmptyString, None)
  | Some s =>
      let parts := GoStrings.Split s "|" in
      match parts !! 1 with
      | None => None
      | Some value =>
          if negb (length parts =? 2)%nat
             || negb (String.eqb (default EmptyString (parts !! 0)) "DOCKER")
          then Some (EmptyString,
                     Some (Errorf "unrecognised LinuxFxVersion format received, got %s"
                             [ArgStringPointer input]))
          else Some (GoStrings.sliceFrom value (GoStrings.Index value "/" + 1)%Z, None)
      end
  end.

(** The storage connection string both [Create] and [Update] compute. *)
Definition storageStringOf (m : AppService.LinuxFunctionAppOnContainerModel)
    (storageDomainSuffix : string) : string :=
  if negb (String.eqb (AppService.StorageKeyVaultSecretID m) EmptyString)
  then StorageStringKV (AppService.StorageKeyVaultSecretID m)
  else StorageString (AppService.StorageAccountName m) (AppService.StorageAccountKey m)
         storageDomainSuffix.

Definition LinuxFunctionAppOnContainerResource_Create : ResourceFunc :=
  {| Timeout := (30 * Minute)%Z;
     Func := fun meta =>
       match Storage_DomainSuffix meta with
       | None =>
           ret (Returned (Some (Errorf "could not determine Storage domain suffix for environment %q"
                  [ArgString (Environment_Name meta)])))
       | Some storageDomainSuffix =>
       do d <- getData;
       match Decode d with
       | inr err => ret (Returned (Some err))
       | inl linuxFunctionAppOnContainer =>
       let subscriptionId := Account_SubscriptionId meta in
       let id := parse.NewFunctionAppID subscriptionId
                   (AppService.ResourceGroup linuxFunctionAppOnContainer)
                   (AppService.Name linuxFunctionAppOnContainer) in
       let rg := parse.FunctionAppId.ResourceGroup id in
       let site := parse.FunctionAppId.SiteName id in
       do existing <- call meta (WebAppsGet rg site);
       match reply_err existing, ResponseWasNotFound (reply_Response existing) with
       | Some err, false =>
           ret (Returned (Some (Errorf "checking for presence of existing Linux %s: %+v"
                  [ArgString (parse.FunctionAppId_String id); ArgError err])))
       | None, false =>
           ret (Returned (Some (ResourceRequiresImport ResourceType id)))
       | _, true =>
       match ParseManagedEnvironmentID (AppService.ManagedEnvironmentId linuxFunctionAppOnContainer) with
       | inr err =>
           ret (Returned (Some (Errorf "parsing Container App Environment ID for %s: %+v"
                  [ArgString (parse.FunctionAppId_String id); ArgError err])))
       | inl envId =>
       do env <- call meta (ManagedEnvironmentsGet (ManagedEnvironmentId_ID envId));
       match reply_err env with
       | Some err =>
           ret (Returned (Some (Errorf "reading %s for %s: %+v"
                  [ArgString (ManagedEnvironmentId_String envId);
                   ArgString (parse.FunctionAppId_String id); ArgError err])))
       | None =>
       do checkName <- call meta (WebAppsCheckNameAvailability
                                    (AppService.Name linuxFunctionAppOnContainer)
                                    "Microsoft.Web/sites");
       match reply_err checkName with
       | Some err =>
           ret (Returned (Some (Errorf "checking name availability for Linux %s: %+v"
                  [ArgString (parse.FunctionAppId_String id); ArgError err])))
       | None =>
       let availability := asNameAvailability (reply_body checkName) in
       match web.NameAvailable availability, web.Message availability with
       | Some false, Some message =>
           ret (Returned (Some (Errorf "the Site Name %q failed the availability check: %+v"
                  [ArgString site; ArgString message])))
       | Some false, None => ret Panicked
       | _, _ =>
       (* storage using MSI is currently not supported in function on container. *)
       let storageString := storageStringOf linuxFunctionAppOnContainer storageDomainSuffix in
       let appSettings :=
         if AppService.BuiltinLogging linuxFunctionAppOnContainer
         then Some (<["AzureWebJobsDashboard" := storageString]>
                      (default ∅ (AppService.AppSettings linuxFunctionAppOnContainer)))
         else AppService.AppSettings linuxFunctionAppOnContainer in
       match AppService.Registries linuxFunctionAppOnContainer with
       | [] => ret Panicked
       | registry :: _ =>
       match fst (ExpandSiteConfigLinuxFunctionAppOnContainer
                    (AppService.SiteConfig linuxFunctionAppOnContainer) None d registry
                    (AppService.FunctionExtensionsVersion linuxFunctionAppOnContainer)
                    storageString),
             asEnvironmentModel (reply_body env) with
       | Some expanded, Some location =>
           let siteConfig :=
             withLinuxFxVersion expanded
               (EncodeLinuxFunctionAppOnContainerLinuxFxVersion
                  (AppService.Registries linuxFunctionAppOnContainer)
                  (AppService.ContainerImage linuxFunctionAppOnContainer)) in
           let siteConfig :=
             withAppSettings siteConfig
               (MergeUserAppSettings (web.AppSettings siteConfig) appSettings) in
           let siteEnvelope :=
             {| web.Tags := tags_FromTypedObject (AppService.Tags linuxFunctionAppOnContainer);
                web.Location := Some (NormalizeLocation location);
                web.Kind := Some "functionapp,linux,container,azurecontainerapps";
                web.site_Properties := Some
                  {| web.props_SiteConfig := Some siteConfig;
                     web.ManagedEnvironmentID :=
                       Some (AppService.ManagedEnvironmentId linuxFunctionAppOnContainer) |} |} in
           do future <- call meta (WebAppsCreateOrUpdate rg site siteEnvelope);
           match reply_err future with
           | Some err =>
               ret (Returned (Some (Errorf "creating Linux %s: %+v"
                      [ArgString (parse.FunctionAppId_String id); ArgError err])))
           | None =>
               do waited <- call meta (FutureWaitForCompletionRef rg site);
               match reply_err waited with
               | Some err =>
                   ret (Returned (Some (Errorf "waiting for creation of Linux %s: %+v"
                          [ArgString (parse.FunctionAppId_String id); ArgError err])))
               | None =>
                   exec modify (SetId (parse.FunctionAppId_ID id));
                   ret (Returned None)
               end
           end
       | _, _ => ret Panicked
       end
       end
       end
       end
       end
       end
       end
       end
       end |}.

Definition LinuxFunctionAppOnContainerResource_Read : ResourceFunc :=
  {| Timeout := (5 * Minute)%Z;
     Func := fun meta =>
       do d <- getData;
       match parse.FunctionAppID (Id d) with
       | inr err => ret (Returned (Some err))
       | inl id =>
       let rg := parse.FunctionAppId.ResourceGroup id in
       let site := parse.FunctionAppId.SiteName id in
       do functionAppOnContainer <- call meta (WebAppsGet rg site);
       match reply_err functionAppOnContainer with
       | Some err =>
           if ResponseWasNotFound (reply_Response functionAppOnContainer)
           then do gone <- update (MarkAsGone id); ret (Returned gone)
           else ret (Returned (Some (Errorf "reading Linux %s: %+v"
                       [ArgString (parse.FunctionAppId_String id); ArgError err])))
       | None =>
       match web.site_Properties (asSite (reply_body functionAppOnContainer)) with
       | None =>
           ret (Returned (Some (Errorf "reading properties of Linux %s: %+v"
                  [ArgString (parse.FunctionAppId_String id); ArgNil])))
       | Some props =>
       do appSettingsResp <- call meta (WebAppsListApplicationSettings rg site);
       match reply_err appSettingsResp with
       | Some err =>
           ret (Returned (Some (Errorf "reading App Settings for Linux %s: %+v"
                  [ArgString (parse.FunctionAppId_String id); ArgError err])))
       | None =>
       do configResp <- call meta (WebAppsGetConfiguration rg site);
       match reply_err configResp with
       | Some err =>
           ret (Returned (Some (Errorf "making Read request on AzureRM Function App Configuration %q: %+v"
                  [ArgString site; ArgError err])))
       | None =>
       let config := asSiteConfig (reply_body configResp) in
       match FlattenSiteConfigLinuxFunctionAppOnContainer config, config with
       | Some (siteConfig, _), Some config =>
           match DecodeLinuxFunctionAppOnContainerLinuxFxVersion (web.LinuxFxVersion config) with
           | None => ret Panicked
           | Some (_, Some err) =>
               ret (Returned (Some (Errorf "flattening linuxFxVersion: %s" [ArgError err])))
           | Some (containerImage, None) =>
               let state :=
                 {| AppService.Name := site;
                    AppService.ResourceGroup := rg;
                    AppService.ManagedEnvironmentId :=
                      pointer_From (web.ManagedEnvironmentID props);
                    AppService.Tags :=
                      tags_ToTypedObject (web.Tags (asSite (reply_body functionAppOnContainer)));
                    AppService.SiteConfig := [siteConfig];
                    AppService.ContainerImage := containerImage;
                    AppService.StorageAccountName := EmptyString;
                    AppService.StorageAccountKey := EmptyString;
                    AppService.StorageKeyVaultSecretID := EmptyString;
                    AppService.BuiltinLogging := false;
                    AppService.AppSettings := None;
                    AppService.FunctionExtensionsVersion := EmptyString;
                    AppService.Registries := [] |} in
               let input := asStringDictionary (reply_body appSettingsResp) in
               match AppService.unpackLinuxFunctionAppOnContainerAppSettings
                       (rangeOrder (default ∅ (AppService.Properties input))) state input with
               | Some _ => ret (Returned None)
               | None => ret Panicked
               end
           end
       | _, _ => ret Panicked
       end
       end
       end
       end
       end
       end |}.

Definition LinuxFunctionAppOnContainerResource_Delete : ResourceFunc :=
  {| Timeout := (30 * Minute)%Z;
     Func := fun meta =>
       do d <- getData;
       match parse.FunctionAppID (Id d) with
       | inr err => ret (Returned (Some err))
       | inl id =>
           let deleteMetrics := true in
           let deleteEmptyServerFarm := false in
           do resp <- call meta (WebAppsDelete (parse.FunctionAppId.ResourceGroup id)
                                   (parse.FunctionAppId.SiteName id)
                                   deleteMetrics deleteEmptyServerFarm);
           match reply_err resp with
           | Some err =>
               ret (Returned (Some (Errorf "deleting Linux %s: %+v"
                      [ArgString (parse.FunctionAppId_String id); ArgError err])))
           | None => ret (Returned None)
           end
       end |}.

Definition LinuxFunctionAppOnContainerResource_Update : ResourceFunc :=
  {| Timeout := (30 * Minute)%Z;
     Func := fun meta =>
       match Storage_DomainSuffix meta with
       | None =>
           ret (Returned (Some (Errorf "could not determine Storage domain suffix for environment %q"
                  [ArgString (Environment_Name meta)])))
       | Some storageDomainSuffix =>
       do d <- getData;
       match parse.FunctionAppID (Id d) with
       | inr err => ret (Returned (Some err))
       | inl id =>
       let rg := parse.FunctionAppId.ResourceGroup id in
       let site := parse.FunctionAppId.SiteName id in
       (* need to set this property to true as the config got written to state
          despite the update action actually failed. *)
       exec modify (Partial true);
       do d <- getData;
       match Decode d with
       | inr err => ret (Returned (Some (Errorf "decoding: %+v" [ArgError err])))
       | inl state =>
       do got <- call meta (WebAppsGet rg site);
       match reply_err got with
       | Some err =>
           ret (Returned (Some (Errorf "reading Linux %s: %v"
                  [ArgString (parse.FunctionAppId_String id); ArgError err])))
       | None =>
       let existing := asSite (reply_body got) in
       let storageString := storageStringOf state storageDomainSuffix in
       match web.site_Properties existing, AppService.Registries state with
       | Some props, registry :: _ =>
           let siteConfig :=
             fst (ExpandSiteConfigLinuxFunctionAppOnContainer (AppService.SiteConfig state)
                    (web.props_SiteConfig props) d registry
                    (AppService.FunctionExtensionsVersion state) storageString) in
           (* [existing.SiteConfig] after the call: a non-nil one is the
              object the call wrote to and returned, when it returned one *)
           let written :=
             match web.props_SiteConfig props, siteConfig with
             | Some _, Some expanded => Some expanded
             | unchanged, _ => unchanged
             end in
           let current := if HasChange d "site_config" then siteConfig else written in
           match current, siteConfig with
           | Some current, Some siteConfig =>
               let current :=
                 if HasChange d "registry" || HasChange d "container_image"
                 then withLinuxFxVersion current
                        (EncodeLinuxFunctionAppOnContainerLinuxFxVersion
                           (AppService.Registries state) (AppService.ContainerImage state))
                 else current in
               let current :=
                 withAppSettings current
                   (MergeUserAppSettings (web.AppSettings siteConfig)
                      (AppService.AppSettings state)) in
               let existing :=
                 {| web.Tags := if HasChange d "tags"
                                then tags_FromTypedObject (AppService.Tags state)
                                else web.Tags existing;
                    web.Location := web.Location existing;
                    web.Kind := web.Kind existing;
                    web.site_Properties := Some
                      {| web.props_SiteConfig := Some current;
                         web.ManagedEnvironmentID := web.ManagedEnvironmentID props |} |} in
               do updateFuture <- call meta (WebAppsCreateOrUpdate rg site existing);
               match reply_err updateFuture with
               | Some err =>
                   ret (Returned (Some (Errorf "updating Linux %s: %+v"
                          [ArgString (parse.FunctionAppId_String id); ArgError err])))
               | None =>
                   do waited <- call meta (FutureWaitForCompletionRef rg site);
                   match reply_err waited with
                   | Some err =>
                       ret (Returned (Some (Errorf "waiting to update %s: %+v"
                              [ArgString (parse.FunctionAppId_String id); ArgError err])))
                   | None =>
                       do configured <- call meta (WebAppsUpdateConfiguration rg site
                                                     (Some current));
                       match reply_err configured with
                       | Some err =>
                           ret (Returned (Some (Errorf "updating Site Config for Linux %s: %s"
                                  [ArgString (parse.FunctionAppId_String id); ArgError err])))
                       | None => ret (Returned None)
                       end
                   end
               end
           | _, _ => ret Panicked
           end
       | _, _ => ret Panicked
       end
       end
       end
       end
       end |}.

End Handlers.

End resources.

(** ** The schema of [azurerm_servicebus_subscription] *)

Module schema.

Import pluginsdk resources.

Inductive ValueType := TypeString | TypeBool | TypeInt.

#[global] Instance ValueType_eq_dec : EqDecision ValueType.
Proof. solve_decision. Defined.

(** The validation functions the schema names; their bodies are in other
    packages. *)
Inductive Validator :=
| validate_SubscriptionName
| validate_TopicID
| validate_TopicName
| validate_NamespaceName
| resourcegroups_ValidateName
| validation_StringInSlice (valid : list string) (ignoreCase : bool).

(** [pluginsdk.Schema], with the fields the file assigns; a field a literal
    leaves out has its zero value. *)
Record Schema := {
  Type_ : ValueType;
  Required : bool;
  Optional : bool;
  Computed : bool;
  ForceNew : bool;
  Default : option Value;
  ValidateFunc : option Validator;
  Deprecated : option string;
  ConflictsWith : list string }.

(** The type of the value a [d.Set] stores. *)
Definition typeOf (v : Value) : ValueType :=
  match v with
  | VString _ => TypeString
  | VBool _ => TypeBool
  | VInt _ => TypeInt
  end.

Section Subscription.
Context `{Externals}.

(** [servicebus.EntityStatusActive], [EntityStatusDisabled] and
    [EntityStatusReceiveDisabled] (SDK constants). *)
Variables EntityStatusActive EntityStatusDisabled EntityStatusReceiveDisabled : string.

(** An optional string or bool attribute with nothing else set. *)
Definition optional (t : ValueType) (computed : bool) : Schema :=
  {| Type_ := t; Required := false; Optional := true; Computed := computed;
     ForceNew := false; Default := None; ValidateFunc := None; Deprecated := None;
     ConflictsWith := [] |}.

(** The double-quote character. *)
Definition quote : string := String (Ascii.ascii_of_nat 34) EmptyString.

(** A deprecated attribute of the pre-3.0 schema. *)
Definition deprecated (validate : Validator) : Schema :=
  {| Type_ := TypeString; Required := false; Optional := true; Computed := true;
     ForceNew := true; Default := None; ValidateFunc := Some validate;
     Deprecated := Some ("Deprecated in favor of " +:+ quote +:+ "topic_id" +:+ quote);
     ConflictsWith := ["topic_id"] |}.

Definition resourceServicebusSubscriptionSchema : gmap string Schema :=
  let s : gmap string Schema := list_to_map
    [("name",
      {| Type_ := TypeString; Required := true; Optional := false; Computed := false;
         ForceNew := true; Default := None; ValidateFunc := Some validate_SubscriptionName;
         Deprecated := None; ConflictsWith := [] |});
     ("topic_id",
      {| Type_ := TypeString;
         Required := ThreePointOhBeta;
         Optional := negb ThreePointOhBeta;
         Computed := negb ThreePointOhBeta;
         ForceNew := true; Default := None; ValidateFunc := Some validate_TopicID;
         Deprecated := None;
         ConflictsWith := if negb ThreePointOhBeta
                          then ["topic_name"; "namespace_name"; "resource_group_name"]
                          else [] |});
     ("auto_delete_on_idle", optional TypeString true);
     ("default_message_ttl", optional TypeString true);
     ("lock_duration", optional TypeString true);
     ("dead_lettering_on_message_expiration", optional TypeBool false);
     ("dead_lettering_on_filter_evaluation_error",
      {| Type_ := TypeBool; Required := false; Optional := true; Computed := false;
         ForceNew := false; Default := Some (VBool true); ValidateFunc := None;
         Deprecated := None; ConflictsWith := [] |});
     ("enable_batched_operations", optional TypeBool false);
     ("max_delivery_count",
      {| Type_ := TypeInt; Required := true; Optional := false; Computed := false;
         ForceNew := false; Default := None; ValidateFunc := None;
         Deprecated := None; ConflictsWith := [] |});
     ("requires_session",
      {| Type_ := TypeBool; Required := false; Optional := true; Computed := false;
         ForceNew := true; Default := None; ValidateFunc := None;
         Deprecated := None; ConflictsWith := [] |});
     ("forward_to", optional TypeString false);
     ("forward_dead_lettered_messages_to", optional TypeString false);
     ("status",
      {| Type_ := TypeString; Required := false; Optional := true; Computed := false;
         ForceNew := false; Default := Some (VString EntityStatusActive);
         ValidateFunc := Some (validation_StringInSlice
                                 [EntityStatusActive; EntityStatusDisabled;
                                  EntityStatusReceiveDisabled] false);
         Deprecated := None; ConflictsWith := [] |})] in
  if negb ThreePointOhBeta
  then <["resource_group_name" := deprecated resourcegroups_ValidateName]>
         (<["namespace_name" := deprecated validate_NamespaceName]>
            (<["topic_name" := deprecated validate_TopicName]> s))
  else s.

End Subscription.

End schema.

(** ** Documentation of the resources (website/docs/r) *)

Module docs.

(** The "Timeouts" section of a resource page: the default of each action,
    in minutes. *)
Record TimeoutsSection := {
  create : Z;
  read : Z;
  update : Z;
  delete : Z }.

(** linux_function_app_container.html.markdown *)
Definition linux_function_app_container : TimeoutsSection :=
  {| create := 30; read := 5; update := 30; delete := 30 |}.

Definition documents (doc : TimeoutsSection) (t : pluginsdk.ResourceTimeout) : Prop :=
  pluginsdk.Create t = Some (create doc * pluginsdk.Minute)%Z
  /\ pluginsdk.Read t = Some (read doc * pluginsdk.Minute)%Z
  /\ pluginsdk.Update t = Some (update doc * pluginsdk.Minute)%Z
  /\ pluginsdk.Delete t = Some (delete doc * pluginsdk.Minute)%Z.

End docs.

(** ** What the properties below range over *)

Module scope.

Import pluginsdk sdk resources.

Section Scope.
Context `{parse.Package} `{Externals}.

(** The handlers of the ServiceBus resources and of the Kubernetes cluster
    data source. *)
Definition crudHandlers : list Handler :=
  [resourceServiceBusSubscriptionCreateUpdate;
   resourceServiceBusSubscriptionRead;
   resourceServiceBusSubscriptionDelete;
   resourceServiceBusNamespaceAuthorizationRuleCreateUpdate;
   resourceServiceBusNamespaceAuthorizationRuleRead;
   resourceServiceBusNamespaceAuthorizationRuleDelete;
   resourceServiceBusTopicAuthorizationRuleCreateUpdate;
   resourceServiceBusTopicAuthorizationRuleRead;
   resourceServiceBusTopicAuthorizationRuleDelete;
   dataSourceKubernetesClusterRead].

(** The [Read] handlers of the ServiceBus resources. *)
Definition resourceReads : list Handler :=
  [resourceServiceBusSubscriptionRead;
   resourceServiceBusNamespaceAuthorizationRuleRead;
   resourceServiceBusTopicAuthorizationRuleRead].

(** The handlers that create a resource. *)
Definition createHandlers : list Handler :=
  [resourceServiceBusSubscriptionCreateUpdate;
   resourceServiceBusNamespaceAuthorizationRuleCreateUpdate;
   resourceServiceBusTopicAuthorizationRuleCreateUpdate;
   Func LinuxFunctionAppOnContainerResource_Create].

(** The handlers that start a long-running operation. *)
Definition waitingHandlers : list Handler :=
  [Func LinuxFunctionAppOnContainerResource_Create;
   Func LinuxFunctionAppOnContainerResource_Update;
   resourceServiceBusNamespaceAuthorizationRuleCreateUpdate;
   resourceServiceBusNamespaceAuthorizationRuleDelete;
   resourceServiceBusTopicAuthorizationRuleCreateUpdate;
   resourceServiceBusTopicAuthorizationRuleDelete].

(** A not-found reply to the GET of the resource itself. *)
Definition excused (ev : Event) : bool :=
  isResourceGet ev.1 && ResponseWasNotFound (reply_Response ev.2).

(** The SDK call changes the remote resource. *)
Definition isMutation (q : Call) : bool :=
  isCreateOrUpdate q
  || match q with
     | SubscriptionsDelete _ _ _ _
     | NamespacesDeleteAuthorizationRule _ _ _
     | TopicsDeleteAuthorizationRule _ _ _ _
     | WebAppsDelete _ _ _ _ => true
     | _ => false
     end.

(** The defaults the specification states: 30 minutes to create, 5 to
    read, 30 to update and 30 to delete. *)
Definition statedTimeouts : ResourceTimeout :=
  {| pluginsdk.Create := Some (30 * Minute)%Z;
     pluginsdk.Read := Some (5 * Minute)%Z;
     pluginsdk.Update := Some (30 * Minute)%Z;
     pluginsdk.Delete := Some (30 * Minute)%Z |}.

(** The timeouts a typed resource registers: the [Timeout] of each of its
    [sdk.ResourceFunc]s. *)
Definition typedTimeouts (create read update delete : ResourceFunc) : ResourceTimeout :=
  {| pluginsdk.Create := Some (Timeout create);
     pluginsdk.Read := Some (Timeout read);
     pluginsdk.Update := Some (Timeout update);
     pluginsdk.Delete := Some (Timeout delete) |}.

(** The importer of [r] accepts exactly the IDs [parser] accepts. *)
Definition validatesWith {A} (r : Resource) (parser : string -> A + error) : Prop :=
  exists importer, Importer r = Some importer
    /\ forall id, validateId importer id = None <-> exists parsed, parser id = inl parsed.

(** [r]'s [Read] and [Delete] begin by parsing the stored ID with [parser]:
    they return its error before any SDK call, and go on to the SDK when it
    accepts. *)
Definition parsesWith {A} (r : Resource) (parser : string -> A + error) : Prop :=
  exists read delete, Read r = Some read /\ Delete r = Some delete
    /\ forall meta w,
         match parser (Id (data w)) with
         | inr err =>
             read meta w = (Returned (Some err), w, [])
             /\ delete meta w = (Returned (Some err), w, [])
         | inl _ => (read meta w).2 <> [] /\ (delete meta w).2 <> []
         end.

(** The [Delete] handlers. *)
Definition deleteHandlers : list Handler :=
  [resourceServiceBusSubscriptionDelete;
   resourceServiceBusNamespaceAuthorizationRuleDelete;
   resourceServiceBusTopicAuthorizationRuleDelete;
   Func LinuxFunctionAppOnContainerResource_Delete].

(** The handlers registered as both [Create] and [Update]. *)
Definition createUpdateHandlers : list Handler :=
  [resourceServiceBusSubscriptionCreateUpdate;
   resourceServiceBusNamespaceAuthorizationRuleCreateUpdate;
   resourceServiceBusTopicAuthorizationRuleCreateUpdate].

(** The handlers of the containerized Linux Function App. *)
Definition linuxHandlers : list Handler :=
  [Func LinuxFunctionAppOnContainerResource_Create;
   Func LinuxFunctionAppOnContainerResource_Read;
   Func LinuxFunctionAppOnContainerResource_Update;
   Func LinuxFunctionAppOnContainerResource_Delete].

(** The SDK call returned no error. *)
Definition succeeded (ev : Event) : Prop := reply_err ev.2 = None.

(** [run] made one SDK call, [q], which was answered [r], and ended with
    [out], leaving the resource data [d]. *)
Definition oneCall (run : Outcome * World * list Event) (q : Call) (r : Reply)
    (out : Outcome) (d : ResourceData) : Prop :=
  run.1.1 = out /\ data run.1.2 = d /\ run.2 = [(q, r)].

(** The failed call at position [i] is the last one and the handler
    returns its error [e], wrapped. *)
Definition surfaces (out : Outcome) (tr : list Event) (i : nat) (e : error) : Prop :=
  S i = length tr /\ exists outer, out = Returned (Some outer) /\ wraps outer e.

(** What [h] leaves in the resource data, [computed] being the ID it builds
    from the configuration: nothing changes unless a [CreateOrUpdate]
    succeeded, and once one did the stored ID is the computed one, or was
    cleared by the read that follows. *)
Definition storesTheId (h : Handler) (computed : Client -> ResourceData -> option string)
  : Prop :=
  forall meta w out w' tr,
    h meta w = (out, w', tr) ->
    (Forall (fun ev => isCreateOrUpdate ev.1 = true -> reply_err ev.2 <> None) tr ->
       data w' = data w)
    /\ (forall i q r,
          tr !! i = Some (q, r) -> isCreateOrUpdate q = true -> reply_err r = None ->
          exists id, computed meta (data w) = Some id
            /\ (Id (data w') = id \/ Id (data w') = EmptyString /\ out = Returned None)).

End Scope.

End scope.

(** ** Concrete inputs

    A small instance of every interface, and requests and replies to run
    the code on. *)

Module samples.

Import pluginsdk sdk.

Definition parseAccount (id : string) : StorageCache.StorageAccountId + error :=
  if String.eqb id EmptyString then inr (ExternalError "empty ID")
  else inl {| StorageCache.SubscriptionId := "sub";
              StorageCache.ResourceGroupName := "rg";
              StorageCache.StorageAccountName := id |}.

Definition emptyStore : StorageCache.Store :=
  {| StorageCache.storageAccountsCache := ∅; StorageCache.requests := 0 |}.

Definition account (n : string) : StorageCache.Account :=
  {| StorageCache.acc_Name := Some n;
     StorageCache.acc_ID := Some n;
     StorageCache.acc_Kind := "StorageV2";
     StorageCache.acc_Sku := None;
     StorageCache.acc_AccountProperties := None |}.

(** A subscription with one storage account, ["acct"], whose first key is
    ["k1"]. *)
Definition oneAccount : StorageCache.Client :=
  {| StorageCache.AccountsClient_List := fun _ => ([([account "acct"], None)], None);
     StorageCache.AccountsClient_ListKeys := fun _ _ _ =>
       ({| StorageCache.Keys := Some [{| StorageCache.KeyName := Some "key1";
                                         StorageCache.Value := Some "k1" |}] |}, None) |}.

(** A subscription without storage accounts. *)
Definition noAccounts : StorageCache.Client :=
  {| StorageCache.AccountsClient_List := fun _ => ([], None);
     StorageCache.AccountsClient_ListKeys := fun _ _ _ =>
       ({| StorageCache.Keys := None |}, Some (ExternalError "404 Not Found")) |}.

Definition acctDetails : StorageCache.accountDetails :=
  {| StorageCache.ID := "acct"; StorageCache.Kind := "StorageV2";
     StorageCache.ad_Sku := None; StorageCache.ResourceGroup := "rg";
     StorageCache.Properties := None; StorageCache.accountKey := None;
     StorageCache.name := "acct" |}.

#[local] Instance helpers : AppService.Helpers :=
  {| AppService.NormalizeNilableString := default EmptyString;
     AppService.ParseWebJobsStorageString := fun _ => (EmptyString, EmptyString) |}.

#[local] Instance clusterTypes : containerservice.Types :=
  {| containerservice.ClusterDetails := unit |}.

#[local] Instance webTypes : web.Types :=
  {| web.NameValuePair := string * string; web.SiteConfigDetails := unit;
     web.zeroDetails := tt |}.

Definition parseOr {A} (build : string -> A) (id : string) : A + error :=
  if String.eqb id EmptyString then inr (ExternalError "empty ID") else inl (build id).

#[local] Instance ids : parse.Package :=
  {| parse.NewTopicID := parse.TopicId.Build_t;
     parse.NewNamespaceID := parse.NamespaceId.Build_t;
     parse.NewSubscriptionID := parse.SubscriptionId.Build_t;
     parse.NewNamespaceAuthorizationRuleID := parse.NamespaceAuthorizationRuleId.Build_t;
     parse.NewTopicAuthorizationRuleID := parse.TopicAuthorizationRuleId.Build_t;
     parse.NewClusterID := parse.ClusterId.Build_t;
     parse.NewFunctionAppID := parse.FunctionAppId.Build_t;
     parse.TopicID := parseOr (parse.TopicId.Build_t "sub" "rg" "ns");
     parse.NamespaceID := parseOr (parse.NamespaceId.Build_t "sub" "rg");
     parse.SubscriptionID := parseOr (parse.SubscriptionId.Build_t "sub" "rg" "ns" "topic");
     parse.NamespaceAuthorizationRuleID :=
       parseOr (parse.NamespaceAuthorizationRuleId.Build_t "sub" "rg" "ns");
     parse.TopicAuthorizationRuleID :=
       parseOr (parse.TopicAuthorizationRuleId.Build_t "sub" "rg" "ns" "topic");
     parse.FunctionAppID := parseOr (parse.FunctionAppId.Build_t "sub" "rg");
     parse.TopicId_ID := parse.TopicId.Name;
     parse.NamespaceId_ID := parse.NamespaceId.Name;
     parse.SubscriptionId_ID := parse.SubscriptionId.Name;
     parse.NamespaceAuthorizationRuleId_ID :=
       parse.NamespaceAuthorizationRuleId.AuthorizationRuleName;
     parse.TopicAuthorizationRuleId_ID := parse.TopicAuthorizationRuleId.AuthorizationRuleName;
     parse.ClusterId_ID := parse.ClusterId.ManagedClusterName;
     parse.FunctionAppId_ID := parse.FunctionAppId.SiteName;
     parse.SubscriptionId_String := parse.SubscriptionId.Name;
     parse.NamespaceAuthorizationRuleId_String :=
       parse.NamespaceAuthorizationRuleId.AuthorizationRuleName;
     parse.TopicAuthorizationRuleId_String :=
       parse.TopicAuthorizationRuleId.AuthorizationRuleName;
     parse.ClusterId_String := parse.ClusterId.ManagedClusterName;
     parse.FunctionAppId_String := parse.FunctionAppId.SiteName |}.

Definition model : AppService.LinuxFunctionAppOnContainerModel :=
  {| AppService.Name := "app"; AppService.ResourceGroup := "rg";
     AppService.ManagedEnvironmentId := "env";
     AppService.StorageAccountName := "acct"; AppService.StorageAccountKey := "k1";
     AppService.StorageKeyVaultSecretID := EmptyString;
     AppService.BuiltinLogging := true; AppService.AppSettings := None;
     AppService.FunctionExtensionsVersion := "~4";
     AppService.Registries :=
       [{| AppService.Server := "registry"; AppService.UserName := EmptyString;
           AppService.Password := EmptyString; AppService.Identity := EmptyString |}];
     AppService.ContainerImage := "image:tag";
     AppService.SiteConfig :=
       [{| AppService.AppInsightsConnectionString := EmptyString;
           AppService.sc_other :=
             {| AppService.Use32BitWorker := false; AppService.FtpsState := "Disabled" |} |}];
     AppService.Tags := None |}.

(** A model as [Read] has assembled it when it unpacks the app settings. *)
Definition state : AppService.LinuxFunctionAppOnContainerModel :=
  {| AppService.Name := "app"; AppService.ResourceGroup := "rg";
     AppService.ManagedEnvironmentId := "env";
     AppService.StorageAccountName := EmptyString;
     AppService.StorageAccountKey := EmptyString;
     AppService.StorageKeyVaultSecretID := EmptyString;
     AppService.BuiltinLogging := false; AppService.AppSettings := None;
     AppService.FunctionExtensionsVersion := EmptyString;
     AppService.Registries := [];
     AppService.ContainerImage := "image:tag";
     AppService.SiteConfig :=
       [{| AppService.AppInsightsConnectionString := EmptyString;
           AppService.sc_other :=
             {| AppService.Use32BitWorker := false;
                AppService.FtpsState := EmptyString |} |}];
     AppService.Tags := None |}.

(** App settings as the service returns them. *)
Definition settings : gmap string (option string) :=
  {[ "AzureWebJobsStorage" := Some "@Microsoft.KeyVault(SecretUri=https://vault/secrets/storage)";
     "FUNCTIONS_EXTENSION_VERSION" := Some "~4";
     "WEBSITE_RUN_FROM_PACKAGE" := Some "1" ]}.

Definition siteConfig : web.SiteConfig :=
  {| web.LinuxFxVersion := Some "DOCKER|registry/image:tag"; web.AppSettings := None;
     web.FtpsState := None; web.Use32BitWorkerProcess := None;
     web.config_details := tt |}.

(** [updateOrAppendAppSettings] on pairs of a name and a value. *)
Definition setPair (pairs : list (string * string)) (name value : string) (remove : bool)
  : list (string * string) :=
  let others := filter (fun nv => nv.1 <> name) pairs in
  if remove then others else others ++ [(name, value)].

#[local] Instance externals : resources.Externals :=
  {| resources.ThreePointOhBeta := true;
     resources.ResponseWasNotFound := fun r => bool_decide (r = Some 404%Z);
     resources.ImportAsExistsError := fun resourceName id =>
       Errorf "A resource with the ID %q already exists - to be managed via Terraform this resource needs to be imported into the State. Please see the resource documentation for %q for more information."
         [ArgString id; ArgString resourceName];
     resources.expandAuthorizationRuleRights := fun _ => Some ["Listen"];
     resources.flattenAuthorizationRuleRights := fun _ => (true, false, false);
     resources.NormalizeLocation := fun l => l;
     resources.setBlocks := fun _ _ d => (d, None);
     resources.setClusterProfiles := fun _ d => Some (d, None);
     resources.setAccessControl := fun _ d => Some (d, None);
     resources.setKubeAdminConfig := fun _ d => Some (d, None);
     resources.setIdentity := fun _ d => Some (d, None);
     resources.tags_FlattenAndSet := fun _ d => (d, None);
     resources.ParseKubeConfig := fun _ => inr (ExternalError "not a kube config");
     resources.ParseKubeConfigAAD := fun _ => inr (ExternalError "not a kube config");
     resources.Decode := fun _ => inl model;
     resources.ResourceRequiresImport := fun resourceType id =>
       Errorf "A resource with the ID %q already exists - to be managed via Terraform this resource needs to be imported into the State. Please see the resource documentation for %q for more information."
         [ArgString (parse.FunctionAppId_ID id); ArgString resourceType];
     resources.MarkAsGone := fun _ d => (SetId EmptyString d, None);
     resources.ParseManagedEnvironmentID :=
       parseOr (managedenvironments.Build_ManagedEnvironmentId "sub" "rg");
     resources.ManagedEnvironmentId_ID := managedenvironments.ManagedEnvironmentName;
     resources.ManagedEnvironmentId_String := managedenvironments.ManagedEnvironmentName;
     resources.StorageStringKV := fun id => id;
     resources.StorageString := fun n k sfx => n;
     resources.updateOrAppendAppSettings := setPair;
     resources.MergeUserAppSettings := fun pairs user =>
       Some (default [] pairs ++ map_to_list (default ∅ user));
     resources.tags_FromTypedObject := fun _ => None;
     resources.tags_ToTypedObject := fun _ => None;
     resources.rangeOrder := map_to_list |}.

Definition resourceData (id : string) (isNew : bool) : ResourceData :=
  {| Id := id; IsNewResource := isNew;
     attrs := {[ "name" := VString "example";
                 "topic_id" := VString "topic";
                 "namespace_id" := VString "ns";
                 "resource_group_name" := VString "rg" ]};
     changed := ∅; partial := false;
     timeouts := fun _ => (30 * Minute)%Z |}.

Definition world (id : string) (isNew : bool) : World :=
  {| data := resourceData id isNew; clock := 0 |}.

Definition reply (status : Z) (err : option error) : Reply :=
  {| reply_Response := Some status; reply_err := err; reply_body := NoBody |}.

Definition client (answers : nat -> Call -> Reply) : Client :=
  {| Account_SubscriptionId := "sub"; Environment_Name := "public";
     Storage_DomainSuffix := Some "core.windows.net"; remote := answers |}.

(** Every request is answered 404 with an error. *)
Definition nothingThere : Client :=
  client (fun _ _ => reply 404 (Some (ExternalError "404 Not Found"))).

(** Every request is answered 500 with an error. *)
Definition broken : Client :=
  client (fun _ _ => reply 500 (Some (ExternalError "500 Internal Server Error"))).

(** Every request succeeds with 200: whatever is asked for exists. *)
Definition everythingThere : Client :=
  client (fun _ _ => reply 200 None).

(** The resource does not exist yet, and every other request succeeds. *)
Definition freshSubscription : Client :=
  client (fun n q =>
    match n, q with
    | 0, _ => reply 404 (Some (ExternalError "404 Not Found"))
    | _, ManagedEnvironmentsGet _ =>
        {| reply_Response := Some 200%Z; reply_err := None;
           reply_body := BodyManagedEnvironment (Some "westeurope") |}
    | _, _ => reply 200 None
    end).

(** As [freshSubscription], but waiting for the operation fails. *)
Definition waitFails : Client :=
  client (fun n q =>
    match n, q with
    | 0, _ => reply 404 (Some (ExternalError "404 Not Found"))
    | _, ManagedEnvironmentsGet _ =>
        {| reply_Response := Some 200%Z; reply_err := None;
           reply_body := BodyManagedEnvironment (Some "westeurope") |}
    | _, WaitForPairedNamespaceReplication _ _ _
    | _, FutureWaitForCompletionRef _ _ => reply 500 (Some (ExternalError "timed out"))
    | _, _ => reply 200 None
    end).

(** A cluster with an AAD profile and local accounts. *)
Definition cluster : containerservice.ManagedCluster :=
  {| containerservice.Name := Some "example";
     containerservice.Location := Some "westeurope";
     containerservice.Properties := Some
       {| containerservice.AadProfileSet := true;
          containerservice.DisableLocalAccounts := None;
          containerservice.props_NetworkProfile := Some
            {| containerservice.NetworkPlugin := "azure";
               containerservice.NetworkPolicy := EmptyString;
               containerservice.ServiceCidr := Some "10.0.0.0/16";
               containerservice.DNSServiceIP := Some "10.0.0.10";
               containerservice.DockerBridgeCidr := None;
               containerservice.PodCidr := None;
               containerservice.LoadBalancerSku := "standard" |};
          containerservice.props_details := tt |};
     containerservice.cluster_details := tt |}.


(** The GET of a site returns a Function App with its site config; every
    other request succeeds with an empty body. *)
Definition deployed : Client :=
  client (fun _ q =>
    match q with
    | WebAppsGet _ _ =>
        {| reply_Response := Some 200%Z; reply_err := None;
           reply_body := BodySite
             {| web.Tags := None; web.Location := Some "westeurope";
                web.Kind := Some "functionapp,linux,container,azurecontainerapps";
                web.site_Properties := Some
                  {| web.props_SiteConfig := Some siteConfig;
                     web.ManagedEnvironmentID := Some "env" |} |} |}
    | _ => reply 200 None
    end).

End samples.

(** * Properties *)

(** ** The storage-accounts cache *)

Module StorageCacheFacts.

Import StorageCache.

Lemma guardedFrom_app m held e1 e2 :
  guardedFrom m held (e1 ++ e2)
  = guardedFrom m held e1 && guardedFrom m (heldAfter m held e1) e2.
Proof.
  revert held. induction e1 as [|e e1 IH]; intros held; simpl; [done|].
  destruct e; simpl; rewrite ?IH; try done.
  all: by rewrite andb_assoc.
Qed.

Lemma heldAfter_app m held e1 e2 :
  heldAfter m held (e1 ++ e2) = heldAfter m (heldAfter m held e1) e2.
Proof.
  revert held. induction e1 as [|e e1 IH]; intros held; simpl; [done|].
  destruct e; simpl; by rewrite ?IH.
Qed.

Lemma lockFree_guarded m evs : lockFree evs -> guardedFrom m true evs = true.
Proof.
  induction 1 as [|e evs He _ IH]; simpl; [done|].
  destruct e; simpl in *; try done.
Qed.

Lemma lockFree_heldAfter m held evs : lockFree evs -> heldAfter m held evs = held.
Proof.
  induction 1 as [|e evs He _ IH]; simpl; [done|].
  destruct e; simpl in *; try done.
Qed.

Lemma locked_events {A} m (body : M A) s :
  let '(r, s', evs) := body s in
  locked m body s = (r, s', EvLock m :: evs ++ [EvUnlock m]).
Proof.
  unfold locked, bind, Lock, Unlock, ret.
  destruct (body s) as [[r s'] evs]. done.
Qed.

Lemma locked_guarded m evs :
  lockFree evs -> guarded m (EvLock m :: evs ++ [EvUnlock m]) = true.
Proof.
  intros Hfree. unfold guarded. simpl.
  rewrite bool_decide_eq_true_2 by done. simpl.
  rewrite guardedFrom_app, lockFree_guarded by done. simpl. done.
Qed.


Lemma locked_run {A} m (body : M A) s :
  locked m body s
  = ((body s).1.1, (body s).1.2, EvLock m :: (body s).2 ++ [EvUnlock m]).
Proof. pose proof (locked_events m body s) as E. by destruct (body s) as [[r s'] evs]. Qed.

Lemma lockFree_bind {A B} (m : M A) (f : A -> M B) s :
  lockFree (m s).2 -> (forall a s', lockFree (f a s').2) -> lockFree (bind m f s).2.
Proof.
  intros Hm Hf. unfold bind. destruct (m s) as [[a s1] e1]. simpl in Hm.
  specialize (Hf a s1). destruct (f a s1) as [[b s2] e2]. simpl in *.
  by apply Forall_app.
Qed.

Lemma lockFree_ret {A} (a : A) (s : Store) : lockFree (@ret Store Event A a s).2.
Proof. constructor. Qed.

Lemma lockFree_cacheLookup k s : lockFree (cacheLookup k s).2.
Proof. repeat constructor. Qed.

Lemma lockFree_cacheStore k v s : lockFree (cacheStore k v s).2.
Proof. repeat constructor. Qed.

Lemma lockFree_cacheDelete k s : lockFree (cacheDelete k s).2.
Proof. repeat constructor. Qed.

Lemma lockFree_request {A} c (answer : nat -> A) s : lockFree (request c answer s).2.
Proof. repeat constructor. Qed.

Ltac lock_free :=
  repeat first
    [ done | apply Forall_nil | apply Forall_cons | apply lockFree_ret | apply lockFree_cacheLookup | apply lockFree_cacheStore
    | apply lockFree_cacheDelete | apply lockFree_request
    | apply lockFree_bind; [|intros] | case_match ].

Section Cache.

(** [commonids.ParseStorageAccountID] *)
Variable P : string -> StorageAccountId + error.

Lemma lockFree_drainPages pages accounts s : lockFree (drainPages pages accounts s).2.
Proof.
  revert accounts s. induction pages as [|[values nextErr] rest IH]; intros accounts s.
  - apply lockFree_ret.
  - simpl. destruct values; lock_free; try apply IH. 
Qed.

Lemma lockFree_cacheAccounts accounts s : lockFree (cacheAccounts P accounts s).2.
Proof.
  revert s. induction accounts as [|v rest IH]; intros s; simpl; lock_free; try apply IH.
Qed.

Lemma FindAccount_guarded c accountName s :
  guarded accountsLock (FindAccount P c accountName s).2 = true.
Proof.
  unfold FindAccount. rewrite locked_run. apply locked_guarded.
  lock_free; first [apply lockFree_drainPages | apply lockFree_cacheAccounts].
Qed.

Lemma AddToCache_guarded c accountName props s :
  guarded accountsLock (AddToCache P c accountName props s).2 = true.
Proof.
  unfold AddToCache. rewrite locked_run. apply locked_guarded. lock_free.
Qed.

Lemma RemoveAccountFromCache_events c accountName s :
  (RemoveAccountFromCache c accountName s).2
  = [EvLock accountsLock; EvCacheDelete accountName; EvUnlock accountsLock].
Proof. reflexivity. Qed.


(** Claim C2, at its failing input.  An [AccountKey] call that fetches the
    key remotely locks [credentialsLock], asks the remote side, writes the
    account into [storageAccountsCache] and unlocks: the write happens
    without [accountsLock], the mutex under which [FindAccount],
    [AddToCache] and [RemoveAccountFromCache] touch the cache.  No mutex is
    held at both this write and the delete of [RemoveAccountFromCache]. *)
Theorem AccountKey_stores_without_accountsLock
    (ad : accountDetails) (client : Client) (s : Store) ad' k s' evs :
  accountKey ad = None ->
  AccountKey ad client s = (ad', (Some k, None), s', evs) ->
  evs = [EvLock credentialsLock;
         EvRemote (AccountsListKeys (ResourceGroup ad) (name ad));
         EvCacheWrite (name ad);
         EvUnlock credentialsLock]
  /\ guarded accountsLock evs = false
  /\ forall m c accountName s2,
       guarded m evs && guarded m (RemoveAccountFromCache c accountName s2).2 = false.
Proof.
  intros Hmiss Hrun. unfold AccountKey in Hrun. rewrite locked_run, Hmiss in Hrun.
  unfold bind, request, cacheStore, ret in Hrun. simpl in Hrun.
  destruct (AccountsClient_ListKeys client (requests s) (ResourceGroup ad) (name ad))
    as [props [err|]]; simpl in Hrun; [congruence|].
  destruct (Keys props) as [[|[kn [v|]] keys]|]; simpl in Hrun; try congruence.
  injection Hrun as <- <- <- <-.
  split; [done|]. split; [done|].
  intros [] c accountName s2; reflexivity.
Qed.

(** Claim C6, amended.  [FindAccount] returns a cached entry without a
    remote request.  After a [FindAccount] call that returns an account,
    the account is in the cache under that name and a second call returns
    it again without a remote request.  After an [AccountKey] call that
    fetched the key remotely, the account with its key is in the cache
    under its name, and both a second [AccountKey] call and a [FindAccount]
    call for that name answer without a remote request. *)
Theorem lookups_are_cached (c : Client) :
  (forall accountName s a,
      storageAccountsCache s !! accountName = Some a ->
      FindAccount P c accountName s
      = (Some a, None, s,
         [EvLock accountsLock; EvCacheRead accountName; EvUnlock accountsLock]))
  /\ (forall accountName s a s' evs,
      FindAccount P c accountName s = (Some a, None, s', evs) ->
      storageAccountsCache s' !! accountName = Some a
      /\ exists evs', FindAccount P c accountName s' = (Some a, None, s', evs')
                      /\ offline evs')
  /\ (forall ad s ad' k s' evs,
      accountKey ad = None ->
      AccountKey ad c s = (ad', (Some k, None), s', evs) ->
      storageAccountsCache s' !! name ad = Some ad'
      /\ accountKey ad' = Some k
      /\ (exists evs', AccountKey ad' c s' = (ad', (Some k, None), s', evs')
                       /\ offline evs')
      /\ (exists evs', FindAccount P c (name ad) s' = (Some ad', None, s', evs')
                       /\ offline evs')).
Proof.
  assert (Hhit : forall accountName s a,
      storageAccountsCache s !! accountName = Some a ->
      FindAccount P c accountName s
      = (Some a, None, s,
         [EvLock accountsLock; EvCacheRead accountName; EvUnlock accountsLock])).
  { intros accountName s a Hin. unfold FindAccount. rewrite locked_run.
    unfold bind, cacheLookup, ret. simpl. rewrite Hin. reflexivity. }
  assert (Hoff : forall k, offline [EvLock accountsLock; EvCacheRead k; EvUnlock accountsLock]).
  { intros k. repeat constructor. }
  split; [exact Hhit|]. split.
  - intros accountName s a s' evs Hrun.
    assert (Hin : storageAccountsCache s' !! accountName = Some a).
    { unfold FindAccount in Hrun. rewrite locked_run in Hrun.
      unfold bind, cacheLookup, request, ret in Hrun. simpl in Hrun.
      destruct (storageAccountsCache s !! accountName) as [a0|] eqn:Hc; simpl in Hrun.
      - injection Hrun as <- <- <-. done.
      - destruct (AccountsClient_List c (requests s)) as [pages [err|]]; simpl in Hrun;
          [congruence|].
        destruct (drainPages pages [] _) as [[[accounts|err] s1] e1]; simpl in Hrun;
          [|congruence].
        destruct (cacheAccounts P accounts s1) as [[[err|] s2] e2]; simpl in Hrun;
          [congruence|].
        destruct (storageAccountsCache s2 !! accountName) as [a1|] eqn:Hc2; simpl in Hrun;
          [|congruence].
        injection Hrun as <- <- <-. done. }
    split; [done|]. eexists. split; [by apply Hhit|apply Hoff].
  - intros ad s ad' k s' evs Hmiss Hrun.
    unfold AccountKey in Hrun. rewrite locked_run, Hmiss in Hrun.
    unfold bind, request, cacheStore, ret in Hrun. simpl in Hrun.
    destruct (AccountsClient_ListKeys c (requests s) (ResourceGroup ad) (name ad))
      as [props [err|]]; simpl in Hrun; [congruence|].
    destruct (Keys props) as [[|[kn [v|]] keys]|]; simpl in Hrun; try congruence.
    injection Hrun as <- <- <- <-. simpl.
    split; [apply lookup_insert_eq|]. split; [done|]. split.
    + eexists. split; [reflexivity|]. repeat constructor.
    + eexists. split; [|apply Hoff]. apply (Hhit (name ad)). simpl. apply lookup_insert_eq.
Qed.

Lemma populateAccountDetails_ok accountName props account :
  populateAccountDetails P accountName props = inl account ->
  accountKey account = None /\ name account = accountName
  /\ acc_ID props = Some (ID account).
Proof.
  unfold populateAccountDetails. intros Hp.
  destruct (acc_ID props) as [id|]; [|done].
  destruct (P id); [|done]. by injection Hp as <-.
Qed.

Lemma populateAccountDetails_error accountName props err :
  populateAccountDetails P accountName props = inr err ->
  acc_ID props = None
  \/ exists id e, acc_ID props = Some id /\ P id = inr e /\ wraps err e.
Proof.
  unfold populateAccountDetails. intros Hp.
  destruct (acc_ID props) as [id|]; [|by left].
  destruct (P id) as [parsed|e] eqn:Hid; [done|].
  right. exists id, e. injection Hp as <-. simpl. auto.
Qed.

Lemma FindAccount_hit c accountName s a :
  storageAccountsCache s !! accountName = Some a ->
  FindAccount P c accountName s = (Some a, None, s, hit accountName).
Proof.
  intros Hin. unfold FindAccount. rewrite locked_run.
  unfold bind, cacheLookup, ret. simpl. rewrite Hin. reflexivity.
Qed.

(** X1.  A successful [AddToCache] stores the account details built from
    the properties under the given name and makes no remote request; a
    [FindAccount] for that name is then answered from the cache, with the
    stored details and no remote request.  The stored details carry no
    account key, so an [AccountKey] call on them asks the remote side. *)
Theorem AddToCache_then_FindAccount c c' accountName props s s' evs :
  AddToCache P c accountName props s = (None, s', evs) ->
  exists account,
    populateAccountDetails P accountName props = inl account
    /\ storageAccountsCache s' = <[accountName := account]> (storageAccountsCache s)
    /\ requests s' = requests s
    /\ offline evs
    /\ FindAccount P c' accountName s' = (Some account, None, s', hit accountName)
    /\ accountKey account = None
    /\ In (EvRemote (AccountsListKeys (ResourceGroup account) accountName))
          (AccountKey account c' s').2.
Proof.
  unfold AddToCache. rewrite locked_run. intros Hrun.
  destruct (populateAccountDetails P accountName props) as [account|err] eqn:Hp;
    [|by injection Hrun].
  injection Hrun as <- <-. exists account.
  destruct (populateAccountDetails_ok _ _ _ Hp) as (Hkey & Hname & _).
  repeat split; try done.
  - repeat constructor.
  - apply FindAccount_hit. simpl. apply lookup_insert_eq.
  - unfold AccountKey. rewrite locked_run, Hkey, Hname. simpl.
    unfold bind, request; simpl.
    destruct (AccountsClient_ListKeys c' _ _ _) as [res [e|]]; simpl; [auto|].
    destruct (Keys res) as [[|[kn [v|]] keys]|]; simpl; auto.
Qed.

(** X2.  When [AddToCache] returns an error it has left the cache and the
    request count as they were and has not touched the cache at all; the
    account's ID was nil, or the parser rejected it and the error wraps the
    parser's. *)
Theorem AddToCache_failure_changes_nothing c accountName props s err s' evs :
  AddToCache P c accountName props s = (Some err, s', evs) ->
  s' = s
  /\ Forall (fun e => isCacheAccess e = false) evs
  /\ (acc_ID props = None
      \/ exists id e, acc_ID props = Some id /\ P id = inr e /\ wraps err e).
Proof.
  unfold AddToCache. rewrite locked_run. intros Hrun.
  destruct (populateAccountDetails P accountName props) as [account|e] eqn:Hp;
    [by injection Hrun|].
  injection Hrun as <- <- <-. split; [done|]. split; [repeat constructor|].
  by apply populateAccountDetails_error in Hp.
Qed.

Lemma FindAccount_miss_is_remote c accountName s :
  storageAccountsCache s !! accountName = None ->
  In (EvRemote AccountsList) (FindAccount P c accountName s).2.
Proof.
  intros Hmiss. unfold FindAccount. rewrite locked_run.
  unfold bind, cacheLookup, request, ret. simpl. rewrite Hmiss. simpl.
  destruct (AccountsClient_List c (requests s)) as [pages [err|]]; simpl; [auto|].
  destruct (drainPages pages [] _) as [[[accounts|err] s1] e1]; simpl; [|auto].
  destruct (cacheAccounts P accounts s1) as [[[err|] s2] e2]; simpl; [auto|].
  destruct (storageAccountsCache s2 !! accountName); simpl; auto.
Qed.

(** X3.  [RemoveAccountFromCache] deletes the entry of that name and no
    other, under [accountsLock] and without a remote request; the next
    [FindAccount] for the name lists the accounts remotely again. *)
Theorem RemoveAccountFromCache_forgets c c' accountName s :
  let run := RemoveAccountFromCache c accountName s in
  storageAccountsCache run.1.2 = delete accountName (storageAccountsCache s)
  /\ requests run.1.2 = requests s
  /\ guarded accountsLock run.2 = true
  /\ offline run.2
  /\ In (EvRemote AccountsList) (FindAccount P c' accountName run.1.2).2.
Proof.
  cbv zeta. repeat split; try (by repeat constructor).
  apply FindAccount_miss_is_remote. simpl. apply lookup_delete_eq.
Qed.

Lemma drainPages_listed pages accounts s r s' evs :
  drainPages pages accounts s = (r, s', evs) ->
  storageAccountsCache s' = storageAccountsCache s
  /\ match r with inl all => all = accounts ++ listed pages | inr _ => True end.
Proof.
  revert accounts s evs. induction pages as [|[values nextErr] rest IH]; intros accounts s evs.
  - intros Hrun. injection Hrun as <- <- <-. by rewrite app_nil_r.
  - simpl. destruct values as [|v values].
    + intros Hrun. injection Hrun as <- <- <-. by rewrite app_nil_r.
    + unfold bind, request. simpl. destruct nextErr as [e|].
      * intros Hrun. by injection Hrun as <- <- <-.
      * destruct (drainPages rest _ _) as [[r1 s1] e1] eqn:Hrest.
        intros Hrun. injection Hrun as <- <- <-.
        destruct (IH _ _ _ Hrest) as [Hc Hr]. split; [done|].
        destruct r1; [|done]. by rewrite Hr, <- app_assoc.
Qed.

(** What the loop over the listing leaves in the cache for names it does
    not meet, and for names it meets. *)
Lemma cacheAccounts_other accounts s s' evs n :
  cacheAccounts P accounts s = (None, s', evs) ->
  (forall v, v ∈ accounts -> acc_Name v <> Some n) ->
  storageAccountsCache s' !! n = storageAccountsCache s !! n.
Proof.
  revert s evs. induction accounts as [|v rest IH]; intros s evs Hrun Hnot.
  - by injection Hrun as <- <-.
  - simpl in Hrun. destruct (acc_Name v) as [n0|] eqn:Hn0.
    + destruct (populateAccountDetails P n0 v) as [a|e]; [|done].
      unfold bind, cacheStore in Hrun. simpl in Hrun.
      destruct (cacheAccounts P rest _) as [[r1 s1] e1] eqn:Hrest.
      injection Hrun as -> <- <-.
      rewrite (IH _ _ Hrest).
      * simpl. apply lookup_insert_ne. intros ->. apply (Hnot v); [left|done].
      * intros v' Hin. apply Hnot. by right.
    + apply (IH _ _ Hrun). intros v' Hin. apply Hnot. by right.
Qed.

Lemma cacheAccounts_listed accounts s s' evs n :
  cacheAccounts P accounts s = (None, s', evs) ->
  (exists v, v ∈ accounts /\ acc_Name v = Some n) ->
  exists a, storageAccountsCache s' !! n = Some a /\ accountKey a = None /\ name a = n.
Proof.
  revert s evs. induction accounts as [|v rest IH]; intros s evs Hrun (v0 & Hin & Hname).
  - by apply elem_of_nil in Hin.
  - simpl in Hrun.
    destruct (decide (Exists (fun v' => acc_Name v' = Some n) rest)) as [Hlater|Hlast].
    + apply Exists_exists in Hlater as (v1 & Hin1 & Hname1).
      destruct (acc_Name v) as [n0|].
      * destruct (populateAccountDetails P n0 v) as [a|e]; [|done].
        unfold bind, cacheStore in Hrun. simpl in Hrun.
        destruct (cacheAccounts P rest _) as [[r1 s1] e1] eqn:Hrest.
        injection Hrun as -> <- <-. apply (IH _ _ Hrest). eauto.
      * apply (IH _ _ Hrun). eauto.
    + assert (Hnot : forall v', v' ∈ rest -> acc_Name v' <> Some n).
      { intros v' Hin' Hn'. apply Hlast, Exists_exists. eauto. }
      apply elem_of_cons in Hin as [->|Hin]; [|by destruct (Hnot _ Hin)].
      rewrite Hname in Hrun.
      destruct (populateAccountDetails P n v) as [a|e] eqn:Hp; [|done].
      unfold bind, cacheStore in Hrun. simpl in Hrun.
      destruct (cacheAccounts P rest _) as [[r1 s1] e1] eqn:Hrest.
      injection Hrun as -> <- <-.
      rewrite (cacheAccounts_other _ _ _ _ n Hrest Hnot). simpl.
      rewrite lookup_insert_eq. exists a.
      destruct (populateAccountDetails_ok _ _ _ Hp) as (? & ? & _). done.
Qed.

(** X4.  A [FindAccount] call that misses the cache and succeeds has
    listed the accounts remotely and cached every named account of the
    listing, each without an account key (a key cached before for such an
    account is overwritten), so that a later [FindAccount] for any of them
    is answered from the cache; entries of names the listing does not
    contain are left as they were, and the call returns what the cache
    then holds for the requested name. *)
Theorem FindAccount_caches_the_listing c c' accountName s found s' evs :
  storageAccountsCache s !! accountName = None ->
  FindAccount P c accountName s = (found, None, s', evs) ->
  exists pages,
    AccountsClient_List c (requests s) = (pages, None)
    /\ found = storageAccountsCache s' !! accountName
    /\ (forall n, (exists v, v ∈ listed pages /\ acc_Name v = Some n) ->
          exists a, storageAccountsCache s' !! n = Some a
                    /\ accountKey a = None /\ name a = n
                    /\ FindAccount P c' n s' = (Some a, None, s', hit n))
    /\ (forall n, (forall v, v ∈ listed pages -> acc_Name v <> Some n) ->
          storageAccountsCache s' !! n = storageAccountsCache s !! n).
Proof.
  intros Hmiss Hrun. unfold FindAccount in Hrun. rewrite locked_run in Hrun.
  unfold bind, cacheLookup, request, ret in Hrun. simpl in Hrun.
  rewrite Hmiss in Hrun. simpl in Hrun.
  destruct (AccountsClient_List c (requests s)) as [pages [err|]]; simpl in Hrun;
    [congruence|].
  destruct (drainPages pages [] _) as [[[accounts|err] s1] e1] eqn:Hdrain; simpl in Hrun;
    [|congruence].
  apply drainPages_listed in Hdrain as [Hc1 ->]. simpl app in *.
  destruct (cacheAccounts P (listed pages) s1) as [[[err|] s2] e2] eqn:Hcache;
    simpl in Hrun; [congruence|].
  exists pages. split; [done|].
  assert (s' = s2 /\ found = storageAccountsCache s2 !! accountName) as [-> ->].
  { destruct (storageAccountsCache s2 !! accountName); simpl in Hrun;
      by injection Hrun as <- <-. }
  split; [done|]. split.
  - intros n Hn. destruct (cacheAccounts_listed _ _ _ _ n Hcache Hn) as (a & Ha & Hk & Hnm).
    exists a. repeat split; try done. by apply FindAccount_hit.
  - intros n Hn. rewrite (cacheAccounts_other _ _ _ _ n Hcache Hn). by rewrite Hc1.
Qed.

(** X5.  [AccountKey] runs under [credentialsLock] and leaves the cache
    entries of all other names alone.  With a key already in the receiver
    it returns that key without a remote request or any change.  When it
    returns an error no key is returned, the receiver and the cache are
    unchanged and exactly one remote request was made. *)
Theorem AccountKey_touches_only_its_entry ad c s ad' r s' evs :
  AccountKey ad c s = (ad', r, s', evs) ->
  guarded credentialsLock evs = true
  /\ (forall k, k <> name ad -> storageAccountsCache s' !! k = storageAccountsCache s !! k)
  /\ (forall k0, accountKey ad = Some k0 ->
        r = (Some k0, None) /\ ad' = ad /\ s' = s
        /\ evs = [EvLock credentialsLock; EvUnlock credentialsLock])
  /\ (forall err, r.2 = Some err ->
        r.1 = None /\ ad' = ad
        /\ storageAccountsCache s' = storageAccountsCache s
        /\ requests s' = S (requests s)
        /\ Forall (fun e => isCacheAccess e = false) evs).
Proof.
  unfold AccountKey. rewrite locked_run. intros Hrun.
  destruct (accountKey ad) as [k0|] eqn:Hk.
  { injection Hrun as <- <- <- <-.
    split; [done|]. split; [done|]. split; [|done].
    intros k1 Hk1. by simplify_eq. }
  unfold bind, request, cacheStore, ret in Hrun. simpl in Hrun.
  assert (Hfree : Forall (fun e => isCacheAccess e = false)
            [EvLock credentialsLock;
             EvRemote (AccountsListKeys (ResourceGroup ad) (name ad));
             EvUnlock credentialsLock]) by repeat constructor.
  destruct (AccountsClient_ListKeys c (requests s) (ResourceGroup ad) (name ad))
    as [props [err|]]; simpl in Hrun.
  { injection Hrun as <- <- <- <-.
    split; [done|]. split; [done|]. split; [done|]. by intros e He. }
  destruct (Keys props) as [[|[kn [v|]] keys]|]; simpl in Hrun;
    injection Hrun as <- <- <- <-.
  all: split; [done|]; split; [|split; [done|]].
  all: try (intros k Hne; simpl; first [done | by apply lookup_insert_ne]).
  all: by intros e He.
Qed.

Lemma string_of_chars s : string_of_list_ascii (GoStrings.chars s) = s.
Proof. apply string_of_list_ascii_of_string. Qed.

Lemma of_list_ascii_app l1 l2 :
  string_of_list_ascii (l1 ++ l2)
  = String.append (string_of_list_ascii l1) (string_of_list_ascii l2).
Proof. induction l1 as [|a l1 IH]; simpl; [done|]. by rewrite IH. Qed.

Lemma chars_of_append s1 s2 :
  GoStrings.chars (String.append s1 s2) = GoStrings.chars s1 ++ GoStrings.chars s2.
Proof. induction s1 as [|a s1 IH]; simpl; [done|]. by rewrite IH. Qed.

Lemma HasSuffix_append s suffix :
  GoStrings.HasSuffix s suffix = true <-> exists u, s = String.append u suffix.
Proof.
  unfold GoStrings.HasSuffix. rewrite bool_decide_eq_true. split.
  - intros [k Hk]. exists (string_of_list_ascii k).
    rewrite <- (string_of_chars s), Hk, of_list_ascii_app. by rewrite string_of_chars.
  - intros [u ->]. exists (GoStrings.chars u). apply chars_of_append.
Qed.

Lemma TrimSuffix_append u suffix :
  GoStrings.TrimSuffix (String.append u suffix) suffix = u.
Proof.
  unfold GoStrings.TrimSuffix.
  destruct (GoStrings.HasSuffix (String.append u suffix) suffix) eqn:Hs.
  - rewrite chars_of_append, length_app, Nat.add_sub, take_app_length.
    apply string_of_chars.
  - assert (Ht : GoStrings.HasSuffix (String.append u suffix) suffix = true)
      by (apply HasSuffix_append; eauto).
    congruence.
Qed.

Lemma TrimSuffix_without s suffix :
  (forall u, s <> String.append u suffix) -> GoStrings.TrimSuffix s suffix = s.
Proof.
  intros Hno. unfold GoStrings.TrimSuffix.
  destruct (GoStrings.HasSuffix s suffix) eqn:Hs; [|done].
  apply HasSuffix_append in Hs as [u ->]. by destruct (Hno u).
Qed.

Lemma primaryEndpoint_None endpoints t :
  primaryEndpoint endpoints t = None <-> t ∉ endpointTypes.
Proof.
  unfold primaryEndpoint, endpointTypes. rewrite !not_elem_of_cons.
  destruct (String.eqb_spec t EndpointTypeBlob); [split; [done|intros (?&?&?&?&?&?); done]|].
  destruct (String.eqb_spec t EndpointTypeDfs); [split; [done|intros (?&?&?&?&?&?); done]|].
  destruct (String.eqb_spec t EndpointTypeFile); [split; [done|intros (?&?&?&?&?&?); done]|].
  destruct (String.eqb_spec t EndpointTypeQueue); [split; [done|intros (?&?&?&?&?&?); done]|].
  destruct (String.eqb_spec t EndpointTypeTable); [split; [done|intros (?&?&?&?&?&?); done]|].
  split; [|done]. intros _. repeat split; try done. apply not_elem_of_nil.
Qed.

(** X6.  [DataPlaneEndpoint] returns a base URI exactly when the account
    has properties and primary endpoints and the endpoint of the requested
    type is set; the base URI is then not empty and it is that endpoint
    with its one trailing "/" trimmed: the endpoint is the base URI
    followed by "/", or it is the base URI itself and does not end in "/".
    It returns an error exactly in these cases: the account has no
    properties or no primary endpoints, the endpoint type is none of blob,
    dfs, file, queue and table, or the endpoint of that type is nil, empty
    or just "/". *)
Theorem DataPlaneEndpoint_result ad endpointType :
  (forall baseUri,
     DataPlaneEndpoint ad endpointType = inl baseUri <->
     exists props endpoints uri,
       Properties ad = Some props
       /\ PrimaryEndpoints props = Some endpoints
       /\ primaryEndpoint endpoints endpointType = Some (Some uri)
       /\ baseUri <> EmptyString
       /\ (uri = String.append baseUri "/"
           \/ uri = baseUri /\ forall u, uri <> String.append u "/"))
  /\ ((exists err, DataPlaneEndpoint ad endpointType = inr err) <->
      Properties ad = None
      \/ exists props, Properties ad = Some props
         /\ (PrimaryEndpoints props = None
             \/ exists endpoints, PrimaryEndpoints props = Some endpoints
                /\ (endpointType ∉ endpointTypes
                    \/ primaryEndpoint endpoints endpointType = Some None
                    \/ primaryEndpoint endpoints endpointType = Some (Some EmptyString)
                    \/ primaryEndpoint endpoints endpointType = Some (Some "/")))).
Proof.
  assert (Htrim : forall uri baseUri,
            GoStrings.TrimSuffix uri "/" = baseUri <->
            (uri = String.append baseUri "/"
             \/ uri = baseUri /\ forall u, uri <> String.append u "/")).
  { intros uri baseUri. split.
    - intros <-. destruct (GoStrings.HasSuffix uri "/") eqn:Hs.
      + apply HasSuffix_append in Hs as [u ->]. left. by rewrite TrimSuffix_append.
      + right. split.
        * unfold GoStrings.TrimSuffix. by rewrite Hs.
        * intros u ->. assert (GoStrings.HasSuffix (String.append u "/") "/" = true)
            by (apply HasSuffix_append; eauto). congruence.
    - intros [->|[-> Hno]]; [apply TrimSuffix_append|by apply TrimSuffix_without]. }
  unfold DataPlaneEndpoint.
  destruct (Properties ad) as [props|].
  2: { split; [|split; [by left|eauto]]. intros baseUri; split; [done|].
       by intros (?&?&?&?&?). }
  destruct (PrimaryEndpoints props) as [endpoints|] eqn:Hends.
  2: { split.
       - intros baseUri; split; [done|]. intros (?&?&?&[= <-]&?&?). congruence.
       - split; [|eauto]. intros _. right. exists props. auto. }
  destruct (primaryEndpoint endpoints endpointType) as [endpoint|] eqn:Hsel.
  2: { split.
       - intros baseUri; split; [done|]. intros (?&?&?&[= <-]&?&?&?). congruence.
       - split; [|eauto]. intros _. right. exists props. split; [done|]. right.
         exists endpoints. split; [done|]. left. by apply primaryEndpoint_None in Hsel. }
  cbv zeta. destruct endpoint as [uri|]; simpl.
  2: { split.
       - intros baseUri; split; [done|]. intros (?&?&?&[= <-]&?&?&?). congruence.
       - split; [|eauto]. intros _. right. exists props. split; [done|]. right.
         exists endpoints. auto. }
  destruct (String.eqb_spec (GoStrings.TrimSuffix uri "/") EmptyString) as [He|Hne].
  - split.
    + intros baseUri; split; [done|].
      intros (p&e&u&[= <-]&He'&Hu&Hbase&Hcases). rewrite Hends in He'.
      injection He' as <-. rewrite Hsel in Hu. injection Hu as <-.
      apply Htrim in Hcases. congruence.
    + split; [|eauto]. intros _. right. exists props. split; [done|]. right.
      exists endpoints. split; [done|]. right. right.
      apply Htrim in He as [->|[-> _]]; [right|left]; by rewrite Hsel.
  - split.
    + intros baseUri. split.
      * intros [= <-]. exists props, endpoints, uri. repeat split; try done.
        by apply Htrim.
      * intros (p&e&u&[= <-]&He'&Hu&Hbase&Hcases). rewrite Hends in He'.
        injection He' as <-. rewrite Hsel in Hu. injection Hu as <-.
        apply Htrim in Hcases. by rewrite Hcases.
    + split; [by intros [? ?]|].
      intros [?|(p&[= <-]&[?|(e&He'&Hcases)])]; [done|congruence|].
      rewrite Hends in He'. injection He' as <-. exfalso.
      destruct Hcases as [Hno|[Hu|[Hu|Hu]]].
      * apply (primaryEndpoint_None endpoints) in Hno. congruence.
      * congruence.
      * rewrite Hsel in Hu. injection Hu as ->. by apply Hne.
      * rewrite Hsel in Hu. injection Hu as ->. by apply Hne.
Qed.

End Cache.

End StorageCacheFacts.

(** ** Unpacking the app settings *)

Module AppServiceFacts.

Import AppService GoStrings.




Section Unpack.
Context `{Helpers}.

(** Two cases of the [switch] cannot both match. *)
Ltac eqbs :=
  repeat match goal with
  | H : String.eqb _ _ = true |- _ => apply String.eqb_eq in H
  end;
  simplify_eq.

Lemma reserved_false k :
  reserved k = false ->
  String.eqb k "FUNCTIONS_EXTENSION_VERSION" = false
  /\ String.eqb k "DOCKER_REGISTRY_SERVER_URL" = false
  /\ String.eqb k "DOCKER_REGISTRY_SERVER_USERNAME" = false
  /\ String.eqb k "DOCKER_REGISTRY_SERVER_PASSWORD" = false
  /\ String.eqb k "APPLICATIONINSIGHTS_CONNECTION_STRING" = false
  /\ String.eqb k "AzureWebJobsStorage" = false.
Proof.
  unfold reserved. intros Hr. repeat (apply orb_false_elim in Hr as [Hr ?]). done.
Qed.





(** An iteration panics only on [SiteConfig[0]] of an empty slice. *)
Lemma unpackEntry_total st k v :
  (SiteConfig (model st) = [] -> k <> "APPLICATIONINSIGHTS_CONNECTION_STRING") ->
  exists st1, unpackEntry st (k, v) = Some st1
    /\ (SiteConfig (model st1) = [] -> SiteConfig (model st) = []).
Proof.
  unfold unpackEntry, set_AppInsights. intros Hsc.
  destruct (String.eqb_spec k "APPLICATIONINSIGHTS_CONNECTION_STRING") as [->|Hk].
  - cbn [String.eqb Ascii.eqb Bool.eqb].
    destruct (SiteConfig (model st)) as [|sc rest] eqn:Hm; [by destruct Hsc|].
    simpl. eexists. split; [reflexivity|]. done.
  - repeat case_match; simpl; eexists; (split; [reflexivity|]); simpl; done.
Qed.

Lemma unpackEntries_cons st kv kvs st' :
  unpackEntries st (kv :: kvs) = Some st' ->
  exists st1, unpackEntry st kv = Some st1 /\ unpackEntries st1 kvs = Some st'.
Proof.
  change (unpackEntries st (kv :: kvs))
    with (unpackEntry st kv ≫= fun st1 => unpackEntries st1 kvs).
  destruct (unpackEntry st kv) as [st1|]; [eauto|done].
Qed.

Lemma unpackEntries_total st kvs :
  (SiteConfig (model st) = [] -> "APPLICATIONINSIGHTS_CONNECTION_STRING" ∉ kvs.*1) ->
  exists st', unpackEntries st kvs = Some st'.
Proof.
  revert st. induction kvs as [|[k v] kvs IH]; intros st Hsc; [by eexists|].
  destruct (unpackEntry_total st k v) as (st1 & Hstep & Hsc1).
  { intros Hm ->. apply (Hsc Hm). simpl. left. }
  destruct (IH st1) as [st' Hrest].
  { intros Hm. specialize (Hsc (Hsc1 Hm)). simpl in Hsc. by apply not_elem_of_cons in Hsc as [_ ?]. }
  exists st'.
  change (unpackEntries st ((k, v) :: kvs))
    with (unpackEntry st (k, v) ≫= fun st1 => unpackEntries st1 kvs).
  by rewrite Hstep.
Qed.












(** One iteration, case by case. *)
Ltac entry Hstep :=
  unfold unpackEntry, set_AppInsights in Hstep;
  repeat (case_match; simplify_option_eq; try done);
  try by (exfalso; eqbs).

(** A field that only the case for [key] assigns holds, after the loop,
    what that case made of the entry for [key], if the map has one. *)
Lemma unpackEntries_field {A} (f : Unpacking -> A) (key : string)
    (g : option string -> A -> A) :
  (forall st k v st1, unpackEntry st (k, v) = Some st1 ->
     f st1 = if String.eqb k key then g v (f st) else f st) ->
  forall kvs st st',
    NoDup kvs.*1 ->
    unpackEntries st kvs = Some st' ->
    f st' = match (list_to_map kvs : gmap string (option string)) !! key with
            | Some v => g v (f st)
            | None => f st
            end.
Proof.
  intros Hentry. induction kvs as [|[k0 v0] kvs IH]; intros st st' Hnd Hrun.
  { injection Hrun as <-. simpl. by rewrite lookup_empty. }
  apply unpackEntries_cons in Hrun as (st1 & Hstep & Hrun).
  simpl in Hnd. apply NoDup_cons in Hnd as [Hfresh Hnd].
  rewrite (IH _ _ Hnd Hrun), (Hentry _ _ _ _ Hstep). simpl.
  destruct (String.eqb_spec k0 key) as [->|Hne].
  - rewrite lookup_insert_eq. by rewrite (not_elem_of_list_to_map_1 _ _ Hfresh).
  - by rewrite lookup_insert_ne.
Qed.

(** A field no case assigns. *)
Lemma unpackEntries_untouched {A} (f : Unpacking -> A) :
  (forall st k v st1, unpackEntry st (k, v) = Some st1 -> f st1 = f st) ->
  forall kvs st st', unpackEntries st kvs = Some st' -> f st' = f st.
Proof.
  intros Hentry. induction kvs as [|[k0 v0] kvs IH]; intros st st' Hrun.
  { by injection Hrun as <-. }
  apply unpackEntries_cons in Hrun as (st1 & Hstep & Hrun).
  by rewrite (IH _ _ Hrun), (Hentry _ _ _ _ Hstep).
Qed.

Lemma unpackEntries_panics st kvs :
  SiteConfig (model st) = [] -> appInsightsKey ∈ kvs.*1 -> unpackEntries st kvs = None.
Proof.
  revert st. induction kvs as [|[k0 v0] kvs IH]; intros st Hsc Hin.
  { by apply elem_of_nil in Hin. }
  change (unpackEntries st ((k0, v0) :: kvs))
    with (unpackEntry st (k0, v0) ≫= fun st1 => unpackEntries st1 kvs).
  destruct (unpackEntry st (k0, v0)) as [st1|] eqn:Hstep; [|done].
  cbn [mbind option_bind]. simpl in Hin. apply elem_of_cons in Hin as [Hk|Hin].
  - exfalso. subst k0. unfold unpackEntry, set_AppInsights, appInsightsKey in Hstep.
    cbn [String.eqb Ascii.eqb Bool.eqb] in Hstep. rewrite Hsc in Hstep. done.
  - apply IH; [|done]. rewrite <- Hsc. clear -Hstep Hsc.
    unfold unpackEntry, set_AppInsights in Hstep. rewrite Hsc in Hstep.
    repeat (case_match; simplify_option_eq; try done).
Qed.

Lemma enumerates_keys order props k :
  enumerates order props -> k ∈ order.*1 <-> is_Some (props !! k).
Proof.
  unfold enumerates. intros Horder. rewrite Horder. split.
  - intros Hin. apply list_elem_of_fmap in Hin as ([k' v] & -> & Hin).
    apply elem_of_map_to_list in Hin. by exists v.
  - intros [v Hv]. apply list_elem_of_fmap. exists (k, v). split; [done|].
    by apply elem_of_map_to_list.
Qed.

(** X7.  For an input whose [Properties] is not nil, the function panics
    exactly when the receiver's [SiteConfig] is empty and the input has the
    [APPLICATIONINSIGHTS_CONNECTION_STRING] key, whatever its value and
    whatever the order in which the map is visited. *)
Theorem unpack_panics_on_empty_SiteConfig order m input props :
  Properties input = Some props ->
  enumerates order props ->
  unpackLinuxFunctionAppOnContainerAppSettings order m input = None
  <-> SiteConfig m = [] /\ is_Some (props !! appInsightsKey).
Proof.
  intros Hprops Horder.
  unfold unpackLinuxFunctionAppOnContainerAppSettings. rewrite Hprops.
  set (st0 := {| model := set_BuiltinLogging m false;
                 dockerSettings := _; appSettings := ∅ |}).
  split.
  - intros Hpanic.
    destruct (SiteConfig m) as [|sc rest] eqn:Hsc.
    + split; [done|]. apply (enumerates_keys order); [done|].
      destruct (decide (appInsightsKey ∈ order.*1)) as [Hin|Hnot]; [done|].
      destruct (unpackEntries_total st0 order) as [st' Hrun]; [done|].
      rewrite Hrun in Hpanic. done.
    + destruct (unpackEntries_total st0 order) as [st' Hrun].
      { simpl. by rewrite Hsc. }
      rewrite Hrun in Hpanic. done.
  - intros [Hsc Hin]. rewrite unpackEntries_panics; [done|done|].
    by apply (enumerates_keys order props).
Qed.

Lemma enumerates_map order props :
  enumerates order props ->
  NoDup order.*1 /\ (list_to_map order : gmap string (option string)) = props.
Proof.
  unfold enumerates. intros Horder.
  assert (Hnd : NoDup order.*1) by (rewrite Horder; apply NoDup_fst_map_to_list).
  split; [done|].
  rewrite (list_to_map_proper order (map_to_list props)) by done.
  apply list_to_map_to_list.
Qed.

(** X8.  When the function returns for an input with [Properties],
    [FunctionExtensionsVersion] is the value of FUNCTIONS_EXTENSION_VERSION
    (empty for nil) if the input has that key and is unchanged otherwise;
    the first element of [SiteConfig] gets the normalised value of
    APPLICATIONINSIGHTS_CONNECTION_STRING as its connection string if the
    input has that key, and [SiteConfig] is unchanged otherwise; and an
    AzureWebJobsStorage entry sets either [StorageKeyVaultSecretID] (a Key
    Vault reference, the account name and key staying as they were) or the
    account name and key parsed from the value (the secret ID staying as
    it was). *)
Theorem unpack_fills_the_dedicated_fields order m input props m' :
  Properties input = Some props ->
  enumerates order props ->
  unpackLinuxFunctionAppOnContainerAppSettings order m input = Some m' ->
  FunctionExtensionsVersion m'
  = match props !! "FUNCTIONS_EXTENSION_VERSION" with
    | Some v => pointer_From v
    | None => FunctionExtensionsVersion m
    end
  /\ SiteConfig m'
     = match props !! appInsightsKey, SiteConfig m with
       | Some v, sc :: rest =>
           {| AppInsightsConnectionString := NormalizeNilableString v;
              sc_other := sc_other sc |} :: rest
       | _, _ => SiteConfig m
       end
  /\ (StorageAccountName m', StorageAccountKey m', StorageKeyVaultSecretID m')
     = match props !! "AzureWebJobsStorage" with
       | Some v =>
           match keyVaultSecret "AzureWebJobsStorage" v with
           | Some secret => (StorageAccountName m, StorageAccountKey m, secret)
           | None => (ParseWebJobsStorageString v, StorageKeyVaultSecretID m)
           end
       | None => (StorageAccountName m, StorageAccountKey m, StorageKeyVaultSecretID m)
       end.
Proof.
  intros Hprops Horder. destruct (enumerates_map _ _ Horder) as [Hnd Hmap].
  unfold unpackLinuxFunctionAppOnContainerAppSettings. rewrite Hprops.
  set (st0 := {| model := set_BuiltinLogging m false;
                 dockerSettings := _; appSettings := ∅ |}).
  destruct (unpackEntries st0 order) as [st'|] eqn:Hrun; [|done].
  cbn [mbind option_bind]. intros Hm'. injection Hm' as <-.
  cbn [set_AppSettings FunctionExtensionsVersion SiteConfig StorageAccountName
       StorageAccountKey StorageKeyVaultSecretID].
  split; [|split].
  - rewrite (unpackEntries_field (fun st => FunctionExtensionsVersion (model st))
               "FUNCTIONS_EXTENSION_VERSION" (fun v _ => pointer_From v)
               ltac:(intros st k v st1 Hstep; entry Hstep) _ _ _ Hnd Hrun).
    by rewrite Hmap.
  - rewrite (unpackEntries_field (fun st => SiteConfig (model st)) appInsightsKey
               (fun v old => match old with
                             | sc :: rest =>
                                 {| AppInsightsConnectionString := NormalizeNilableString v;
                                    sc_other := sc_other sc |} :: rest
                             | [] => []
                             end)
               ltac:(intros st k v st1 Hstep; unfold appInsightsKey; entry Hstep)
               _ _ _ Hnd Hrun).
    rewrite Hmap. simpl. destruct (props !! appInsightsKey); [|done].
    by destruct (SiteConfig m).
  - rewrite (unpackEntries_field
               (fun st => (StorageAccountName (model st), StorageAccountKey (model st),
                           StorageKeyVaultSecretID (model st)))
               "AzureWebJobsStorage"
               (fun v old => match keyVaultSecret "AzureWebJobsStorage" v with
                             | Some secret => (old.1.1, old.1.2, secret)
                             | None => (ParseWebJobsStorageString v, old.2)
                             end)
               ltac:(intros st k v st1 Hstep; unfold keyVaultSecret; entry Hstep;
                     cbn [String.eqb Ascii.eqb Bool.eqb]; repeat case_match;
                     simplify_eq; simpl; try done;
                     by destruct (ParseWebJobsStorageString _))
               _ _ _ Hnd Hrun).
    rewrite Hmap. simpl. done.
Qed.

(** X9.  The function never changes [Name], [ResourceGroup],
    [ManagedEnvironmentId], [Registries], [ContainerImage] or [Tags], and
    of [SiteConfig] only the connection string of the first element: the
    DOCKER_REGISTRY_SERVER_* values it reads are not stored in the
    model. *)
Theorem unpack_leaves_the_other_fields order m input m' :
  unpackLinuxFunctionAppOnContainerAppSettings order m input = Some m' ->
  Name m' = Name m
  /\ ResourceGroup m' = ResourceGroup m
  /\ ManagedEnvironmentId m' = ManagedEnvironmentId m
  /\ Registries m' = Registries m
  /\ ContainerImage m' = ContainerImage m
  /\ Tags m' = Tags m
  /\ sc_other <$> SiteConfig m' = sc_other <$> SiteConfig m.
Proof.
  unfold unpackLinuxFunctionAppOnContainerAppSettings.
  destruct (Properties input) as [props|]; [|by intros [= <-]].
  set (st0 := {| model := set_BuiltinLogging m false;
                 dockerSettings := _; appSettings := ∅ |}).
  destruct (unpackEntries st0 order) as [st'|] eqn:Hrun; [|done].
  cbn [mbind option_bind]. intros Hm'. injection Hm' as <-.
  pose proof (unpackEntries_untouched
    (fun st => (Name (model st), ResourceGroup (model st), ManagedEnvironmentId (model st),
                Registries (model st), ContainerImage (model st), Tags (model st),
                sc_other <$> SiteConfig (model st)))
    ltac:(intros st k v st1 Hstep; entry Hstep) _ _ _ Hrun) as Hsame.
  simpl in Hsame. simpl. by simplify_eq.
Qed.

End Unpack.
End AppServiceFacts.

(** ** The handlers *)

Module HandlerFacts.

Import pluginsdk sdk resources scope.

Section Facts.
Context `{PP : parse.Package} `{E : Externals}.

Lemma post_run {A} (m : M A) w (Q : A -> World -> list Event -> Prop) :
  post m w Q -> forall a w' tr, m w = (a, w', tr) -> Q a w' tr.
Proof. unfold post. intros HQ a w' tr Hrun. by rewrite Hrun in HQ. Qed.

Lemma post_eq {A} (m : M A) w a w' tr :
  post m w (fun x y z => x = a /\ y = w' /\ z = tr) -> m w = (a, w', tr).
Proof.
  unfold post. destruct (m w) as [[x y] z]. simpl. by intros (-> & -> & ->).
Qed.

Lemma post_ret {A} (a : A) w (Q : A -> World -> list Event -> Prop) :
  Q a w [] -> post (ret a) w Q.
Proof. done. Qed.

Lemma post_bind {A B} (m : M A) (f : A -> M B) w (Q : B -> World -> list Event -> Prop) :
  post m w (fun a w1 e1 => post (f a) w1 (fun b w2 e2 => Q b w2 (e1 ++ e2))) ->
  post (bind m f) w Q.
Proof.
  unfold post, bind. destruct (m w) as [[a w1] e1]. simpl.
  destruct (f a w1) as [[b w2] e2]. done.
Qed.

Lemma post_call meta q w (Q : Reply -> World -> list Event -> Prop) :
  (forall r, r = remote meta (clock w) q ->
     Q r {| data := data w; clock := S (clock w) |} [(q, r)]) ->
  post (call meta q) w Q.
Proof. intros HQ. by apply HQ. Qed.

Lemma post_getData w (Q : ResourceData -> World -> list Event -> Prop) :
  Q (data w) w [] -> post getData w Q.
Proof. done. Qed.

Lemma post_modify f w (Q : unit -> World -> list Event -> Prop) :
  Q tt {| data := f (data w); clock := clock w |} [] -> post (modify f) w Q.
Proof. done. Qed.

Lemma post_update f w (Q : option error -> World -> list Event -> Prop) :
  (forall d e, f (data w) = (d, e) -> Q e {| data := d; clock := clock w |} []) ->
  post (update f) w Q.
Proof.
  intros HQ. unfold post, update. destruct (f (data w)) as [d e] eqn:Hf. by apply HQ.
Qed.

Lemma post_updateOrPanic f w (Q : option Outcome -> World -> list Event -> Prop) :
  (f (data w) = None -> Q (Some Panicked) w []) ->
  (forall d, f (data w) = Some (d, None) -> Q None {| data := d; clock := clock w |} []) ->
  (forall d err, f (data w) = Some (d, Some err) ->
     Q (Some (Returned (Some err))) {| data := d; clock := clock w |} []) ->
  post (updateOrPanic f) w Q.
Proof.
  intros Hpanic Hnone Herr. unfold post, updateOrPanic.
  destruct (f (data w)) as [[d [err|]]|] eqn:Hf; simpl; auto.
Qed.

(** One step of a handler, followed symbolically. *)
Ltac step :=
  lazymatch goal with
  | |- post (ret _) _ _ => apply post_ret
  | |- post (bind _ _) _ _ => apply post_bind
  | |- post (call _ _) _ _ => apply post_call; intros ? _
  | |- post getData _ _ => apply post_getData
  | |- post (modify _) _ _ => apply post_modify
  | |- post (update _) _ _ => apply post_update; intros ? ? ?
  | |- post (updateOrPanic _) _ _ => apply post_updateOrPanic; [intros ?|intros ? ?|intros ? ? ?]
  | |- post (orReturn _ _) _ _ => unfold orReturn
  | |- post (orStop _ _) _ _ => unfold orStop
  | |- post (andThen _ _) _ _ => unfold andThen
  | |- post (setOrReturn _ _) _ _ => unfold setOrReturn
  | |- post (checkForExisting _ _ _ _ _ _) _ _ => unfold checkForExisting
  | |- post (waitForReplication _ _ _ _) _ _ => unfold waitForReplication
  | |- post (match ?x with _ => _ end) _ _ => destruct x eqn:?
  | |- post (let _ := _ in _) _ _ => cbv zeta
  end.

Ltac steps := repeat (step; cbn beta iota zeta).

(** The same, keeping for every call the equation that says what the
    remote side answered. *)
Ltac answered :=
  repeat (lazymatch goal with
          | |- post (call _ _) _ _ => apply post_call; intros ? ?
          | _ => step
          end; cbn beta iota zeta).

Ltac handlers :=
  unfold resourceServiceBusSubscriptionCreateUpdate, resourceServiceBusSubscriptionRead,
    resourceServiceBusSubscriptionDelete,
    resourceServiceBusNamespaceAuthorizationRuleCreateUpdate,
    resourceServiceBusNamespaceAuthorizationRuleRead,
    resourceServiceBusNamespaceAuthorizationRuleDelete,
    resourceServiceBusTopicAuthorizationRuleCreateUpdate,
    resourceServiceBusTopicAuthorizationRuleRead,
    resourceServiceBusTopicAuthorizationRuleDelete,
    dataSourceKubernetesClusterRead,
    LinuxFunctionAppOnContainerResource_Create,
    LinuxFunctionAppOnContainerResource_Read,
    LinuxFunctionAppOnContainerResource_Update,
    LinuxFunctionAppOnContainerResource_Delete;
  cbn [Func].

(** Every position of a concrete trace. *)
Ltac indices :=
  repeat match goal with
  | H : [] !! _ = Some _ |- _ => by rewrite lookup_nil in H
  | H : (_ :: _) !! ?i = Some _ |- _ =>
      first [ is_var i; destruct i as [|?] | idtac ]; cbn [lookup list_lookup] in H;
      first [ injection H as H | idtac ]
  end.

Ltac booleans :=
  repeat match goal with
    | H : negb _ = true |- _ => apply negb_true_iff in H
    | H : negb _ = false |- _ => apply negb_false_iff in H
    end;
  repeat match goal with H : ResponseWasNotFound _ = _ |- _ => rewrite H in * end.

(** Claim C1, amended.  In every handler of the ServiceBus resources and of
    the Kubernetes cluster data source, an SDK call that returns an error
    is the last call the handler makes (nothing is retried, nothing else is
    attempted) and the handler returns an error that wraps it, unless the
    failing call is the GET of the resource itself answered not-found.
    That reply is handled on its own: [Read] clears the ID and returns nil,
    the data source returns its own "was not found" error, and a create
    goes on to [CreateOrUpdate]. *)
Theorem sdk_errors_surface (h : Handler) meta w out w' tr :
  In h crudHandlers ->
  h meta w = (out, w', tr) ->
  forall i q r e,
    tr !! i = Some (q, r) -> reply_err r = Some e ->
    if excused (q, r)
    then (S i = length tr
          /\ (out = Returned None /\ Id (data w') = EmptyString
              \/ exists shown, out = Returned (Some (Errorf "%s was not found" [ArgString shown]))))
         \/ (i = 0 /\ exists q' r', tr !! 1 = Some (q', r') /\ isCreateOrUpdate q' = true)
    else S i = length tr /\ exists outer, out = Returned (Some outer) /\ wraps outer e.
Proof.
  intros Hin. revert out w' tr. refine (post_run _ _ _ _).
  unfold crudHandlers in Hin. simpl in Hin.
  repeat (destruct Hin as [<-|Hin]); [..|done].
  all: handlers; steps.
  all: intros i q r' e'; cbn [app data clock]; intros Hi He.
  all: indices; simplify_eq; unfold excused; cbn [fst snd isResourceGet andb]; booleans;
    try congruence.
  all: first
    [ solve [split; [reflexivity | eexists; split; [reflexivity | simpl; auto 10]]]
    | solve [left; split; [reflexivity | left; split; reflexivity]]
    | solve [left; split; [reflexivity | right; eexists; reflexivity]]
    | solve [right; split; [reflexivity | do 2 eexists; split; reflexivity]] ].
Qed.

(** Claim C8.  Let the stored ID parse, and let the remote side answer
    the GET for it with an error.  Then the [Read] of a ServiceBus resource
    makes that GET and no other call; on not-found it returns nil with the
    stored ID cleared, on any other error it returns an error that wraps
    the GET's and leaves the resource data, the stored ID included, as it
    was.  The [Read] of the containerized Linux Function App hands a
    not-found reply to [metadata.MarkAsGone].  The Kubernetes cluster data
    source, whose GET is for the cluster named in the configuration,
    returns an error in both cases, its own "was not found" error on
    not-found, and leaves the resource data as it was. *)
Theorem not_found_is_handled_asymmetrically meta w r e :
  reply_err r = Some e ->
  (forall id,
     parse.SubscriptionID (Id (data w)) = inl id ->
     let q := SubscriptionsGet (parse.SubscriptionId.ResourceGroup id)
                (parse.SubscriptionId.NamespaceName id) (parse.SubscriptionId.TopicName id)
                (parse.SubscriptionId.Name id) in
     remote meta (clock w) q = r ->
     isResourceGet q = true
     /\ if ResponseWasNotFound (reply_Response r)
        then oneCall (resourceServiceBusSubscriptionRead meta w) q r
               (Returned None) (SetId EmptyString (data w))
        else exists outer, wraps outer e
               /\ oneCall (resourceServiceBusSubscriptionRead meta w) q r
                    (Returned (Some outer)) (data w))
  /\ (forall id,
       parse.NamespaceAuthorizationRuleID (Id (data w)) = inl id ->
       let q := NamespacesGetAuthorizationRule
                  (parse.NamespaceAuthorizationRuleId.ResourceGroup id)
                  (parse.NamespaceAuthorizationRuleId.NamespaceName id)
                  (parse.NamespaceAuthorizationRuleId.AuthorizationRuleName id) in
       remote meta (clock w) q = r ->
       isResourceGet q = true
       /\ if ResponseWasNotFound (reply_Response r)
          then oneCall (resourceServiceBusNamespaceAuthorizationRuleRead meta w) q r
                 (Returned None) (SetId EmptyString (data w))
          else exists outer, wraps outer e
                 /\ oneCall (resourceServiceBusNamespaceAuthorizationRuleRead meta w) q r
                      (Returned (Some outer)) (data w))
  /\ (forall id,
       parse.TopicAuthorizationRuleID (Id (data w)) = inl id ->
       let q := TopicsGetAuthorizationRule
                  (parse.TopicAuthorizationRuleId.ResourceGroup id)
                  (parse.TopicAuthorizationRuleId.NamespaceName id)
                  (parse.TopicAuthorizationRuleId.TopicName id)
                  (parse.TopicAuthorizationRuleId.AuthorizationRuleName id) in
       remote meta (clock w) q = r ->
       isResourceGet q = true
       /\ if ResponseWasNotFound (reply_Response r)
          then oneCall (resourceServiceBusTopicAuthorizationRuleRead meta w) q r
                 (Returned None) (SetId EmptyString (data w))
          else exists outer, wraps outer e
                 /\ oneCall (resourceServiceBusTopicAuthorizationRuleRead meta w) q r
                      (Returned (Some outer)) (data w))
  /\ (forall id,
       parse.FunctionAppID (Id (data w)) = inl id ->
       let q := WebAppsGet (parse.FunctionAppId.ResourceGroup id)
                  (parse.FunctionAppId.SiteName id) in
       remote meta (clock w) q = r ->
       isResourceGet q = true
       /\ if ResponseWasNotFound (reply_Response r)
          then oneCall (Func LinuxFunctionAppOnContainerResource_Read meta w) q r
                 (Returned (MarkAsGone id (data w)).2) (MarkAsGone id (data w)).1
          else exists outer, wraps outer e
                 /\ oneCall (Func LinuxFunctionAppOnContainerResource_Read meta w) q r
                      (Returned (Some outer)) (data w))
  /\ (let id := parse.NewClusterID (Account_SubscriptionId meta)
                  (GetString (data w) "resource_group_name") (GetString (data w) "name") in
      let q := ManagedClustersGet (parse.ClusterId.ResourceGroup id)
                 (parse.ClusterId.ManagedClusterName id) in
      remote meta (clock w) q = r ->
      isResourceGet q = true
      /\ if ResponseWasNotFound (reply_Response r)
         then oneCall (dataSourceKubernetesClusterRead meta w) q r
                (Returned (Some (Errorf "%s was not found"
                                   [ArgString (parse.ClusterId_String id)])))
                (data w)
         else exists outer, wraps outer e
                /\ oneCall (dataSourceKubernetesClusterRead meta w) q r
                     (Returned (Some outer)) (data w)).
Proof.
  intros He.
  repeat match goal with |- _ /\ _ => split end.
  1-4: intros id Hid.
  all: cbv zeta; intros Hr; (split; [reflexivity|]).
  all: destruct (ResponseWasNotFound (reply_Response r)) eqn:Hnf.
  all: match goal with
       | |- context [oneCall ?run _ _ _ _] =>
           destruct run as [[out w'] tr] eqn:Hrun; unfold oneCall; cbn [fst snd];
           revert He Hr Hnf; try revert Hid; revert out w' tr Hrun
       end.
  all: refine (post_run _ _ _ _); handlers; answered.
  all: cbn [app data clock]; intros; simplify_eq; try congruence.
  all: try (by repeat split).
  all: try (eexists; split; [|repeat split; reflexivity]; simpl; by auto).
  all: cbn [data] in *.
  all: match goal with Hgone : MarkAsGone _ _ = _ |- _ => by rewrite Hgone end.
Qed.

(** Claim C9.  Let the remote side answer the GET for the ID a create
    computes with a resource: no error, and not not-found.  Then a
    create-or-update handler of a ServiceBus resource that runs for a new
    resource ([d.IsNewResource()]), and the [Create] of the containerized
    Linux Function App, make that GET and no other call, so
    [CreateOrUpdate] is never called; they return the import-as-exists,
    respectively the resource-requires-import, error for that ID; and they
    leave the resource data as it was: no ID is set. *)
Theorem create_is_guarded meta w r :
  reply_err r = None ->
  ResponseWasNotFound (reply_Response r) = false ->
  (forall id,
     IsNewResource (data w) = true ->
     subscriptionResourceId meta (data w) = Some id ->
     let q := SubscriptionsGet (parse.SubscriptionId.ResourceGroup id)
                (parse.SubscriptionId.NamespaceName id) (parse.SubscriptionId.TopicName id)
                (parse.SubscriptionId.Name id) in
     remote meta (clock w) q = r ->
     isResourceGet q = true /\ isCreateOrUpdate q = false
     /\ oneCall (resourceServiceBusSubscriptionCreateUpdate meta w) q r
          (Returned (Some (ImportAsExistsError "azurerm_servicebus_subscription"
                             (parse.SubscriptionId_ID id))))
          (data w))
  /\ (forall id,
       IsNewResource (data w) = true ->
       namespaceAuthorizationRuleResourceId meta (data w) = Some id ->
       let q := NamespacesGetAuthorizationRule
                  (parse.NamespaceAuthorizationRuleId.ResourceGroup id)
                  (parse.NamespaceAuthorizationRuleId.NamespaceName id)
                  (parse.NamespaceAuthorizationRuleId.AuthorizationRuleName id) in
       remote meta (clock w) q = r ->
       isResourceGet q = true /\ isCreateOrUpdate q = false
       /\ oneCall (resourceServiceBusNamespaceAuthorizationRuleCreateUpdate meta w) q r
            (Returned (Some (ImportAsExistsError
                               "azurerm_servicebus_namespace_authorization_rule"
                               (parse.NamespaceAuthorizationRuleId_ID id))))
            (data w))
  /\ (forall id,
       IsNewResource (data w) = true ->
       topicAuthorizationRuleResourceId meta (data w) = Some id ->
       let q := TopicsGetAuthorizationRule
                  (parse.TopicAuthorizationRuleId.ResourceGroup id)
                  (parse.TopicAuthorizationRuleId.NamespaceName id)
                  (parse.TopicAuthorizationRuleId.TopicName id)
                  (parse.TopicAuthorizationRuleId.AuthorizationRuleName id) in
       remote meta (clock w) q = r ->
       isResourceGet q = true /\ isCreateOrUpdate q = false
       /\ oneCall (resourceServiceBusTopicAuthorizationRuleCreateUpdate meta w) q r
            (Returned (Some (ImportAsExistsError
                               "azurerm_servicebus_topic_authorization_rule"
                               (parse.TopicAuthorizationRuleId_ID id))))
            (data w))
  /\ (forall storageDomainSuffix linuxFunctionAppOnContainer,
       Storage_DomainSuffix meta = Some storageDomainSuffix ->
       Decode (data w) = inl linuxFunctionAppOnContainer ->
       let id := parse.NewFunctionAppID (Account_SubscriptionId meta)
                   (AppService.ResourceGroup linuxFunctionAppOnContainer)
                   (AppService.Name linuxFunctionAppOnContainer) in
       let q := WebAppsGet (parse.FunctionAppId.ResourceGroup id)
                  (parse.FunctionAppId.SiteName id) in
       remote meta (clock w) q = r ->
       isResourceGet q = true /\ isCreateOrUpdate q = false
       /\ oneCall (Func LinuxFunctionAppOnContainerResource_Create meta w) q r
            (Returned (Some (ResourceRequiresImport ResourceType id))) (data w)).
Proof.
  intros He Hnf.
  repeat match goal with |- _ /\ _ => split end.
  1-3: intros id Hnew Hid.
  4: intros storageDomainSuffix linuxFunctionAppOnContainer Hnew Hid.
  all: cbv zeta; intros Hr; (split; [reflexivity|]); (split; [reflexivity|]).
  all: match goal with
       | |- context [oneCall ?run _ _ _ _] =>
           destruct run as [[out w'] tr] eqn:Hrun; unfold oneCall; cbn [fst snd];
           revert He Hnf Hr Hnew Hid; revert out w' tr Hrun
       end.
  all: refine (post_run _ _ _ _); handlers; answered.
  all: cbn [app data clock]; intros; simplify_eq; booleans; try congruence.
  all: by repeat split.
Qed.

(** Claim C7.  The create and update handlers of the containerized Linux
    Function App and the create and delete handlers of the ServiceBus
    authorization rules return nil only after a successful call that
    changes the resource was followed by a successful wait (for the
    future's completion, or for the replication of the paired namespace).
    If the wait fails it is the last call made and the handler returns an
    error that wraps the wait's error. *)
Theorem long_running_operations_are_awaited (h : Handler) meta w out w' tr :
  In h waitingHandlers ->
  h meta w = (out, w', tr) ->
  (out = Returned None ->
     exists j i q r q' r',
       j < i /\ tr !! j = Some (q, r) /\ isMutation q = true /\ reply_err r = None
       /\ tr !! i = Some (q', r') /\ isWait q' = true /\ reply_err r' = None)
  /\ (forall i q r e,
        tr !! i = Some (q, r) -> isWait q = true -> reply_err r = Some e ->
        S i = length tr /\ exists outer, out = Returned (Some outer) /\ wraps outer e).
Proof.
  intros Hin. revert out w' tr. refine (post_run _ _ _ _).
  unfold waitingHandlers in Hin. simpl in Hin.
  repeat (destruct Hin as [<-|Hin]); [..|done].
  all: handlers; steps.
  all: cbn [app data clock]; split;
    [ intros Hout; try discriminate Hout
    | intros i q r' e' Hi Hw He; indices; simplify_eq; try discriminate Hw; try congruence ].
  all: try solve [split; [reflexivity | eexists; split; [reflexivity | simpl; auto 10]]].
  all: first
    [ solve [exists 0, 1; do 4 eexists; repeat split; first [lia | reflexivity | assumption]]
    | solve [exists 1, 2; do 4 eexists; repeat split; first [lia | reflexivity | assumption]]
    | solve [exists 3, 4; do 4 eexists; repeat split; first [lia | reflexivity | assumption]] ].
Qed.

Lemma errorOf_accepts {A} (parser : string -> A + error) id :
  errorOf parser id = None <-> exists parsed, parser id = inl parsed.
Proof.
  unfold errorOf. destruct (parser id) as [parsed|err]; split; intros Hx; eauto; try done.
  by destruct Hx.
Qed.

(** Claim C4.  Each ServiceBus resource registers an importer whose
    validation function accepts an ID exactly when the resource's own
    parser returns no error on it, and that parser is the one [Read] and
    [Delete] start with: they return its error before any SDK call, and
    call the SDK when it accepts. *)
Theorem importers_validate_with_the_parser :
  (validatesWith resourceServiceBusSubscription parse.SubscriptionID
   /\ parsesWith resourceServiceBusSubscription parse.SubscriptionID)
  /\ (validatesWith resourceServiceBusNamespaceAuthorizationRule
        parse.NamespaceAuthorizationRuleID
      /\ parsesWith resourceServiceBusNamespaceAuthorizationRule
           parse.NamespaceAuthorizationRuleID)
  /\ (validatesWith resourceServiceBusTopicAuthorizationRule parse.TopicAuthorizationRuleID
      /\ parsesWith resourceServiceBusTopicAuthorizationRule
           parse.TopicAuthorizationRuleID).
Proof.
  repeat split.
  all: try (eexists; split; [reflexivity|]; intros id; apply errorOf_accepts).
  all: do 2 eexists; split; [reflexivity|]; split; [reflexivity|]; intros meta w.
  all: match goal with |- match ?p with _ => _ end => destruct p eqn:Hp end.
  all: split.
  all: try match goal with
       | |- (?m ?w0).2 <> [] => change (post m w0 (fun _ _ tr => tr <> []))
       | |- _ = (_, _, _) => apply post_eq
       end.
  all: handlers; steps; try congruence; cbn [app]; try done.
  all: simplify_eq; by destruct w.
Qed.

(** The [Read] of the containerized Linux Function App hands a not-found
    GET to [metadata.MarkAsGone] and returns what it returns. *)
Lemma linux_Read_marks_as_gone meta w out w' tr q r e :
  Func LinuxFunctionAppOnContainerResource_Read meta w = (out, w', tr) ->
  tr !! 0 = Some (q, r) -> reply_err r = Some e ->
  ResponseWasNotFound (reply_Response r) = true ->
  tr = [(q, r)]
  /\ exists id, parse.FunctionAppID (Id (data w)) = inl id
       /\ (data w', out) = (let '(d, gone) := MarkAsGone id (data w) in (d, Returned gone)).
Proof.
  intros Hrun Hfirst Herr Hnf. revert Hfirst Herr Hnf. revert out w' tr Hrun.
  refine (post_run _ _ _ _). handlers; steps.
  all: cbn [app data clock]; intros Hfirst Herr Hnf.
  all: indices; simplify_eq; booleans; try congruence.
  split; [reflexivity|]. eexists. split; [reflexivity|].
  cbn [data] in *.
  match goal with Hgone : MarkAsGone _ _ = _ |- _ => by rewrite Hgone end.
Qed.

(** A create that returns nil has stored [resourceId.ID()], and the parser
    at the start of [Read] accepted it.  What the parser makes of the ID is
    decided in package [parse]. *)
Lemma successful_create_stored_a_parsable_id meta w w' tr :
  (resourceServiceBusSubscriptionCreateUpdate meta w = (Returned None, w', tr) ->
     exists resourceId parsed,
       subscriptionResourceId meta (data w) = Some resourceId
       /\ parse.SubscriptionID (parse.SubscriptionId_ID resourceId) = inl parsed)
  /\ (resourceServiceBusNamespaceAuthorizationRuleCreateUpdate meta w = (Returned None, w', tr) ->
     exists resourceId parsed,
       namespaceAuthorizationRuleResourceId meta (data w) = Some resourceId
       /\ parse.NamespaceAuthorizationRuleID
            (parse.NamespaceAuthorizationRuleId_ID resourceId) = inl parsed)
  /\ (resourceServiceBusTopicAuthorizationRuleCreateUpdate meta w = (Returned None, w', tr) ->
     exists resourceId parsed,
       topicAuthorizationRuleResourceId meta (data w) = Some resourceId
       /\ parse.TopicAuthorizationRuleID
            (parse.TopicAuthorizationRuleId_ID resourceId) = inl parsed).
Proof.
  repeat split; intros Hrun.
  all: apply (f_equal (fun x => x.1.1)) in Hrun; cbn [fst] in Hrun; revert Hrun.
  all: match goal with |- (?m ?w0).1.1 = _ -> ?G =>
         change (post m w0 (fun out _ _ => out = Returned None -> G)) end.
  all: handlers; steps; intros Hout; try discriminate Hout.
  all: cbn [data Id SetId] in *; eauto.
Qed.

Lemma setAll_keeps kvs d :
  Id (setAll kvs d) = Id d
  /\ IsNewResource (setAll kvs d) = IsNewResource d
  /\ changed (setAll kvs d) = changed d
  /\ partial (setAll kvs d) = partial d
  /\ timeouts (setAll kvs d) = timeouts d.
Proof.
  unfold setAll. revert d. induction kvs as [|kv kvs IH]; intros d; simpl; [done|].
  destruct (IH (Set_ kv.1 kv.2 d)) as (-> & -> & -> & -> & ->). done.
Qed.

Lemma setAll_Id kvs d : Id (setAll kvs d) = Id d.
Proof. apply setAll_keeps. Qed.

Lemma setAll_other k kvs d :
  Forall (fun kv => kv.1 <> k) kvs -> attrs (setAll kvs d) !! k = attrs d !! k.
Proof.
  unfold setAll. revert d. induction kvs as [|kv kvs IH]; intros d Hall; simpl; [done|].
  apply Forall_cons in Hall as [Hne Hall]. rewrite IH by done. simpl.
  by apply lookup_insert_ne.
Qed.

(** X10.  A [Delete] handler never panics and never changes the resource
    data.  It makes at most two SDK calls, the delete and, for the
    authorization rules, the wait for replication, and it returns nil
    exactly when it made a call and every call it made succeeded: a
    not-found reply to the delete is an error like any other. *)
Theorem delete_returns_nil_when_every_call_succeeded (h : Handler) meta w out w' tr :
  In h deleteHandlers ->
  h meta w = (out, w', tr) ->
  data w' = data w
  /\ out <> Panicked
  /\ length tr <= 2
  /\ (forall q r, tr !! 0 = Some (q, r) -> isMutation q = true)
  /\ (forall q r, tr !! 1 = Some (q, r) -> isWait q = true)
  /\ (out = Returned None <-> tr <> [] /\ Forall succeeded tr).
Proof.
  intros Hin. revert out w' tr. refine (post_run _ _ _ _).
  unfold deleteHandlers in Hin. simpl in Hin.
  repeat (destruct Hin as [<-|Hin]); [..|done].
  all: handlers; steps.
  all: cbn [app data clock length].
  all: split; [reflexivity|]; split; [discriminate|]; split; [lia|].
  all: split; [intros q' r' Hq; indices; by simplify_eq|].
  all: split; [intros q' r' Hq; indices; by simplify_eq|].
  all: unfold succeeded; split; [intros Hout; try discriminate Hout|intros [Hne Hall]].
  all: try done.
  all: try (split; [done|]; repeat constructor; done).
  all: exfalso; repeat match goal with
         | Hall : Forall _ (_ :: _) |- _ => apply Forall_cons in Hall as [? Hall]
         end; simpl in *; congruence.
Qed.

(** X11.  A ServiceBus create/update handler that panics has made no SDK
    call and changed nothing.  Otherwise its first SDK call is the GET of
    the resource when the resource is new, and the [CreateOrUpdate] itself
    when it is not: an update makes no existence check. *)
Theorem create_update_checks_existence_only_when_new (h : Handler) meta w out w' tr :
  In h createUpdateHandlers ->
  h meta w = (out, w', tr) ->
  match out with
  | Panicked => tr = [] /\ w' = w
  | Returned _ =>
      exists q r, tr !! 0 = Some (q, r)
        /\ (if IsNewResource (data w) then isResourceGet q else isCreateOrUpdate q) = true
  end.
Proof.
  intros Hin. revert out w' tr. refine (post_run _ _ _ _).
  unfold createUpdateHandlers in Hin. simpl in Hin.
  repeat (destruct Hin as [<-|Hin]); [..|done].
  all: handlers; steps.
  all: cbn [app data clock]; try (split; [reflexivity|by destruct w]).
  all: do 2 eexists; (split; [reflexivity|]).
  all: repeat match goal with Hnew : IsNewResource _ = _ |- _ => rewrite Hnew end.
  all: reflexivity.
Qed.

(** X12.  A ServiceBus create/update handler leaves the resource data
    untouched unless its [CreateOrUpdate] call succeeded.  Once that call
    succeeded the ID computed from the configuration is stored, also when
    the wait or the read that follows fails; the only other outcome is the
    read that follows finding the resource gone, clearing the ID and
    returning nil. *)
Theorem create_update_stores_the_id_once_the_resource_exists :
  storesTheId resourceServiceBusSubscriptionCreateUpdate
    (fun meta d => parse.SubscriptionId_ID <$> subscriptionResourceId meta d)
  /\ storesTheId resourceServiceBusNamespaceAuthorizationRuleCreateUpdate
       (fun meta d => parse.NamespaceAuthorizationRuleId_ID
                        <$> namespaceAuthorizationRuleResourceId meta d)
  /\ storesTheId resourceServiceBusTopicAuthorizationRuleCreateUpdate
       (fun meta d => parse.TopicAuthorizationRuleId_ID
                        <$> topicAuthorizationRuleResourceId meta d).
Proof.
  split; [|split].
  all: intros meta w out w' tr; revert out w' tr; refine (post_run _ _ _ _).
  all: handlers; steps.
  all: cbn [app data clock]; split;
    [ intros Hall | intros i q r' Hi Hq He; indices; simplify_eq; try discriminate Hq ].
  all: try reflexivity.
  all: try (exfalso;
            repeat match goal with
            | Hall : Forall _ (_ :: _) |- _ => apply Forall_cons in Hall as [? Hall]
            end; simpl in *; naive_solver).
  all: try congruence.
  all: eexists; (split; [reflexivity|]).
  all: cbn [data Id SetId]; rewrite ?setAll_Id; cbn [Id SetId]; auto.
Qed.

Lemma setAll_IsNewResource kvs d : IsNewResource (setAll kvs d) = IsNewResource d.
Proof. apply setAll_keeps. Qed.

Lemma setAll_changed kvs d : changed (setAll kvs d) = changed d.
Proof. apply setAll_keeps. Qed.

Lemma setAll_partial kvs d : partial (setAll kvs d) = partial d.
Proof. apply setAll_keeps. Qed.

(** X13.  The [Read] of a ServiceBus resource never panics and keeps
    [IsNewResource], the changed keys and the partial flag.  It keeps the
    stored ID too, except in one case: its single call, the GET, was
    answered not-found with an error, and then it clears the ID and
    returns nil.  With the 3.0 beta on it leaves the deprecated attributes
    resource_group_name, namespace_name and topic_name as they were. *)
Theorem Read_keeps_the_id (h : Handler) meta w out w' tr :
  In h resourceReads ->
  h meta w = (out, w', tr) ->
  out <> Panicked
  /\ IsNewResource (data w') = IsNewResource (data w)
  /\ changed (data w') = changed (data w)
  /\ partial (data w') = partial (data w)
  /\ (Id (data w') = Id (data w)
      \/ Id (data w') = EmptyString /\ out = Returned None
         /\ exists q r, tr = [(q, r)] /\ excused (q, r) = true /\ reply_err r <> None)
  /\ (ThreePointOhBeta = true ->
      forall k, In k ["resource_group_name"; "namespace_name"; "topic_name"] ->
        attrs (data w') !! k = attrs (data w) !! k).
Proof.
  intros Hin. revert out w' tr. refine (post_run _ _ _ _).
  unfold resourceReads in Hin. simpl in Hin.
  repeat (destruct Hin as [<-|Hin]); [..|done].
  all: handlers; steps.
  all: cbn [app data clock].
  all: split; [discriminate|].
  all: rewrite ?setAll_IsNewResource, ?setAll_changed, ?setAll_partial, ?setAll_Id.
  all: cbn [data Id IsNewResource changed partial attrs SetId].
  all: do 3 (split; [reflexivity|]).
  all: split;
    [ first [ by left
            | right; do 2 (split; [reflexivity|]); do 2 eexists; split; [reflexivity|];
              unfold excused; cbn [fst snd isResourceGet andb]; split; congruence ]
    | intros Hbeta k Hk; try reflexivity ].
  all: rewrite Hbeta; cbn [negb app].
  all: rewrite ?setAll_other; cbn [attrs SetId]; try reflexivity.
  all: simpl in Hk; destruct Hk as [<-|[<-|[<-|[]]]].
  all: repeat first [ apply Forall_app; split | case_match ].
  all: repeat constructor; discriminate.
Qed.

(** X14.  In the handlers of the containerized Linux Function App an SDK
    call that returns an error is the last call made and its error is
    returned wrapped, unless it is the GET of the app answered not-found.
    [Update] and [Delete] make no such exception: they return the wrapped
    error for a not-found reply as well. *)
Theorem linux_sdk_errors_surface meta w out w' tr i q r e :
  tr !! i = Some (q, r) -> reply_err r = Some e ->
  (forall h, In h linuxHandlers -> h meta w = (out, w', tr) ->
     excused (q, r) = false -> surfaces out tr i e)
  /\ (forall h, In h [Func LinuxFunctionAppOnContainerResource_Update;
                      Func LinuxFunctionAppOnContainerResource_Delete] ->
        h meta w = (out, w', tr) -> surfaces out tr i e).
Proof.
  intros Hi He. split.
  - intros h Hin Hrun. revert Hi He. revert out w' tr Hrun. refine (post_run _ _ _ _).
    unfold linuxHandlers in Hin. simpl in Hin.
    repeat (destruct Hin as [<-|Hin]); [..|done].
    all: handlers; steps.
    all: cbn [app data clock]; intros Hi He Hex.
    all: indices; simplify_eq; unfold excused in Hex; cbn [fst snd isResourceGet andb] in Hex;
      booleans; try congruence.
    all: split; [reflexivity | eexists; split; [reflexivity | simpl; auto 10]].
  - intros h Hin Hrun. revert Hi He. revert out w' tr Hrun. refine (post_run _ _ _ _).
    simpl in Hin.
    repeat (destruct Hin as [<-|Hin]); [..|done].
    all: handlers; steps.
    all: cbn [app data clock]; intros Hi He.
    all: indices; simplify_eq; try congruence.
    all: split; [reflexivity | eexists; split; [reflexivity | simpl; auto 10]].
Qed.

(** X15.  What the handlers of the containerized Linux Function App write
    to the resource data.  [Create] stores the ID built from the decoded
    model when it returns nil and changes nothing when it returns an error
    or panics.  [Read] changes nothing (the state it assembles is not
    written back), except that a not-found GET hands the data to
    [metadata.MarkAsGone].  [Update] only sets the partial flag, and
    [Delete] changes nothing. *)
Theorem linux_handlers_write_little meta w out w' tr :
  (Func LinuxFunctionAppOnContainerResource_Create meta w = (out, w', tr) ->
     (out = Returned None ->
        exists m, Decode (data w) = inl m
          /\ data w' = SetId (parse.FunctionAppId_ID
                                (parse.NewFunctionAppID (Account_SubscriptionId meta)
                                   (AppService.ResourceGroup m) (AppService.Name m)))
                         (data w))
     /\ (out <> Returned None -> data w' = data w))
  /\ (Func LinuxFunctionAppOnContainerResource_Read meta w = (out, w', tr) ->
      data w' = data w
      \/ exists id q r, parse.FunctionAppID (Id (data w)) = inl id
           /\ tr = [(q, r)] /\ excused (q, r) = true
           /\ data w' = (MarkAsGone id (data w)).1)
  /\ (Func LinuxFunctionAppOnContainerResource_Update meta w = (out, w', tr) ->
      data w' = data w \/ data w' = Partial true (data w))
  /\ (Func LinuxFunctionAppOnContainerResource_Delete meta w = (out, w', tr) ->
      data w' = data w).
Proof.
  split; [|split; [|split]]; revert out w' tr; refine (post_run _ _ _ _).
  all: handlers; steps; cbn [app data clock]; try (by left); try (by right); try done.
  all: try (split; [intros Hout; try discriminate Hout|intros Hout; try done]).
  all: try (eexists; split; reflexivity).
  right. do 3 eexists. split; [reflexivity|]. split; [reflexivity|].
  unfold excused. cbn [fst snd isResourceGet andb data] in *.
  split; [done|].
  match goal with Hgone : MarkAsGone _ _ = _ |- _ => by rewrite Hgone end.
Qed.


(** X17.  An [Update] of the Linux Function App whose stored ID parses and
    whose configuration decodes begins with the GET of the site of that
    ID, and every later call addresses the same resource group and site,
    in this order: [CreateOrUpdate], wait, [UpdateConfiguration]; it
    returns nil only after all four.  The site config in the envelope of
    [CreateOrUpdate] is the one [ExpandSiteConfigLinuxFunctionAppOnContainer]
    returned, with the merged app settings and, if the registry or the
    image changed, the new LinuxFxVersion, whether or not [site_config]
    has changed; [UpdateConfiguration] sends the same site config. *)
Theorem linux_Update_addresses_the_stored_id meta w out w' tr storageDomainSuffix id state :
  Storage_DomainSuffix meta = Some storageDomainSuffix ->
  parse.FunctionAppID (Id (data w)) = inl id ->
  Decode (Partial true (data w)) = inl state ->
  Func LinuxFunctionAppOnContainerResource_Update meta w = (out, w', tr) ->
  let rg := parse.FunctionAppId.ResourceGroup id in
  let site := parse.FunctionAppId.SiteName id in
  let got := remote meta (clock w) (WebAppsGet rg site) in
  (exists rest, tr = (WebAppsGet rg site, got) :: rest /\ length rest <= 3)
  /\ (forall q r, tr !! 1 = Some (q, r) ->
        exists siteEnvelope props registry expanded,
          q = WebAppsCreateOrUpdate rg site siteEnvelope
          /\ web.site_Properties (asSite (reply_body got)) = Some props
          /\ head (AppService.Registries state) = Some registry
          /\ (ExpandSiteConfigLinuxFunctionAppOnContainer (AppService.SiteConfig state)
                (web.props_SiteConfig props) (Partial true (data w)) registry
                (AppService.FunctionExtensionsVersion state)
                (storageStringOf state storageDomainSuffix)).1 = Some expanded
          /\ web.site_Properties siteEnvelope ≫= web.props_SiteConfig
             = Some (withAppSettings
                       (if HasChange (Partial true (data w)) "registry"
                           || HasChange (Partial true (data w)) "container_image"
                        then withLinuxFxVersion expanded
                               (EncodeLinuxFunctionAppOnContainerLinuxFxVersion
                                  (AppService.Registries state)
                                  (AppService.ContainerImage state))
                        else expanded)
                       (MergeUserAppSettings (web.AppSettings expanded)
                          (AppService.AppSettings state))))
  /\ (forall q r, tr !! 2 = Some (q, r) -> q = FutureWaitForCompletionRef rg site)
  /\ (forall q r, tr !! 3 = Some (q, r) ->
        exists siteEnvelope r1,
          tr !! 1 = Some (WebAppsCreateOrUpdate rg site siteEnvelope, r1)
          /\ q = WebAppsUpdateConfiguration rg site
                 (web.site_Properties siteEnvelope ≫= web.props_SiteConfig))
  /\ (out = Returned None -> length tr = 4).
Proof.
  intros Hsuffix Hid Hstate Hrun. revert Hsuffix Hid Hstate. revert out w' tr Hrun.
  refine (post_run _ _ _ _).
  handlers; answered.
  all: cbn [app data clock length] in *; intros Hsuffix Hid Hstate; try congruence.
  all: repeat match goal with
       | Ha : ?x = _, Hb : ?x = inl _ |- _ => rewrite Ha in Hb
       | Ha : ?x = _, Hb : ?x = Some _ |- _ => rewrite Ha in Hb
       end; simplify_eq.
  all: split; [eexists; split; [reflexivity|simpl; lia]|].
  all: split; [intros q' r' Hq; indices; simplify_eq|].
  all: try (split; [intros q' r' Hq; indices; simplify_eq; try reflexivity|]).
  all: try (split; [intros q' r' Hq; indices; simplify_eq;
                    try (do 2 eexists; split; reflexivity)|]).
  all: try (intros Hout; try discriminate Hout; reflexivity).
  all: match goal with
       | Hc : (if ?b then Some ?y else match ?p with _ => _ end) = Some ?x |- _ =>
           assert (x = y) by (destruct b; [|destruct p]; congruence); subst x
       end.
  all: match goal with Hl : AppService.Registries _ = _ :: _ |- _ => rewrite Hl in * end.
  all: do 4 eexists; split; [reflexivity|]; split; [eassumption|];
    split; [reflexivity|]; split; [eassumption|reflexivity].
Qed.

Section Schema.
Import schema.

(** [servicebus.EntityStatusActive], [EntityStatusDisabled] and
    [EntityStatusReceiveDisabled] *)
Variables active disabled receiveDisabled : string.

Lemma setAll_origin kvs d k v :
  attrs (setAll kvs d) !! k = Some v -> attrs d !! k = Some v \/ In (k, v) kvs.
Proof.
  unfold setAll. revert d. induction kvs as [|[k0 v0] kvs IH]; intros d; simpl; [auto|].
  intros Hk. destruct (IH _ Hk) as [Hd|Hin]; [|auto].
  simpl in Hd. destruct (decide (k0 = k)) as [->|Hne].
  - rewrite lookup_insert_eq in Hd. injection Hd as ->. auto.
  - rewrite lookup_insert_ne in Hd by done. auto.
Qed.

(** X18.  Every attribute value the [Read] of [azurerm_servicebus_subscription]
    writes is declared in the resource's schema, for either setting of the
    3.0 beta flag, and has the type the schema declares for it. *)
Theorem subscription_Read_sets_declared_attributes meta w out w' tr k v :
  resourceServiceBusSubscriptionRead meta w = (out, w', tr) ->
  attrs (data w') !! k = Some v ->
  attrs (data w) !! k <> Some v ->
  exists sch, resourceServicebusSubscriptionSchema active disabled receiveDisabled !! k = Some sch /\ Type_ sch = typeOf v.
Proof.
  revert out w' tr. refine (post_run _ _ _ _).
  unfold resourceServicebusSubscriptionSchema.
  handlers; steps.
  all: cbn [app data clock attrs SetId]; intros Hk Hne; try done.
  all: apply setAll_origin in Hk as [Hk|Hin]; [done|].
  all: destruct ThreePointOhBeta; cbn [negb app] in Hin |- *.
  all: repeat match goal with
       | Hin : In _ (_ :: _) |- _ => destruct Hin as [Hin|Hin]; [injection Hin as <- <-|]
       | Hin : In _ [] |- _ => destruct Hin
       | Hin : In _ (_ ++ _) |- _ => apply in_app_or in Hin as [Hin|Hin]
       | Hin : In _ (match ?x with _ => _ end) |- _ => destruct x
       end.
  all: eexists; split; [vm_compute; reflexivity|reflexivity].
Qed.

(** X19.  The schema of [azurerm_servicebus_subscription] is consistent
    for either setting of the 3.0 beta flag: every attribute is exactly one
    of required and optional; a required attribute is not computed and has
    no default; every attribute named in a [ConflictsWith] is another
    declared attribute that names this one in return; deprecated
    attributes exist only with the beta off and conflict with topic_id;
    and a default has the attribute's type. *)
Theorem subscription_schema_is_consistent k sch :
  resourceServicebusSubscriptionSchema active disabled receiveDisabled !! k = Some sch ->
  Required sch = negb (Optional sch)
  /\ (Required sch = true -> Computed sch = false /\ Default sch = None)
  /\ (forall c, In c (ConflictsWith sch) ->
        c <> k /\ exists sch', resourceServicebusSubscriptionSchema active disabled receiveDisabled !! c = Some sch' /\ In k (ConflictsWith sch'))
  /\ (is_Some (Deprecated sch) -> ThreePointOhBeta = false /\ ConflictsWith sch = ["topic_id"])
  /\ match Default sch with Some v => typeOf v = Type_ sch | None => True end.
Proof.
  unfold resourceServicebusSubscriptionSchema.
  destruct ThreePointOhBeta eqn:Hbeta; cbn [negb]; intros Hk.
  all: repeat match goal with
       | Hk : <[_:=_]> _ !! _ = Some _ |- _ =>
           apply lookup_insert_Some in Hk as [[<- <-]|[_ Hk]]
       | Hk : list_to_map _ !! _ = Some _ |- _ => apply elem_of_list_to_map_2 in Hk
       | Hk : _ ∈ _ :: _ |- _ => apply elem_of_cons in Hk as [Hk|Hk]; [injection Hk as -> ->|]
       | Hk : _ ∈ [] |- _ => by apply elem_of_nil in Hk
       end.
  all: cbn [Required Optional Computed Default Deprecated ConflictsWith Type_ optional
            deprecated negb typeOf].
  all: split; [reflexivity|]; split; [intros; try done|]; split;
       [|split; [intros [? ?]; try done|try done]].
  all: intros c Hc; repeat (destruct Hc as [<-|Hc]; [split; [done|]|]); try done.
  all: eexists; split; [vm_compute; reflexivity|simpl; auto].
Qed.

End Schema.

End Facts.
End HandlerFacts.

(** ** Timeouts *)

Module TimeoutFacts.

Import pluginsdk sdk resources scope.

Section Facts.
Context `{PP : parse.Package} `{E : Externals}.

(** Claim C5.  The three ServiceBus resources and the containerized Linux
    Function App register the same default timeouts, 30 minutes to create,
    5 minutes to read, 30 minutes to update and 30 minutes to delete, and
    these are the defaults the page of the Function App documents. *)
Theorem resources_register_the_stated_timeouts :
  Forall (fun r => Timeouts r = Some statedTimeouts)
    [resourceServiceBusSubscription;
     resourceServiceBusNamespaceAuthorizationRule;
     resourceServiceBusTopicAuthorizationRule]
  /\ typedTimeouts LinuxFunctionAppOnContainerResource_Create
       LinuxFunctionAppOnContainerResource_Read
       LinuxFunctionAppOnContainerResource_Update
       LinuxFunctionAppOnContainerResource_Delete = statedTimeouts
  /\ docs.documents docs.linux_function_app_container statedTimeouts
  /\ statedTimeouts
     = {| pluginsdk.Create := Some 1800000000000%Z;
          pluginsdk.Read := Some 300000000000%Z;
          pluginsdk.Update := Some 1800000000000%Z;
          pluginsdk.Delete := Some 1800000000000%Z |}.
Proof.
  split; [repeat constructor|]. split; [reflexivity|]. split; [|reflexivity].
  repeat split.
Qed.

(** The data source registers a timeout for [Read] only. *)
Lemma data_source_registers_read_timeout :
  Timeouts dataSourceKubernetesCluster
  = Some {| pluginsdk.Create := None; pluginsdk.Read := Some (5 * Minute)%Z;
            pluginsdk.Update := None; pluginsdk.Delete := None |}.
Proof. reflexivity. Qed.

End Facts.
End TimeoutFacts.

(** ** The flatten functions of the Kubernetes cluster data source *)

Module FlattenFacts.

Import clusterdata.

Section Flatten.

(** [kubernetes.ParseKubeConfig], [kubernetes.ParseKubeConfigAAD] *)
Variable ParseKubeConfig : string -> kubernetes.KubeConfig + error.
Variable ParseKubeConfigAAD : string -> kubernetes.KubeConfigAAD + error.

(** X20.  Flattening an access profile never fails with an error: the
    raw kube config is returned whenever the profile has one, also when it
    cannot be parsed, in which case the flattened block list is empty.  A
    flattened config is a single block with the six keys host, username,
    password, client_certificate, client_key and cluster_ca_certificate,
    and for an AAD config (one that contains "apiserver-id:") the password,
    the client certificate and the client key are empty.  The function
    panics exactly when the config parses to one without clusters or
    without users; a config that parses to one with both gives a block. *)
Theorem access_profile_is_flattened_without_error profile :
  match flattenKubernetesClusterDataSourceAccessProfile ParseKubeConfig ParseKubeConfigAAD profile with
  | Some (raw, blocks) =>
      raw = profile_AccessProfile profile ≫= KubeConfig
      /\ (blocks = []
          \/ exists values, blocks = [values] /\ dom values = kubeConfigKeys
               /\ forall rawConfig, raw = Some rawConfig ->
                    GoStrings.Contains rawConfig "apiserver-id:" = true ->
                    values !! "password" = Some EmptyString
                    /\ values !! "client_certificate" = Some EmptyString
                    /\ values !! "client_key" = Some EmptyString)
      /\ (forall rawConfig, raw = Some rawConfig ->
            (if GoStrings.Contains rawConfig "apiserver-id:"
             then exists err, ParseKubeConfigAAD rawConfig = inr err
             else exists err, ParseKubeConfig rawConfig = inr err) ->
            blocks = [])
      /\ (forall rawConfig, raw = Some rawConfig ->
            if GoStrings.Contains rawConfig "apiserver-id:"
            then forall config, ParseKubeConfigAAD rawConfig = inl config ->
                   kubernetes.aad_Clusters config <> [] /\ kubernetes.aad_Users config <> []
                   /\ blocks <> []
            else forall config, ParseKubeConfig rawConfig = inl config ->
                   kubernetes.Clusters config <> [] /\ kubernetes.Users config <> []
                   /\ blocks <> [])
  | None =>
      exists rawConfig, profile_AccessProfile profile ≫= KubeConfig = Some rawConfig
        /\ if GoStrings.Contains rawConfig "apiserver-id:"
           then exists config, ParseKubeConfigAAD rawConfig = inl config
                  /\ (kubernetes.aad_Clusters config = [] \/ kubernetes.aad_Users config = [])
           else exists config, ParseKubeConfig rawConfig = inl config
                  /\ (kubernetes.Clusters config = [] \/ kubernetes.Users config = [])
  end.
Proof.
  unfold flattenKubernetesClusterDataSourceAccessProfile.
  destruct (profile_AccessProfile profile) as [accessProfile|]; cbn [mbind option_bind].
  2: { split; [done|]. split; [by left|]. split; done. }
  destruct (KubeConfig accessProfile) as [rawConfig|].
  2: { split; [done|]. split; [by left|]. split; done. }
  destruct (GoStrings.Contains rawConfig "apiserver-id:") eqn:Haad.
  - destruct (ParseKubeConfigAAD rawConfig) as [config|err] eqn:Hparse.
    2: { split; [done|]. split; [by left|]. split; [done|].
         intros ? [= <-]. rewrite Haad. intros ? Hp. congruence. }
    unfold flattenKubernetesClusterDataSourceKubeConfigAAD.
    destruct (kubernetes.aad_Clusters config) as [|c cs] eqn:Hc.
    { cbn [mbind option_bind]. exists rawConfig. split; [done|]. rewrite Haad. eauto. }
    destruct (kubernetes.aad_Users config) as [|u us] eqn:Hu.
    { cbn [mbind option_bind]. exists rawConfig. split; [done|]. rewrite Haad. eauto. }
    cbn [mbind option_bind]. cbv zeta. split; [done|]. split.
    + right. eexists. split; [reflexivity|]. split.
      * rewrite !dom_insert_L, dom_empty_L. unfold kubeConfigKeys. set_solver.
      * intros ? _ _. by vm_compute.
    + split.
      * intros ? [= <-]. rewrite Haad. intros [? ?]. congruence.
      * intros ? [= <-]. rewrite Haad. intros ? Hp. rewrite Hparse in Hp.
        injection Hp as <-. rewrite Hc, Hu. done.
  - destruct (ParseKubeConfig rawConfig) as [config|err] eqn:Hparse.
    2: { split; [done|]. split; [by left|]. split; [done|].
         intros ? [= <-]. rewrite Haad. intros ? Hp. congruence. }
    unfold flattenKubernetesClusterDataSourceKubeConfig.
    destruct (kubernetes.Clusters config) as [|c cs] eqn:Hc.
    { cbn [mbind option_bind]. exists rawConfig. split; [done|]. rewrite Haad. eauto. }
    destruct (kubernetes.Users config) as [|u us] eqn:Hu.
    { cbn [mbind option_bind]. exists rawConfig. split; [done|]. rewrite Haad. eauto. }
    cbn [mbind option_bind]. cbv zeta. split; [done|]. split.
    + right. eexists. split; [reflexivity|]. split.
      * rewrite !dom_insert_L, dom_empty_L. unfold kubeConfigKeys. set_solver.
      * intros ? [= <-] Hc'. congruence.
    + split.
      * intros ? [= <-]. rewrite Haad. intros [? ?]. congruence.
      * intros ? [= <-]. rewrite Haad. intros ? Hp. rewrite Hparse in Hp.
        injection Hp as <-. rewrite Hc, Hu. done.
Qed.

Lemma sshKeys_foldl keys acc :
  foldl (fun sshKeys sshKey =>
           match KeyData sshKey with
           | Some keyData => sshKeys ++ [({["key_data" := keyData]} : gmap string string)]
           | None => sshKeys
           end) acc keys
  = acc ++ ((fun keyData => {["key_data" := keyData]}) <$> omap KeyData keys).
Proof.
  revert acc. induction keys as [|key keys IH]; intros acc; simpl.
  { by rewrite app_nil_r. }
  rewrite IH. destruct (KeyData key); simpl; [|done]. by rewrite <- app_assoc.
Qed.

(** X21.  [flattenKubernetesClusterDataSourceLinuxProfile] always returns
    exactly one block, also for a nil profile.  Its ssh_key list has one
    entry for every public key whose [KeyData] is not nil, in order;
    admin_username is present exactly when the profile sets it; and the
    block has no other key. *)
Theorem linux_profile_always_has_one_block input :
  exists values,
    flattenKubernetesClusterDataSourceLinuxProfile input = [values]
    /\ values !! "ssh_key"
       = Some (ABlocks ((fun keyData => {["key_data" := keyData]})
                          <$> omap KeyData (publicKeys input)))
    /\ values !! "admin_username"
       = match input with
         | Some profile => AString <$> AdminUsername profile
         | None => None
         end
    /\ forall k, is_Some (values !! k) -> k = "ssh_key" \/ k = "admin_username".
Proof.
  unfold flattenKubernetesClusterDataSourceLinuxProfile, publicKeys.
  destruct input as [profile|]; cbn [mbind option_bind default].
  2: { eexists. split; [reflexivity|]. split; [done|]. split; [done|].
       intros k [v Hv]. apply lookup_insert_Some in Hv as [[<- _]|[_ Hv]]; [by left|].
       by rewrite lookup_empty in Hv. }
  eexists. split; [reflexivity|]. split; [|split].
  - rewrite lookup_insert_eq. do 2 f_equal.
    destruct (SSH profile) as [ssh|]; [|done].
    destruct (PublicKeys ssh) as [keys|]; cbn [default]; [|done].
    by rewrite sshKeys_foldl.
  - rewrite lookup_insert_ne by done. destruct (AdminUsername profile); [|done].
    by rewrite lookup_insert_eq.
  - intros k [v Hv]. apply lookup_insert_Some in Hv as [[<- _]|[_ Hv]]; [by left|].
    destruct (AdminUsername profile).
    + apply lookup_insert_Some in Hv as [[<- _]|[_ Hv]]; [by right|].
      by rewrite lookup_empty in Hv.
    + by rewrite lookup_empty in Hv.
Qed.

End Flatten.
End FlattenFacts.

(** * The properties at concrete inputs *)

Module StorageCacheRuns.

Import StorageCache StorageCacheFacts.

(** Claim C2 on a run: a first [AccountKey] for the sample account. *)
Lemma AccountKey_stores_without_accountsLock_witness :
  let run := AccountKey samples.acctDetails samples.oneAccount samples.emptyStore in
  accountKey samples.acctDetails = None
  /\ run.1.1.2 = (Some "k1", None)
  /\ guarded accountsLock run.2 = false.
Proof.
  cbv zeta. split; [reflexivity|]. split; [reflexivity|].
  apply (AccountKey_stores_without_accountsLock samples.acctDetails samples.oneAccount
           samples.emptyStore (withKey samples.acctDetails (Some "k1")) "k1"
           {| storageAccountsCache :=
                <["acct" := withKey samples.acctDetails (Some "k1")]> ∅;
              requests := 1 |}).
  - reflexivity.
  - reflexivity.
Defined.

(** Claim C6 on a run: the sample account is found remotely, then from the
    cache. *)
Lemma lookups_are_cached_witness :
  let run := FindAccount samples.parseAccount samples.oneAccount "acct" samples.emptyStore in
  (exists a, run.1.1 = (Some a, None))
  /\ ~ offline run.2
  /\ exists evs', (FindAccount samples.parseAccount samples.oneAccount "acct" run.1.2).1
                  = (run.1.1, run.1.2)
                  /\ (FindAccount samples.parseAccount samples.oneAccount "acct" run.1.2).2 = evs'
                  /\ offline evs'.
Proof.
  cbv zeta.
  destruct (FindAccount samples.parseAccount samples.oneAccount "acct" samples.emptyStore)
    as [[[found err] s'] evs] eqn:Hrun.
  assert (Hres : exists a, found = Some a /\ err = None /\ ~ offline evs).
  { vm_compute in Hrun. injection Hrun as <- <- <- <-. eexists. split; [reflexivity|].
    split; [reflexivity|]. intros Hoff.
    apply Forall_cons in Hoff as [_ Hoff]. apply Forall_cons in Hoff as [_ Hoff].
    apply Forall_cons in Hoff as [Hoff _]. discriminate Hoff. }
  destruct Hres as (a & -> & -> & Hon). simpl.
  split; [by eexists|]. split; [done|].
  destruct (proj1 (proj2 (lookups_are_cached samples.parseAccount samples.oneAccount))
              "acct" samples.emptyStore a s' evs Hrun) as (_ & evs' & Hagain & Hoff).
  exists evs'. rewrite Hagain. done.
Defined.

(** Claim C6 as stated fails: a lookup that finds nothing succeeds, caches
    nothing and asks the remote side again the next time. *)
Lemma FindAccount_does_not_cache_absence :
  let first := FindAccount samples.parseAccount samples.noAccounts "missing" samples.emptyStore in
  let second := FindAccount samples.parseAccount samples.noAccounts "missing" first.1.2 in
  first.1.1 = (None, None)
  /\ In (EvRemote AccountsList) first.2
  /\ storageAccountsCache first.1.2 !! "missing" = None
  /\ second.1.1 = (None, None)
  /\ In (EvRemote AccountsList) second.2.
Proof.
  cbv zeta. vm_compute. repeat split; auto.
Qed.

(** X1 on a run: the sample account is added and then found offline. *)
Lemma AddToCache_then_FindAccount_witness :
  let run := AddToCache samples.parseAccount samples.oneAccount "acct"
               (samples.account "acct") samples.emptyStore in
  run.1.1 = None
  /\ exists account,
       storageAccountsCache run.1.2 = <["acct" := account]> ∅
       /\ FindAccount samples.parseAccount samples.noAccounts "acct" run.1.2
          = (Some account, None, run.1.2, hit "acct").
Proof.
  cbv zeta. split; [reflexivity|].
  set (run := AddToCache samples.parseAccount samples.oneAccount "acct"
                (samples.account "acct") samples.emptyStore).
  destruct (AddToCache_then_FindAccount samples.parseAccount samples.oneAccount
              samples.noAccounts "acct" (samples.account "acct") samples.emptyStore
              run.1.2 run.2 ltac:(reflexivity))
    as (account & _ & Hstore & _ & _ & Hfind & _).
  exists account. split; [exact Hstore|exact Hfind].
Defined.

(** X2 on a run: an account whose ID the parser rejects. *)
Lemma AddToCache_failure_changes_nothing_witness :
  let props := {| acc_Name := Some "acct"; acc_ID := Some EmptyString;
                  acc_Kind := "StorageV2"; acc_Sku := None;
                  acc_AccountProperties := None |} in
  let run := AddToCache samples.parseAccount samples.oneAccount "acct" props
               samples.emptyStore in
  exists err, run.1.1 = Some err /\ run.1.2 = samples.emptyStore
              /\ wraps err (ExternalError "empty ID").
Proof.
  cbv zeta.
  set (props := {| acc_Name := Some "acct"; acc_ID := Some EmptyString;
                   acc_Kind := "StorageV2"; acc_Sku := None;
                   acc_AccountProperties := None |}).
  set (run := AddToCache samples.parseAccount samples.oneAccount "acct" props
                samples.emptyStore).
  eexists. split; [reflexivity|].
  destruct (AddToCache_failure_changes_nothing samples.parseAccount samples.oneAccount
              "acct" props samples.emptyStore _ run.1.2 run.2 ltac:(reflexivity))
    as (Hsame & _ & _).
  split; [exact Hsame|]. simpl. auto.
Defined.

(** X4 on a run: the first lookup of the sample account. *)
Lemma FindAccount_caches_the_listing_witness :
  let run := FindAccount samples.parseAccount samples.oneAccount "acct" samples.emptyStore in
  storageAccountsCache samples.emptyStore !! "acct" = None
  /\ run.1.1.2 = None
  /\ exists a, storageAccountsCache run.1.2 !! "acct" = Some a
               /\ accountKey a = None /\ name a = "acct".
Proof.
  cbv zeta. split; [reflexivity|]. split; [reflexivity|].
  set (run := FindAccount samples.parseAccount samples.oneAccount "acct" samples.emptyStore).
  destruct (FindAccount_caches_the_listing samples.parseAccount samples.oneAccount
              samples.noAccounts "acct" samples.emptyStore run.1.1.1 run.1.2 run.2
              ltac:(reflexivity) ltac:(reflexivity))
    as (pages & Hlist & _ & Hall & _).
  destruct (Hall "acct") as (a & Ha & Hk & Hn & _).
  { injection Hlist as <-. exists (samples.account "acct").
    split; [apply list_elem_of_here|reflexivity]. }
  exists a. split; [exact Ha|]. split; [exact Hk|exact Hn].
Defined.

(** X5 on a run: the keys of the sample account cannot be listed. *)
Lemma AccountKey_touches_only_its_entry_witness :
  let run := AccountKey samples.acctDetails samples.noAccounts samples.emptyStore in
  (exists err, run.1.1.2 = (None, Some err))
  /\ run.1.1.1 = samples.acctDetails
  /\ storageAccountsCache run.1.2 = ∅.
Proof.
  cbv zeta. split; [eexists; reflexivity|].
  set (run := AccountKey samples.acctDetails samples.noAccounts samples.emptyStore).
  destruct (AccountKey_touches_only_its_entry samples.acctDetails samples.noAccounts
              samples.emptyStore run.1.1.1 run.1.1.2 run.1.2 run.2 ltac:(reflexivity))
    as (_ & _ & _ & Herr).
  destruct (Herr _ ltac:(reflexivity)) as (_ & Had & Hc & _).
  split; [exact Had|exact Hc].
Defined.

End StorageCacheRuns.

Module AppServiceRuns.

Import AppService AppServiceFacts.

#[local] Existing Instance samples.helpers.



(** X7 on a run: a model without site config meets the key. *)
Lemma unpack_panics_on_empty_SiteConfig_witness :
  let props : gmap string (option string) :=
    {[ appInsightsKey := Some "InstrumentationKey=0" ]} in
  let input := {| Properties := Some props |} in
  let m := set_SiteConfig samples.model [] in
  Properties input = Some props
  /\ enumerates (map_to_list props) props
  /\ unpackLinuxFunctionAppOnContainerAppSettings (map_to_list props) m input = None.
Proof.
  cbv zeta. split; [reflexivity|]. split; [unfold enumerates; reflexivity|].
  apply (unpack_panics_on_empty_SiteConfig _ _
           {| Properties := Some {[ appInsightsKey := Some "InstrumentationKey=0" ]} |}
           {[ appInsightsKey := Some "InstrumentationKey=0" ]}
           ltac:(reflexivity) ltac:(unfold enumerates; reflexivity)).
  split; [reflexivity|]. eexists. reflexivity.
Defined.

(** X8 on a run: the sample settings. *)
Lemma unpack_fills_the_dedicated_fields_witness :
  let input := {| Properties := Some samples.settings |} in
  let order := map_to_list samples.settings in
  Properties input = Some samples.settings
  /\ enumerates order samples.settings
  /\ exists m',
       unpackLinuxFunctionAppOnContainerAppSettings order samples.model input = Some m'
       /\ FunctionExtensionsVersion m' = "~4"
       /\ SiteConfig m' = SiteConfig samples.model.
Proof.
  cbv zeta. split; [reflexivity|]. split; [unfold enumerates; reflexivity|].
  destruct (unpackLinuxFunctionAppOnContainerAppSettings (map_to_list samples.settings)
              samples.model {| Properties := Some samples.settings |}) as [m'|] eqn:Hrun;
    [|vm_compute in Hrun; discriminate Hrun].
  exists m'. split; [reflexivity|].
  destruct (unpack_fills_the_dedicated_fields (map_to_list samples.settings) samples.model
              {| Properties := Some samples.settings |} samples.settings m'
              ltac:(reflexivity) ltac:(unfold enumerates; reflexivity) Hrun)
    as (Hversion & Hconfig & _).
  split; [exact Hversion|exact Hconfig].
Defined.

(** X9 on a run: the sample settings. *)
Lemma unpack_leaves_the_other_fields_witness :
  let input := {| Properties := Some samples.settings |} in
  exists m',
    unpackLinuxFunctionAppOnContainerAppSettings (map_to_list samples.settings)
      samples.model input = Some m'
    /\ Name m' = "app" /\ Registries m' = Registries samples.model.
Proof.
  cbv zeta.
  destruct (unpackLinuxFunctionAppOnContainerAppSettings (map_to_list samples.settings)
              samples.model {| Properties := Some samples.settings |}) as [m'|] eqn:Hrun;
    [|vm_compute in Hrun; discriminate Hrun].
  exists m'. split; [reflexivity|].
  destruct (unpack_leaves_the_other_fields (map_to_list samples.settings) samples.model
              {| Properties := Some samples.settings |} m' Hrun)
    as (Hname & _ & _ & Hregistries & _).
  split; [exact Hname|exact Hregistries].
Defined.

End AppServiceRuns.

Module HandlerRuns.

Import pluginsdk sdk resources scope HandlerFacts.

#[local] Existing Instances samples.ids samples.clusterTypes samples.webTypes
  samples.helpers samples.externals.

(** Claim C1 as stated fails: the GET of a [Read] is answered not-found,
    so the SDK returned an error, and the handler returns nil. *)
Lemma Read_returns_nil_on_not_found :
  let run := resourceServiceBusSubscriptionRead samples.nothingThere
               (samples.world "example" false) in
  run.1.1 = Returned None
  /\ exists q r e, run.2 = [(q, r)] /\ reply_err r = Some e.
Proof.
  cbv zeta. split; [reflexivity|]. do 3 eexists. split; reflexivity.
Qed.

(** Claim C1 on a run: a delete against a remote side that answers 500. *)
Lemma sdk_errors_surface_witness :
  let run := resourceServiceBusSubscriptionDelete samples.broken
               (samples.world "example" false) in
  exists q r e outer,
    run.2 !! 0 = Some (q, r) /\ reply_err r = Some e
    /\ 1 = length run.2 /\ run.1.1 = Returned (Some outer) /\ wraps outer e.
Proof.
  cbv zeta.
  pose proof (sdk_errors_surface
                resourceServiceBusSubscriptionDelete samples.broken
                (samples.world "example" false)
                _ _ _ ltac:(simpl; auto) ltac:(reflexivity)
                0 _ _ _ ltac:(reflexivity) ltac:(reflexivity)) as Hthm.
  simpl in Hthm. destruct Hthm as [Hlen (outer & Hout & Hwrap)].
  do 4 eexists. split; [reflexivity|]. split; [reflexivity|]. split; [exact Hlen|].
  split; [exact Hout|exact Hwrap].
Defined.

(** Claim C4 on a run: the importer of the subscription resource accepts
    one ID and rejects another, with the parser's error. *)
Lemma importers_validate_with_the_parser_witness :
  exists importer,
    Importer resourceServiceBusSubscription = Some importer
    /\ validateId importer "example" = None
    /\ validateId importer EmptyString = Some (ExternalError "empty ID").
Proof.
  destruct importers_validate_with_the_parser as [[(importer & Himp & Hiff) _] _].
  exists importer. split; [exact Himp|]. split.
  - apply Hiff. eexists. reflexivity.
  - injection Himp as <-. reflexivity.
Defined.

(** Claim C7 on a run: a delete of a namespace authorization rule. *)
Lemma long_running_operations_are_awaited_witness :
  let run := resourceServiceBusNamespaceAuthorizationRuleDelete samples.everythingThere
               (samples.world "example" false) in
  run.1.1 = Returned None
  /\ exists j i q r q' r',
       j < i /\ run.2 !! j = Some (q, r) /\ isMutation q = true /\ reply_err r = None
       /\ run.2 !! i = Some (q', r') /\ isWait q' = true /\ reply_err r' = None.
Proof.
  cbv zeta. split; [reflexivity|].
  apply (long_running_operations_are_awaited
           resourceServiceBusNamespaceAuthorizationRuleDelete samples.everythingThere
           (samples.world "example" false) _ _ _
           ltac:(simpl; auto 10) ltac:(reflexivity)).
  reflexivity.
Defined.

(** Claim C8 on two runs against a remote side that answers not-found:
    the read of a subscription clears the ID and returns nil, the data
    source returns its error and leaves the data as it was. *)
Lemma not_found_is_handled_asymmetrically_witness :
  let w := samples.world "example" false in
  let r := samples.reply 404 (Some (ExternalError "404 Not Found")) in
  oneCall (resourceServiceBusSubscriptionRead samples.nothingThere w)
    (SubscriptionsGet "rg" "ns" "topic" "example") r
    (Returned None) (samples.resourceData EmptyString false)
  /\ oneCall (dataSourceKubernetesClusterRead samples.nothingThere w)
       (ManagedClustersGet "rg" "example") r
       (Returned (Some (Errorf "%s was not found" [ArgString "example"])))
       (samples.resourceData "example" false).
Proof.
  cbv zeta.
  destruct (not_found_is_handled_asymmetrically (PP := samples.ids) (E := samples.externals)
              samples.nothingThere (samples.world "example" false)
              (samples.reply 404 (Some (ExternalError "404 Not Found")))
              (ExternalError "404 Not Found") ltac:(reflexivity))
    as (Hsubscription & _ & _ & _ & Hcluster).
  split.
  - exact (proj2 (Hsubscription _ ltac:(reflexivity) ltac:(reflexivity))).
  - exact (proj2 (Hcluster ltac:(reflexivity))).
Defined.

(** Claim C9 on two runs against a remote side where everything exists: a
    create of a subscription and a create of the Function App. *)
Lemma create_is_guarded_witness :
  let w := samples.world EmptyString true in
  let r := samples.reply 200 None in
  oneCall (resourceServiceBusSubscriptionCreateUpdate samples.everythingThere w)
    (SubscriptionsGet "rg" "ns" "topic" "example") r
    (Returned (Some (resources.ImportAsExistsError "azurerm_servicebus_subscription"
                       "example")))
    (samples.resourceData EmptyString true)
  /\ oneCall (Func LinuxFunctionAppOnContainerResource_Create samples.everythingThere w)
       (WebAppsGet "rg" "app") r
       (Returned (Some (resources.ResourceRequiresImport ResourceType
                          (parse.FunctionAppId.Build_t "sub" "rg" "app"))))
       (samples.resourceData EmptyString true).
Proof.
  cbv zeta.
  destruct (create_is_guarded (PP := samples.ids) (E := samples.externals)
              samples.everythingThere (samples.world EmptyString true)
              (samples.reply 200 None) ltac:(reflexivity) ltac:(reflexivity))
    as (Hsubscription & _ & _ & Hlinux).
  split.
  - exact (proj2 (proj2 (Hsubscription _ ltac:(reflexivity) ltac:(reflexivity)
                           ltac:(reflexivity)))).
  - exact (proj2 (proj2 (Hlinux _ _ ltac:(reflexivity) ltac:(reflexivity)
                           ltac:(reflexivity)))).
Defined.

(** A create of the Function App against a subscription where it does not
    exist yet: five SDK calls, the last one the wait, and the ID is set. *)
Example linux_create_succeeds :
  let run := Func LinuxFunctionAppOnContainerResource_Create samples.freshSubscription
               (samples.world EmptyString true) in
  run.1.1 = Returned None
  /\ Id (data run.1.2) = "app"
  /\ map (fun ev => (isResourceGet ev.1, isCreateOrUpdate ev.1, isWait ev.1)) run.2
     = [(true, false, false); (false, false, false); (false, false, false);
        (false, true, false); (false, false, true)].
Proof. cbv zeta. vm_compute. done. Qed.

(** The same create when the wait fails: the handler returns the wrapped
    error and sets no ID. *)
Example linux_create_fails_with_the_wait :
  let run := Func LinuxFunctionAppOnContainerResource_Create samples.waitFails
               (samples.world EmptyString true) in
  run.1.1 = Returned (Some (Errorf "waiting for creation of Linux %s: %+v"
                              [ArgString "app"; ArgError (ExternalError "timed out")]))
  /\ Id (data run.1.2) = EmptyString
  /\ length run.2 = 5.
Proof. cbv zeta. vm_compute. done. Qed.

(** A create of a topic authorization rule: existence check, create, wait,
    then the read with its two calls. *)
Example topic_rule_create_succeeds :
  let run := resourceServiceBusTopicAuthorizationRuleCreateUpdate samples.freshSubscription
               (samples.world EmptyString true) in
  run.1.1 = Returned None
  /\ Id (data run.1.2) = "example"
  /\ map (fun ev => (isResourceGet ev.1, isCreateOrUpdate ev.1, isWait ev.1)) run.2
     = [(true, false, false); (false, true, false); (false, false, true);
        (true, false, false); (false, false, false)].
Proof. cbv zeta. vm_compute. done. Qed.

(** X10 on a run: a delete of a namespace authorization rule that goes
    through. *)
Lemma delete_returns_nil_when_every_call_succeeded_witness :
  let run := resourceServiceBusNamespaceAuthorizationRuleDelete samples.everythingThere
               (samples.world "example" false) in
  run.1.1 = Returned None
  /\ length run.2 = 2
  /\ data run.1.2 = samples.resourceData "example" false.
Proof.
  cbv zeta.
  set (run := resourceServiceBusNamespaceAuthorizationRuleDelete samples.everythingThere
                (samples.world "example" false)).
  destruct (delete_returns_nil_when_every_call_succeeded
              resourceServiceBusNamespaceAuthorizationRuleDelete samples.everythingThere
              (samples.world "example" false) run.1.1 run.1.2 run.2
              ltac:(simpl; auto) ltac:(reflexivity))
    as (Hdata & _ & _ & _ & _ & Hnil).
  split; [|split; [reflexivity|exact Hdata]].
  apply Hnil. split; [discriminate|]. repeat constructor.
Defined.

(** X11 on a run: a create of a subscription starts with the GET. *)
Lemma create_update_checks_existence_only_when_new_witness :
  let run := resourceServiceBusSubscriptionCreateUpdate samples.freshSubscription
               (samples.world EmptyString true) in
  run.1.1 = Returned None
  /\ exists q r, run.2 !! 0 = Some (q, r) /\ isResourceGet q = true.
Proof.
  cbv zeta. split; [reflexivity|].
  exact (create_update_checks_existence_only_when_new
           resourceServiceBusSubscriptionCreateUpdate samples.freshSubscription
           (samples.world EmptyString true) _ _ _
           ltac:(simpl; auto) ltac:(reflexivity)).
Defined.

(** X13 on a run: a read of a subscription that exists. *)
Lemma Read_keeps_the_id_witness :
  let run := resourceServiceBusSubscriptionRead samples.everythingThere
               (samples.world "example" false) in
  run.1.1 = Returned None
  /\ IsNewResource (data run.1.2) = false
  /\ attrs (data run.1.2) !! "resource_group_name" = Some (VString "rg").
Proof.
  cbv zeta.
  set (run := resourceServiceBusSubscriptionRead samples.everythingThere
                (samples.world "example" false)).
  destruct (Read_keeps_the_id resourceServiceBusSubscriptionRead samples.everythingThere
              (samples.world "example" false) run.1.1 run.1.2 run.2
              ltac:(simpl; auto) ltac:(reflexivity))
    as (_ & Hnew & _ & _ & _ & Hbeta).
  split; [reflexivity|]. split; [exact Hnew|].
  rewrite (Hbeta ltac:(reflexivity) "resource_group_name" ltac:(simpl; auto)).
  reflexivity.
Defined.

(** X14 on a run: the GET of an update is answered not-found. *)
Lemma linux_sdk_errors_surface_witness :
  let run := Func LinuxFunctionAppOnContainerResource_Update samples.nothingThere
               (samples.world "example" false) in
  exists q r e,
    run.2 !! 0 = Some (q, r) /\ reply_err r = Some e /\ excused (q, r) = true
    /\ surfaces run.1.1 run.2 0 e.
Proof.
  cbv zeta.
  set (run := Func LinuxFunctionAppOnContainerResource_Update samples.nothingThere
                (samples.world "example" false)).
  do 3 eexists. split; [reflexivity|]. split; [reflexivity|]. split; [reflexivity|].
  apply (proj2 (linux_sdk_errors_surface samples.nothingThere
                  (samples.world "example" false) run.1.1 run.1.2 run.2 0 _ _ _
                  ltac:(reflexivity) ltac:(reflexivity))
           (Func LinuxFunctionAppOnContainerResource_Update)
           ltac:(simpl; auto) ltac:(reflexivity)).
Defined.


(** X17 on a run: an update of a deployed Function App makes its four
    calls, and the site config of the last is the one of the envelope. *)
Lemma linux_Update_addresses_the_stored_id_witness :
  let run := Func LinuxFunctionAppOnContainerResource_Update samples.deployed
               (samples.world "example" false) in
  run.1.1 = Returned None
  /\ length run.2 = 4
  /\ (exists r rest, run.2 = (WebAppsGet "rg" "example", r) :: rest)
  /\ exists siteEnvelope r1 r3,
       run.2 !! 1 = Some (WebAppsCreateOrUpdate "rg" "example" siteEnvelope, r1)
       /\ run.2 !! 3
          = Some (WebAppsUpdateConfiguration "rg" "example"
                    (web.site_Properties siteEnvelope ≫= web.props_SiteConfig), r3).
Proof.
  cbv zeta.
  set (run := Func LinuxFunctionAppOnContainerResource_Update samples.deployed
                (samples.world "example" false)).
  destruct (linux_Update_addresses_the_stored_id
              (PP := samples.ids) (E := samples.externals) samples.deployed
              (samples.world "example" false) run.1.1 run.1.2 run.2
              "core.windows.net" (parse.FunctionAppId.Build_t "sub" "rg" "example")
              samples.model
              ltac:(reflexivity) ltac:(reflexivity) ltac:(reflexivity) ltac:(reflexivity))
    as ((rest & Hfirst & _) & _ & _ & Hlast & Hnil).
  assert (Hout : run.1.1 = Returned None) by reflexivity.
  split; [exact Hout|]. split; [exact (Hnil Hout)|].
  split; [do 2 eexists; exact Hfirst|].
  destruct (Hlast _ (samples.reply 200 None) ltac:(reflexivity))
    as (siteEnvelope & r1 & Hsecond & Hq).
  exists siteEnvelope, r1, (samples.reply 200 None).
  split; [exact Hsecond|].
  cbn [parse.FunctionAppId.ResourceGroup parse.FunctionAppId.SiteName] in Hq.
  rewrite <- Hq. reflexivity.
Defined.

(** X18 on a run: the read of a subscription writes its name. *)
Lemma subscription_Read_sets_declared_attributes_witness :
  let w := samples.world "other" false in
  let run := resourceServiceBusSubscriptionRead samples.everythingThere w in
  attrs (data run.1.2) !! "name" = Some (VString "other")
  /\ attrs (data w) !! "name" <> Some (VString "other")
  /\ exists sch,
       schema.resourceServicebusSubscriptionSchema "Active" "Disabled" "ReceiveDisabled"
         !! "name" = Some sch
       /\ schema.Type_ sch = schema.TypeString.
Proof.
  cbv zeta.
  set (run := resourceServiceBusSubscriptionRead samples.everythingThere
                (samples.world "other" false)).
  assert (Hset : attrs (data run.1.2) !! "name" = Some (VString "other"))
    by reflexivity.
  assert (Hwas : attrs (data (samples.world "other" false)) !! "name"
                 <> Some (VString "other")) by discriminate.
  split; [exact Hset|]. split; [exact Hwas|].
  exact (subscription_Read_sets_declared_attributes
           (PP := samples.ids) (E := samples.externals) "Active" "Disabled" "ReceiveDisabled"
           samples.everythingThere (samples.world "other" false) run.1.1 run.1.2 run.2
           "name" (VString "other") ltac:(reflexivity) Hset Hwas).
Defined.

(** X19 at the required attribute of the 3.0 schema. *)
Lemma subscription_schema_is_consistent_witness :
  exists sch,
    schema.resourceServicebusSubscriptionSchema "Active" "Disabled" "ReceiveDisabled"
      !! "topic_id" = Some sch
    /\ schema.Required sch = negb (schema.Optional sch)
    /\ schema.ConflictsWith sch = [].
Proof.
  destruct (schema.resourceServicebusSubscriptionSchema "Active" "Disabled" "ReceiveDisabled"
              !! "topic_id") as [sch|] eqn:Hk; [|vm_compute in Hk; discriminate Hk].
  exists sch. split; [reflexivity|].
  split.
  - apply (subscription_schema_is_consistent (E := samples.externals) "Active" "Disabled" "ReceiveDisabled"
             "topic_id" sch Hk).
  - vm_compute in Hk. injection Hk as <-. reflexivity.
Defined.

End HandlerRuns.
